(** * proteinbenchmark: the orchestration object and the force-field table

    A shallow embedding of [proteinbenchmark/protein_system.py] and
    [proteinbenchmark/force_fields.py].  The Python code is straight-line
    orchestration around external engines (system setup, OpenMM, GROMACS,
    trajectory analysis).  The embedding keeps the code's control flow and
    its dictionary look-ups; every external call goes through one oracle
    that may change the outside world, return any Python value or raise. *)

From Stdlib Require Import QArith Ascii.
From stdpp Require Import gmap strings list pretty.

Set Warnings "-register-all".

(** ** Python values *)

Module Pathlib.

(** [pathlib.PurePosixPath]: an optional root (["/"], ["//"] or none) and
    the list of name components.  Python keeps the root as the first
    element of [_parts]; here it is a field of its own. *)
Record Path := mkPath { root : string; parts : list string }.

(** [str.split("/")]. *)
Fixpoint split (s : string) : list string :=
  match s with
  | "" => [""]
  | String c s' =>
      if Ascii.eqb c "/"%char then "" :: split s'
      else match split s' with
           | [] => [String c ""]
           | w :: ws => String c w :: ws
           end
  end.

(** [str.lstrip("/")]. *)
Fixpoint lstrip (s : string) : string :=
  match s with
  | String c s' => if Ascii.eqb c "/"%char then lstrip s' else s
  | "" => ""
  end.

(** ["/".join(names)]. *)
Fixpoint join (names : list string) : string :=
  match names with
  | [] => ""
  | [n] => n
  | n :: ns => n +:+ "/" +:+ join ns
  end.

(** [_PosixFlavour.splitroot]: exactly two leading slashes are kept as the
    root ["//"], any other number of leading slashes is the root ["/"]. *)
Definition splitroot (part : string) : string * string :=
  match part with
  | String c _ =>
      if Ascii.eqb c "/"%char then
        let stripped := lstrip part in
        if (String.length part - String.length stripped =? 2)%nat
        then ("//", stripped) else ("/", stripped)
      else ("", part)
  | "" => ("", "")
  end.

(** The components of the relative part: empty names and ["."] are
    dropped. *)
Definition components (rel : string) : list string :=
  filter (λ x, x ≠ "" ∧ x ≠ ".") (split rel).

(** [parse_parts]: the arguments are read from the last one backwards and
    reading stops at the first rooted one, so an absolute argument
    discards everything before it. *)
Fixpoint parse_parts (args : list string) : string * list string :=
  match args with
  | [] => ("", [])
  | a :: rest =>
      let '(r, names) := parse_parts rest in
      if decide (r = "") then
        let '(ra, rel) := splitroot a in (ra, components rel ++ names)
      else (r, names)
  end.

(** [Path(a, b, ...)], every argument given by its string ([str(p)] for an
    argument that is itself a path). *)
Definition new (args : list string) : Path :=
  let '(r, names) := parse_parts args in mkPath r names.

(** [str(path)]. *)
Definition str (p : Path) : string :=
  match root p, parts p with
  | "", [] => "."
  | r, names => r +:+ join names
  end.

End Pathlib.

Abbreviation Path := Pathlib.Path.

(** A Python object as the orchestration code sees it.  Numbers and
    quantities are opaque to this code: they are only passed on (a
    fragment count is compared with zero). *)
Inductive value :=
| VNone
| VBool (b : bool)
| VInt (z : Z)
| VNum (x : Q)
| VQuantity (magnitude : Q) (unit_name : string)
| VStr (s : string)
| VPath (p : Path)
| VDict (items : list (string * value))
| VObject (cls : string) (fields : list (string * value)).

(** [target_parameters] and the entries of [force_fields] are [dict]s with
    string keys. *)
Abbreviation dict := (gmap string value).

(** ** Exceptions *)

(** [ValueError], [KeyError], [TypeError] and [AttributeError] are raised by
    the orchestration code itself (a [raise] statement, a subscript, an
    operator or an attribute access in its own body); [External] is any
    exception that comes out of a call into another module. *)
Inductive exn :=
| ValueError (msg : string)
| KeyError (key : value)
| TypeError
| AttributeError
| External (what : string).

Inductive res (A : Type) :=
| Ret (a : A)
| Raise (e : exn).
Arguments Ret {A} a.
Arguments Raise {A} e.

(** ** Calls out of the module *)

Inductive call :=
| Call (fn : string) (args : list value) (kwargs : list (string * value))
| New (cls : string) (kwargs : list (string * value))
| Method (receiver : value) (name : string) (args : list value)
    (kwargs : list (string * value)).

Inductive answer :=
| Returned (v : value)
| Raised (what : string).

(** What an observer of one run sees, in order. *)
Inductive event :=
| Called (c : call)
| Checked (path : string) (nonempty : bool)
| Printed (line : string).

(** Keyword look-up in a call's arguments. *)
Fixpoint kwarg (name : string) (kwargs : list (string * value)) : option value :=
  match kwargs with
  | [] => None
  | (k, v) :: rest => if decide (k = name) then Some v else kwarg name rest
  end.

(** ** Operators on values *)

(** [v == "literal"] *)
Definition eq_str (v : value) (s : string) : bool :=
  match v with
  | VStr s' => bool_decide (s' = s)
  | _ => false
  end.

(** [needle in s] on strings *)
Fixpoint is_substring (needle s : string) : bool :=
  String.prefix needle s
  || match s with
     | String _ s' => is_substring needle s'
     | EmptyString => false
     end.

(** [str(True)], [str(False)] *)
Definition str_of_bool (b : bool) : string := if b then "True" else "False".

(** [f"{n:d}"] and [f"{n}"] for an [int]. *)
Definition str_of_int (n : Z) : string := pretty n.

(** The double-quote character, for messages that quote a key. *)
Definition dquote : string := String (Ascii.ascii_of_nat 34) EmptyString.

(** [key in d] and [d[key]] on a [dict]. *)
Definition contains (d : dict) (key : string) : bool :=
  match d !! key with
  | Some _ => true
  | None => false
  end.

(** ** The monad of the orchestration code

    A computation reads and changes the outside world (the file system and
    whatever else the engines depend on), emits events and either returns
    or raises. *)

Definition M (World A : Type) : Type := World → res A * World * list event.

Section Monad.
Context {World : Type}.

Definition ret {A} (a : A) : M World A := λ w, (Ret a, w, []).

Definition raise {A} (e : exn) : M World A := λ w, (Raise e, w, []).

Definition bind {A B} (m : M World A) (k : A → M World B) : M World B :=
  λ w,
    match m w with
    | (Ret a, w1, t1) => let '(r, w2, t2) := k a w1 in (r, w2, t1 ++ t2)
    | (Raise e, w1, t1) => (Raise e, w1, t1)
    end.

(** [print(line)] *)
Definition print (line : string) : M World unit :=
  λ w, (Ret tt, w, [Printed line]).

(** [d[key]], raising [KeyError] on a missing key. *)
Definition getitem (d : dict) (key : string) : M World value :=
  match d !! key with
  | Some v => ret v
  | None => raise (KeyError (VStr key))
  end.

(** [a and b], [a or b]: the right operand is evaluated only when the
    left one does not decide. *)
Definition andM (a : bool) (b : M World bool) : M World bool :=
  if a then b else ret false.

Definition orM (a : bool) (b : M World bool) : M World bool :=
  if a then ret true else b.

(** [key in container] for a container that is a value: key membership
    for a [dict], substring test for a [str]; an openmm quantity asks the
    key for its value in the quantity's unit, an attribute a [str] does not
    have; the other values are not containers. *)
Definition value_contains (container : value) (key : string) : M World bool :=
  match container with
  | VDict items => ret (bool_decide (is_Some (kwarg key items)))
  | VStr s => ret (is_substring key s)
  | VQuantity _ _ => raise AttributeError
  | _ => raise TypeError
  end.

(** [container[key]] for a container that is a value and a string key. *)
Definition subscript (container : value) (key : string) : M World value :=
  match container with
  | VDict items =>
      match kwarg key items with
      | Some v => ret v
      | None => raise (KeyError (VStr key))
      end
  | _ => raise TypeError
  end.

(** [v > 0]; an openmm quantity asks the other operand for its value in
    the quantity's unit, an attribute an [int] does not have. *)
Definition gt_zero (v : value) : M World bool :=
  match v with
  | VInt z => ret (0 <? z)%Z
  | VBool b => ret b
  | VNum x => ret (negb (Qle_bool x 0))
  | VQuantity _ _ => raise AttributeError
  | _ => raise TypeError
  end.

End Monad.

Declare Scope py_scope.
Notation "x ← m ; k" := (bind m (λ x, k))
  (at level 20, m at level 100, k at level 200, only parsing) : py_scope.
Notation "' pat ← m ; k" := (bind m (λ x, match x with pat => k end))
  (at level 20, pat pattern, m at level 100, k at level 200, only parsing) : py_scope.
Notation "m ;; k" := (bind m (λ _, k))
  (at level 100, k at level 200, right associativity, only parsing) : py_scope.
Local Open Scope py_scope.

(** The result, the final world and the events of a run. *)
Definition result {World A} (run : res A * World * list event) : res A := run.1.1.
Definition final {World A} (run : res A * World * list event) : World := run.1.2.
Definition events {World A} (run : res A * World * list event) : list event := run.2.

(** A file is present when it exists and is not empty. *)
Definition present (fs : gmap string string) (path : string) : bool :=
  match fs !! path with
  | Some content => bool_decide (content ≠ "")
  | None => false
  end.

(** ** Stages of the pipeline *)

Inductive stage := Build | Solvate | Minimize | Equilibrate | Produce.

(** The stage an event starts, if any: the three functions of
    [system_setup], and the methods that launch a simulation.  A GROMACS
    simulation is launched by [run] in both stages; the equilibration object
    is the one built with [restraints_present='NPT']. *)
Definition stage_of (e : event) : option stage :=
  match e with
  | Called (Call fn _ _) =>
      if decide (fn = "build_initial_coordinates") then Some Build
      else if decide (fn = "solvate") then Some Solvate
      else if decide (fn = "minimize") then Some Minimize
      else None
  | Called (Method (VObject _ kwargs) name _ _) =>
      if decide (name = "start_from_pdb") then Some Equilibrate
      else if decide (name = "start_from_save_state") then Some Produce
      else if decide (name = "resume_from_checkpoint") then Some Produce
      else if decide (name = "run") then
        match kwarg "restraints_present" kwargs with
        | Some v => if eq_str v "NPT" then Some Equilibrate else Some Produce
        | None => Some Produce
        end
      else None
  | _ => None
  end.

Definition stages (t : list event) : list stage := omap stage_of t.

(** ** simulation_parameters.py

    The module's constants reach [protein_system.py] through a star import.
    Their values are openmm quantities that the orchestration code only
    passes on, so they are taken as given. *)
Record simulation_parameters := {
  SOLVENT_PADDING : value;
  DISORDERED_SOLVENT_PADDING : value;
  NONBONDED_CUTOFF : value;
  VDW_SWITCH_WIDTH : value;
  RESTRAINT_ENERGY_CONSTANT : value;
  ENERGY_TOLERANCE : value;
  EQUIL_TIMESTEP : value;
  EQUIL_TRAJ_LENGTH : value;
  EQUIL_FRAME_LENGTH : value;
  EQUIL_LANGEVIN_FRICTION : value;
  EQUIL_BAROSTAT_FREQUENCY : value;
  EQUIL_BAROSTAT_CONSTANT : value;
  EQUIL_THERMOSTAT_CONSTANT : value;
  TIMESTEP : value;
  PEPTIDE_TRAJ_LENGTH : value;
  FOLDED_TRAJ_LENGTH : value;
  DISORDERED_TRAJ_LENGTH : value;
  FRAME_LENGTH : value;
  LANGEVIN_FRICTION : value;
  BAROSTAT_FREQUENCY : value;
  CHECKPOINT_LENGTH : value;
  SAVE_STATE_LENGTH : value;
  BAROSTAT_CONSTANT : value;
  THERMOSTAT_CONSTANT : value
}.

(** ** protein_system.py *)

Module protein_system.

(** The attributes [__init__] sets on the object. *)
Record ProteinBenchmarkSystem := {
  target_name : string;
  target_parameters : dict;
  force_field : string;
  water_model : string;
  force_field_file : value;
  water_model_file : value;
  sim_platform : string;
  gmx_executable : value;
  system_name : string;
  base_path : Path;
  setup_dir : Path;
  setup_prefix : Path;
  initial_pdb : string;
  protonated_pdb : string;
  minimized_pdb : string;
  openmm_system : string
}.

Section Orchestration.
Context {World : Type}.

(** The regular files of the outside world, with their contents. *)
Variable files : World → gmap string string.

(** Every call that leaves the module: the engines of [system_setup],
    [openmm_simulation], [gmx_simulation] and [analysis], [merge_csvs]
    and the file operations of [pathlib].  A call may change the world
    whether it returns or raises. *)
Variable oracle : call → World → answer * World.

Variable sp : simulation_parameters.

Local Abbreviation M := (M World).

Definition invoke (c : call) : M value :=
  λ w,
    match oracle c w with
    | (Returned v, w') => (Ret v, w', [Called c])
    | (Raised what, w') => (Raise (External what), w', [Called c])
    end.

(** [receiver.name(...)] for the methods this module calls: [mkdir],
    [read_text] and [write_text] of a path and the methods of the
    simulation objects.  [None], a [bool], a number, a quantity, a
    [str] and a [dict] have none of them; for any other object the
    callee decides. *)
Definition method (receiver : value) (name : string) (args : list value)
    (kwargs : list (string * value)) : M value :=
  match receiver with
  | VPath _ | VObject _ _ => invoke (Method receiver name args kwargs)
  | _ => raise AttributeError
  end.

(** [cls(k1=v1, ...)]: the constructor runs in the callee; the object is
    known here by its class and the arguments it was built from. *)
Definition construct (cls : string) (kwargs : list (string * value)) : M value :=
  invoke (New cls kwargs) ;; ret (VObject cls kwargs).

(** Modelled from the spec: [utilities.exists_and_not_empty] is not part
    of the sources at hand.  An on-disk artifact counts as present when
    the file exists and is not empty. *)
Definition exists_and_not_empty (path : string) : M bool :=
  λ w, (Ret (present (files w) path), w, [Checked path (present (files w) path)]).

(** [path.mkdir(parents=True, exist_ok=True)] *)
Definition mkdir (p : Path) : M value :=
  method (VPath p) "mkdir" [] [("parents", VBool true); ("exist_ok", VBool true)].

(** The loop of [__init__] over the thermodynamic quantities. *)
Fixpoint check_thermodynamic_state (target_name : string)
    (target_parameters : dict) (quantities : list string) : M unit :=
  match quantities with
  | [] => ret tt
  | quantity :: rest =>
      if negb (contains target_parameters quantity) then
        raise (ValueError
                 ("benchmark_targets for target " +:+ target_name
                  +:+ " must contain " +:+ dquote +:+ quantity +:+ dquote))
      else check_thermodynamic_state target_name target_parameters rest
  end.

Definition __init__ (result_directory target_name : string)
    (target_parameters : dict) (force_field_name water_model_name : string)
    (force_field_file water_model_file : value) (sim_platform : string)
    (gmx_executable : value) : M ProteinBenchmarkSystem :=
  (* Check thermodynamic state *)
  check_thermodynamic_state target_name target_parameters
    ["pressure"; "temperature"; "ph"; "ionic_strength"] ;;
  let system_name := target_name +:+ "-" +:+ force_field_name in
  (* Create a directory to store results for this benchmark system *)
  let base_path := Pathlib.new [result_directory; system_name] in
  (* File paths for setup *)
  let setup_dir := Pathlib.new [Pathlib.str base_path; "setup"] in
  let setup_prefix := Pathlib.new [Pathlib.str setup_dir; system_name] in
  ret {|
    target_name := target_name;
    target_parameters := target_parameters;
    force_field := force_field_name;
    water_model := water_model_name;
    force_field_file := force_field_file;
    water_model_file := water_model_file;
    sim_platform := sim_platform;
    gmx_executable := gmx_executable;
    system_name := system_name;
    base_path := base_path;
    setup_dir := setup_dir;
    setup_prefix := setup_prefix;
    initial_pdb := Pathlib.str setup_prefix +:+ "-initial.pdb";
    protonated_pdb := Pathlib.str setup_prefix +:+ "-protonated.pdb";
    minimized_pdb := Pathlib.str setup_prefix +:+ "-minimized.pdb";
    openmm_system := Pathlib.str setup_prefix +:+ "-openmm-system.xml"
  |}.

(** *** [setup]

    The body of [setup] is three blocks, each behind its file check;
    they are named here after the comments that head them in the
    source. *)

(** [# Build initial coordinates] *)
Definition setup_build (self : ProteinBenchmarkSystem) : M unit :=
  let tp := self.(target_parameters) in
  present ← exists_and_not_empty self.(protonated_pdb);
  if negb present then
    print ("Building initial coordinates for system " +:+ self.(system_name)) ;;
    if contains tp "initial_pdb" then
      (* Copy initial PDB to results directory *)
      source ← getitem tp "initial_pdb";
      text ← method source "read_text" [] [];
      method (VPath (Pathlib.new [self.(initial_pdb)])) "write_text" [text] [] ;;
      ph ← getitem tp "ph";
      invoke (Call "build_initial_coordinates" []
                [("build_method", VStr "pdb");
                 ("ph", ph);
                 ("initial_pdb", VStr self.(initial_pdb));
                 ("protonated_pdb", VStr self.(protonated_pdb))]) ;;
      ret tt
    else if contains tp "aa_sequence" then
      build_method ←
        (if contains tp "build_method" then getitem tp "build_method"
         else ret (VStr "extended"));
      nterm_cap ←
        (if contains tp "nterm_cap" then getitem tp "nterm_cap"
         else ret VNone);
      cterm_cap ←
        (if contains tp "cterm_cap" then getitem tp "cterm_cap"
         else ret VNone);
      ph ← getitem tp "ph";
      aa_sequence ← getitem tp "aa_sequence";
      invoke (Call "build_initial_coordinates" []
                [("build_method", build_method);
                 ("ph", ph);
                 ("initial_pdb", VStr self.(initial_pdb));
                 ("protonated_pdb", VStr self.(protonated_pdb));
                 ("aa_sequence", aa_sequence);
                 ("nterm_cap", nterm_cap);
                 ("cterm_cap", cterm_cap)]) ;;
      ret tt
    else
      raise (ValueError
               ("benchmark_targets for target " +:+ self.(target_name)
                +:+ " must contain one of " +:+ dquote +:+ "aa_sequence"
                +:+ dquote +:+ " or " +:+ dquote +:+ "initial_pdb" +:+ dquote))
  else ret tt.

(** [# Solvate, add ions, and construct OpenMM system] *)
Definition setup_solvate (self : ProteinBenchmarkSystem)
    (solvated_pdb : string) : M unit :=
  let tp := self.(target_parameters) in
  let gmx := bool_decide (self.(sim_platform) = "gmx") in
  missing_xml ←
    andM (negb gmx)
      (present ← exists_and_not_empty self.(openmm_system); ret (negb present));
  missing ←
    orM missing_xml
      (andM gmx
         (present ← exists_and_not_empty
                      (Pathlib.str self.(setup_prefix) +:+ ".top");
          ret (negb present)));
  if missing then
    print ("Solvating system " +:+ self.(system_name)) ;;
    (* Get parameters for solvation and constructing OpenMM system *)
    solvent_padding ←
      (if contains tp "solvent_padding" then getitem tp "solvent_padding"
       else
         target_type ← getitem tp "target_type";
         if negb (eq_str target_type "folded")
         then ret sp.(DISORDERED_SOLVENT_PADDING)
         else ret sp.(SOLVENT_PADDING));
    nonbonded_cutoff ←
      (if contains tp "nonbonded_cutoff" then getitem tp "nonbonded_cutoff"
       else ret sp.(NONBONDED_CUTOFF));
    vdw_switch_width ←
      (if contains tp "vdw_switch_width" then getitem tp "vdw_switch_width"
       else ret sp.(VDW_SWITCH_WIDTH));
    ionic_strength ← getitem tp "ionic_strength";
    invoke (Call "solvate" []
              [("ionic_strength", ionic_strength);
               ("nonbonded_cutoff", nonbonded_cutoff);
               ("vdw_switch_width", vdw_switch_width);
               ("protonated_pdb_file", VStr self.(protonated_pdb));
               ("solvated_pdb_file", VStr solvated_pdb);
               ("openmm_system_xml", VStr self.(openmm_system));
               ("water_model", VStr self.(water_model));
               ("force_field_file", self.(force_field_file));
               ("water_model_file", self.(water_model_file));
               ("solvent_padding", solvent_padding);
               ("setup_prefix", VPath self.(setup_prefix));
               ("sim_platform", VStr self.(sim_platform))]) ;;
    ret tt
  else ret tt.

(** [# Minimize energy of solvated system with Cartesian restraints on
    non-hydrogen solute atoms] *)
Definition setup_minimize (self : ProteinBenchmarkSystem)
    (solvated_pdb : string) : M unit :=
  let tp := self.(target_parameters) in
  let gmx := bool_decide (self.(sim_platform) = "gmx") in
  missing_pdb ←
    andM (negb gmx)
      (present ← exists_and_not_empty self.(minimized_pdb); ret (negb present));
  if missing_pdb then
    print ("Minimizing energy for system " +:+ self.(system_name)) ;;
    restraint_energy_constant ←
      (if contains tp "restraint_energy_constant"
       then getitem tp "restraint_energy_constant"
       else ret sp.(RESTRAINT_ENERGY_CONSTANT));
    invoke (Call "minimize" []
              [("restraint_energy_constant", restraint_energy_constant);
               ("openmm_system_xml", VStr self.(openmm_system));
               ("solvated_pdb_file", VStr solvated_pdb);
               ("minimized_pdb_file", VStr self.(minimized_pdb));
               ("setup_prefix", VPath self.(setup_prefix));
               ("sim_platform", VStr self.(sim_platform))]) ;;
    ret tt
  else
    missing_gro ←
      andM gmx
        (present ← exists_and_not_empty
                     (Pathlib.str self.(setup_dir) +:+ "/confout.gro");
         ret (negb present));
    if missing_gro then
      print ("Minimizing energy for system " +:+ self.(system_name)) ;;
      energy_tolerance ←
        (if contains tp "energy_tolerance" then getitem tp "energy_tolerance"
         else ret sp.(ENERGY_TOLERANCE));
      invoke (Call "minimize" []
                [("restraint_energy_constant", energy_tolerance);
                 ("openmm_system_xml", VStr "none");
                 ("solvated_pdb_file", VStr solvated_pdb);
                 ("minimized_pdb_file", VStr self.(minimized_pdb));
                 ("setup_prefix", VPath self.(setup_prefix));
                 ("sim_platform", VStr self.(sim_platform));
                 ("gmx_executable", self.(gmx_executable))]) ;;
      ret tt
    else ret tt.

Definition setup (self : ProteinBenchmarkSystem) : M unit :=
  (* Create the setup directory if it doesn't already exist *)
  mkdir self.(setup_dir) ;;
  let solvated_pdb := Pathlib.str self.(setup_prefix) +:+ "-solvated.pdb" in
  setup_build self ;;
  setup_solvate self solvated_pdb ;;
  setup_minimize self solvated_pdb ;;
  print ("Setup complete for system " +:+ self.(system_name)).

(** *** [run_simulations] *)

(** [# Equilibrate at constant pressure and temperature] *)
Definition run_simulations_equilibrate (self : ProteinBenchmarkSystem)
    (setup_prefix : Path) (equil_prefix equilibrated_state : string) : M unit :=
  let tp := self.(target_parameters) in
  let gmx := bool_decide (self.(sim_platform) = "gmx") in
  present ← exists_and_not_empty equilibrated_state;
  if negb present then
    print ("Running NPT equilibration for system " +:+ self.(system_name)) ;;
    (* Get parameters for equilibration simulation *)
    equil_timestep ←
      (if contains tp "equil_timestep" then getitem tp "equil_timestep"
       else ret sp.(EQUIL_TIMESTEP));
    equil_traj_length ←
      (if contains tp "equil_traj_length" then getitem tp "equil_traj_length"
       else ret sp.(EQUIL_TRAJ_LENGTH));
    equil_frame_length ←
      (if contains tp "equil_frame_length" then getitem tp "equil_frame_length"
       else ret sp.(EQUIL_FRAME_LENGTH));
    if negb gmx then
      (* Get OpenMM Specific Parameters *)
      equil_langevin_friction ←
        (if contains tp "equil_langevin_friction"
         then getitem tp "equil_langevin_friction"
         else ret sp.(EQUIL_LANGEVIN_FRICTION));
      equil_barostat_frequency ←
        (if contains tp "equil_barostat_frequency"
         then getitem tp "equil_barostat_frequency"
         else ret sp.(EQUIL_BAROSTAT_FREQUENCY));
      (* Initialize the equilibration simulation *)
      let equilibration_dcd := equil_prefix +:+ ".dcd" in
      let equilibration_state_data := equil_prefix +:+ ".out" in
      let equilibration_checkpoint := equil_prefix +:+ ".chk" in
      temperature ← getitem tp "temperature";
      pressure ← getitem tp "pressure";
      equilibration_simulation ←
        construct "OpenMMSimulation"
          [("openmm_system_file", VStr self.(openmm_system));
           ("initial_pdb_file", VStr self.(minimized_pdb));
           ("dcd_reporter_file", VStr equilibration_dcd);
           ("state_reporter_file", VStr equilibration_state_data);
           ("checkpoint_file", VStr equilibration_checkpoint);
           ("save_state_prefix", VStr equil_prefix);
           ("temperature", temperature);
           ("pressure", pressure);
           ("langevin_friction", equil_langevin_friction);
           ("barostat_frequency", equil_barostat_frequency);
           ("timestep", equil_timestep);
           ("traj_length", equil_traj_length);
           ("frame_length", equil_frame_length);
           ("checkpoint_length", equil_traj_length);
           ("save_state_length", equil_traj_length)];
      (* Run equilibration *)
      method equilibration_simulation "start_from_pdb" [] [] ;;
      ret tt
    else
      (* Get GROMACS Specific Parameters *)
      equil_barostat_constant ←
        (if contains tp "equil_barostat_constant"
         then getitem tp "equil_barostat_constant"
         else ret sp.(EQUIL_BAROSTAT_CONSTANT));
      equil_thermostat_constant ←
        (if contains tp "equil_thermostat_constant"
         then getitem tp "equil_thermostat_constant"
         else ret sp.(EQUIL_THERMOSTAT_CONSTANT));
      temperature ← getitem tp "temperature";
      pressure ← getitem tp "pressure";
      NPT_simulation ←
        construct "GMXSimulation"
          [("gmx_executable", self.(gmx_executable));
           ("initial_pdb_file", VStr self.(minimized_pdb));
           ("save_state_prefix", VStr equil_prefix);
           ("setup_prefix", VPath setup_prefix);
           ("temperature", temperature);
           ("pressure", pressure);
           ("barostat_constant", equil_barostat_constant);
           ("thermostat_constant", equil_thermostat_constant);
           ("timestep", equil_timestep);
           ("traj_length", equil_traj_length);
           ("frame_length", equil_frame_length);
           ("restraints_present", VStr "NPT")];
      method NPT_simulation "run" [] [] ;;
      ret tt
  else ret tt.

(** The production part of [run_simulations], from the line that prints
    [Running NPT production] to the end. *)
Definition run_simulations_produce (self : ProteinBenchmarkSystem)
    (setup_prefix : Path) (equil_prefix prod_prefix equilibrated_state : string)
    : M unit :=
  let tp := self.(target_parameters) in
  let gmx := bool_decide (self.(sim_platform) = "gmx") in
  print ("Running NPT production for system " +:+ self.(system_name)) ;;
  (* Get parameters for production simulation *)
  timestep ←
    (if contains tp "timestep" then getitem tp "timestep"
     else ret sp.(TIMESTEP));
  traj_length ←
    (if contains tp "traj_length" then getitem tp "traj_length"
     else
       target_type ← getitem tp "target_type";
       if eq_str target_type "peptide" then ret sp.(PEPTIDE_TRAJ_LENGTH)
       else
         target_type ← getitem tp "target_type";
         if eq_str target_type "folded" then ret sp.(FOLDED_TRAJ_LENGTH)
         else
           target_type ← getitem tp "target_type";
           if eq_str target_type "disordered" then ret sp.(DISORDERED_TRAJ_LENGTH)
           else
             raise (ValueError
                      ("benchmark_targets for target " +:+ self.(target_name)
                       +:+ " must contain " +:+ dquote +:+ "traj_length" +:+ dquote
                       +:+ " or " +:+ dquote +:+ "target_type" +:+ dquote
                       +:+ " must be one of " +:+ dquote +:+ "peptide" +:+ dquote
                       +:+ ", " +:+ dquote +:+ "folded" +:+ dquote +:+ ", or "
                       +:+ dquote +:+ "disordered" +:+ dquote +:+ ".")));
  frame_length ←
    (if contains tp "frame_length" then getitem tp "frame_length"
     else ret sp.(FRAME_LENGTH));
  if negb gmx then
    (* Get OpenMM Specific Parameters *)
    langevin_friction ←
      (if contains tp "langevin_friction" then getitem tp "langevin_friction"
       else ret sp.(LANGEVIN_FRICTION));
    barostat_frequency ←
      (if contains tp "barostat_frequency" then getitem tp "barostat_frequency"
       else ret sp.(BAROSTAT_FREQUENCY));
    checkpoint_length ←
      (if contains tp "checkpoint_length" then getitem tp "checkpoint_length"
       else ret sp.(CHECKPOINT_LENGTH));
    save_state_length ←
      (if contains tp "save_state_length" then getitem tp "save_state_length"
       else ret sp.(SAVE_STATE_LENGTH));
    (* Initialize the production simulation *)
    let production_dcd := prod_prefix +:+ ".dcd" in
    let production_state_data := prod_prefix +:+ ".out" in
    let production_checkpoint := prod_prefix +:+ ".chk" in
    temperature ← getitem tp "temperature";
    pressure ← getitem tp "pressure";
    production_simulation ←
      construct "OpenMMSimulation"
        [("openmm_system_file", VStr self.(openmm_system));
         ("initial_pdb_file", VStr self.(minimized_pdb));
         ("dcd_reporter_file", VStr production_dcd);
         ("state_reporter_file", VStr production_state_data);
         ("checkpoint_file", VStr production_checkpoint);
         ("save_state_prefix", VStr prod_prefix);
         ("temperature", temperature);
         ("pressure", pressure);
         ("langevin_friction", langevin_friction);
         ("barostat_frequency", barostat_frequency);
         ("timestep", timestep);
         ("traj_length", traj_length);
         ("frame_length", frame_length);
         ("checkpoint_length", checkpoint_length);
         ("save_state_length", save_state_length)];
    (* Run production *)
    present ← exists_and_not_empty production_checkpoint;
    if negb present then
      (* Start production simulation, initializing positions and
         velocities to the final state from the equilibration simulation *)
      method production_simulation "start_from_save_state"
        [VStr equilibrated_state] [] ;;
      ret tt
    else
      (* Resume from a previous production checkpoint *)
      method production_simulation "resume_from_checkpoint" [] [] ;;
      ret tt
  else
    (* Get GROMACS Specific Parameters *)
    (* [state_dir], the split of [prod_prefix] at its last slash, is
       assigned in the source and never read. *)
    barostat_constant ←
      (if contains tp "barostat_constant" then getitem tp "barostat_constant"
       else ret sp.(BAROSTAT_CONSTANT));
    thermostat_constant ←
      (if contains tp "thermostat_constant" then getitem tp "thermostat_constant"
       else ret sp.(THERMOSTAT_CONSTANT));
    let production_checkpoint := prod_prefix +:+ ".cpt" in
    temperature ← getitem tp "temperature";
    pressure ← getitem tp "pressure";
    production_simulation ←
      construct "GMXSimulation"
        [("gmx_executable", self.(gmx_executable));
         ("initial_pdb_file", VStr self.(minimized_pdb));
         ("setup_prefix", VPath setup_prefix);
         ("save_state_prefix", VStr prod_prefix);
         ("temperature", temperature);
         ("pressure", pressure);
         ("barostat_constant", barostat_constant);
         ("thermostat_constant", thermostat_constant);
         ("timestep", timestep);
         ("traj_length", traj_length);
         ("frame_length", frame_length);
         ("restraints_present", VBool false);
         ("load_state_prefix", VStr equil_prefix)];
    (* Run Production *)
    present ← exists_and_not_empty production_checkpoint;
    if negb present then
      method production_simulation "run" [] [] ;;
      ret tt
    else
      method production_simulation "start_from_save_state"
        [VStr production_checkpoint] [] ;;
      ret tt.

Definition run_simulations (self : ProteinBenchmarkSystem) (replica : Z)
    : M unit :=
  (* Create a directory for this replica if it doesn't already exist *)
  let replica_dir :=
    Pathlib.new [Pathlib.str self.(base_path); "replica-" +:+ str_of_int replica] in
  mkdir replica_dir ;;
  let replica_prefix := Pathlib.new [Pathlib.str replica_dir; self.(system_name)] in
  let setup_dir := Pathlib.new [Pathlib.str self.(base_path); "setup"] in
  let setup_prefix := Pathlib.new [Pathlib.str setup_dir; self.(system_name)] in
  let equil_prefix := Pathlib.str replica_prefix +:+ "-equilibration" in
  let prod_prefix := Pathlib.str replica_prefix +:+ "-production" in
  let equilibrated_state :=
    if negb (bool_decide (self.(sim_platform) = "gmx"))
    then
      (* Serialized OpenMM state from the end of the equilibration
         simulation *)
      equil_prefix +:+ "-1.xml"
    else equil_prefix +:+ ".gro" in
  print equilibrated_state ;;
  present ← exists_and_not_empty equilibrated_state;
  print (str_of_bool present) ;;
  run_simulations_equilibrate self setup_prefix equil_prefix equilibrated_state ;;
  run_simulations_produce self setup_prefix equil_prefix prod_prefix
    equilibrated_state.

(** *** [analyze_observables] *)

(** [# Align production trajectory] *)
Definition analyze_align (self : ProteinBenchmarkSystem) (replica : Z)
    (analysis_prefix : Path) (reimaged_topology : string) : M unit :=
  let gmx := bool_decide (self.(sim_platform) = "gmx") in
  present ← exists_and_not_empty reimaged_topology;
  if negb present then
    print ("Aligning production trajectory for system " +:+ self.(system_name)) ;;
    let replica_dir :=
      Pathlib.new [Pathlib.str self.(base_path);
                   "replica-" +:+ str_of_int replica] in
    let replica_prefix :=
      Pathlib.new [Pathlib.str replica_dir; self.(system_name)] in
    let '(traj_path, output_selection, topology_path) :=
      if negb gmx then
        (Pathlib.str replica_prefix +:+ "-production.dcd",
         "chainid == " +:+ dquote +:+ "A" +:+ dquote,
         self.(minimized_pdb))
      else
        (Pathlib.str replica_dir +:+ "/traj.xtc",
         "resname != " +:+ dquote +:+ "HOH" +:+ dquote
         +:+ " && resname != " +:+ dquote +:+ "NA" +:+ dquote,
         Pathlib.str replica_dir +:+ "/confout.gro") in
    invoke (Call "align_trajectory" []
              [("topology_path", VStr topology_path);
               ("trajectory_path", VStr traj_path);
               ("output_prefix", VStr (Pathlib.str analysis_prefix +:+ "-reimaged"));
               ("output_selection", VStr output_selection);
               ("align_selection", VStr ("name == " +:+ dquote +:+ "CA" +:+ dquote));
               ("reference_path", VStr self.(initial_pdb))]) ;;
    ret tt
  else ret tt.

(** [# Measure dihedrals] and [# Measure hydrogen bond geometries]: the
    two blocks differ in the function called, the topology and the
    message. *)
Definition analyze_measure (self : ProteinBenchmarkSystem)
    (fn message topology_path reimaged_trajectory : string)
    (frame_length : value) (output_path : string) : M unit :=
  present ← exists_and_not_empty output_path;
  if negb present then
    print (message +:+ self.(system_name)) ;;
    fragment_index ←
      invoke (Call fn []
                [("topology_path", VStr topology_path);
                 ("trajectory_path", VStr reimaged_trajectory);
                 ("frame_length", frame_length);
                 ("output_path", VStr output_path)]);
    several ← gt_zero fragment_index;
    if several then invoke (Call "merge_csvs" [VStr output_path] []) ;; ret tt
    else ret tt
  else ret tt.

(** [# Dihedral cluster assignments] *)
Definition analyze_clusters (self : ProteinBenchmarkSystem)
    (dihedrals dihedral_clusters : string) : M unit :=
  present ← exists_and_not_empty dihedral_clusters;
  if negb present then
    print ("Assigning dihedral clusters for system " +:+ self.(system_name)) ;;
    invoke (Call "assign_dihedral_clusters" []
              [("dihedrals_path", VStr dihedrals);
               ("output_path", VStr dihedral_clusters)]) ;;
    ret tt
  else ret tt.

(** One observable of [# Compute observables]: the three blocks differ
    in the key, the function called, the message and the inputs. *)
Definition analyze_observable (self : ProteinBenchmarkSystem)
    (target_observables : value) (key fn message : string)
    (inputs : list (string * value)) (output_path : string) : M unit :=
  wanted ← value_contains target_observables key;
  missing ←
    andM wanted (present ← exists_and_not_empty output_path; ret (negb present));
  if missing then
    print (message +:+ self.(system_name)) ;;
    observable ← subscript target_observables key;
    data ← subscript observable "observable_path";
    invoke (Call fn [] (("observable_path", data) :: inputs
                     ++ [("output_path", VStr output_path)])) ;;
    ret tt
  else ret tt.

(** The part of [analyze_observables] before [# Compute observables]. *)
Definition analyze_observables_measure (self : ProteinBenchmarkSystem)
    (replica : Z) : M (string * string * string * Path) :=
  let tp := self.(target_parameters) in
  let analysis_dir := Pathlib.new [Pathlib.str self.(base_path); "analysis"] in
  mkdir analysis_dir ;;
  let analysis_prefix :=
    Pathlib.new [Pathlib.str analysis_dir;
                 self.(system_name) +:+ "-" +:+ str_of_int replica] in
  let reimaged_topology := Pathlib.str analysis_prefix +:+ "-reimaged.pdb" in
  let reimaged_trajectory := Pathlib.str analysis_prefix +:+ "-reimaged.dcd" in
  frame_length ←
    (if contains tp "frame_length" then getitem tp "frame_length"
     else ret sp.(FRAME_LENGTH));
  analyze_align self replica analysis_prefix reimaged_topology ;;
  let dihedrals := Pathlib.str analysis_prefix +:+ "-dihedrals.dat" in
  analyze_measure self "measure_dihedrals" "Measuring dihedrals for system "
    reimaged_topology reimaged_trajectory frame_length dihedrals ;;
  let h_bond_geometries :=
    Pathlib.str analysis_prefix +:+ "-hydrogen-bond-geometries.dat" in
  analyze_measure self "measure_h_bond_geometries"
    "Measuring hydrogen bond geometries for system "
    self.(protonated_pdb) reimaged_trajectory frame_length h_bond_geometries ;;
  let dihedral_clusters :=
    Pathlib.str analysis_prefix +:+ "-dihedral-clusters.dat" in
  analyze_clusters self dihedrals dihedral_clusters ;;
  ret (dihedrals, h_bond_geometries, dihedral_clusters, analysis_prefix).

(** [# Compute observables], to the end of [analyze_observables]. *)
Definition analyze_observables_compute (self : ProteinBenchmarkSystem)
    (dihedrals h_bond_geometries dihedral_clusters : string)
    (analysis_prefix : Path) : M unit :=
  target_observables ← getitem self.(target_parameters) "observables";
  (* Scalar couplings *)
  analyze_observable self target_observables "scalar_couplings"
    "compute_scalar_couplings" "Computing scalar couplings for system "
    [("dihedrals_path", VStr dihedrals)]
    (Pathlib.str analysis_prefix +:+ "-scalar-couplings.dat") ;;
  (* Hydrogen bond interresidue scalar couplings *)
  analyze_observable self target_observables "h_bond_scalar_couplings"
    "compute_h_bond_scalar_couplings"
    "Computing hydrogen bond scalar couplings for system "
    [("h_bond_geometries_path", VStr h_bond_geometries)]
    (Pathlib.str analysis_prefix +:+ "-h-bond-scalar-couplings.dat") ;;
  (* Fraction helix *)
  analyze_observable self target_observables "fraction_helix"
    "compute_fraction_helix" "Computing fraction helix for system "
    [("dihedral_clusters_path", VStr dihedral_clusters);
     ("h_bond_geometries_path", VStr h_bond_geometries)]
    (Pathlib.str analysis_prefix +:+ "-fraction-helix.dat").

Definition analyze_observables (self : ProteinBenchmarkSystem) (replica : Z)
    : M unit :=
  '(dihedrals, h_bond_geometries, dihedral_clusters, analysis_prefix) ←
    analyze_observables_measure self replica;
  analyze_observables_compute self dihedrals h_bond_geometries
    dihedral_clusters analysis_prefix.

End Orchestration.

End protein_system.

(** ** force_fields.py *)

Module force_fields.

Section Table.
Context {World : Type}.

(** [utilities.package_data_directory], not part of the sources at
    hand. *)
Variable package_data_directory : string.

Local Abbreviation M := (M World).

Definition ff_directory : Path :=
  Pathlib.new [package_data_directory; "force-fields"].

(** [Path(ff_directory, name)] *)
Definition ff_path (name : string) : value :=
  VPath (Pathlib.new [Pathlib.str ff_directory; name]).

(** The dictionary literal bound to [force_fields], in source order.
    The outer dictionary is never changed after this; its entries are
    the inner dictionaries that the loop below updates in place, and no
    two entries share one. *)
Definition force_fields_literal : list (string * dict) := [
  ("ff14sb-opc", list_to_map [
     ("force_field_file", ff_path "nerenberg_ff14sb_c0ala_c0gly_c0val.xml");
     ("water_model", VStr "opc")]);
  ("ff14sb-opc3", list_to_map [
     ("force_field_file", ff_path "nerenberg_ff14sb_c0ala_c0gly_c0val.xml");
     ("water_model", VStr "opc3")]);
  ("ff14sb-tian-opc", list_to_map [
     ("force_field_file", ff_path "tian_ff14sb_c0ala.xml");
     ("water_model", VStr "opc")]);
  ("ff14sb-tian-opc3", list_to_map [
     ("force_field_file", ff_path "tian_ff14sb_c0ala.xml");
     ("water_model", VStr "opc3")]);
  ("ff14sb-tian-tip3p", list_to_map [
     ("force_field_file", ff_path "tian_ff14sb_c0ala.xml");
     ("water_model", VStr "tip3p")]);
  ("ff14sb-tian-tip3p-fb", list_to_map [
     ("force_field_file", ff_path "tian_ff14sb_c0ala.xml");
     ("water_model", VStr "tip3p-fb")]);
  ("ff14sb-tian-tip4p-fb", list_to_map [
     ("force_field_file", ff_path "tian_ff14sb_c0ala.xml");
     ("water_model", VStr "tip4p-fb")]);
  ("ff14sb-tip3p", list_to_map [
     ("force_field_file", ff_path "nerenberg_ff14sb_c0ala_c0gly_c0val.xml");
     ("water_model", VStr "tip3p")]);
  ("ff14sb-tip3p-fb", list_to_map [
     ("force_field_file", ff_path "nerenberg_ff14sb_c0ala_c0gly_c0val.xml");
     ("water_model", VStr "tip3p-fb")]);
  ("ff14sb-tip4p-fb", list_to_map [
     ("force_field_file", ff_path "nerenberg_ff14sb_c0ala_c0gly_c0val.xml");
     ("water_model", VStr "tip4p-fb")]);
  ("null-0.0.1-tip3p", list_to_map [
     ("force_field_file", ff_path "Protein-Null-0.0.1.offxml");
     ("water_model", VStr "tip3p");
     ("water_model_file", VNone)]);
  ("null-0.0.2-opc", list_to_map [
     ("force_field_file", ff_path "Protein-Null-0.0.2-NH2.offxml");
     ("water_model", VStr "opc");
     ("water_model_file", VStr "opc-1.0.0.offxml")]);
  ("null-0.0.2-opc3", list_to_map [
     ("force_field_file", ff_path "Protein-Null-0.0.2-NH2.offxml");
     ("water_model", VStr "opc3");
     ("water_model_file", ff_path "opc3-1.0.0.offxml")]);
  ("null-0.0.2-tip3p", list_to_map [
     ("force_field_file", ff_path "Protein-Null-0.0.2-NH2.offxml");
     ("water_model", VStr "tip3p");
     ("water_model_file", VNone)]);
  ("null-0.0.2-tip3p-fb", list_to_map [
     ("force_field_file", ff_path "Protein-Null-0.0.2-NH2.offxml");
     ("water_model", VStr "tip3p-fb");
     ("water_model_file", ff_path "tip3p_fb-1.1.0.offxml")]);
  ("null-0.0.2-tip4p-fb", list_to_map [
     ("force_field_file", ff_path "Protein-Null-0.0.2-NH2.offxml");
     ("water_model", VStr "tip4p-fb");
     ("water_model_file", ff_path "tip4p_fb-1.0.0.offxml")]);
  ("specific-0.0.1-tip3p", list_to_map [
     ("force_field_file", ff_path "Protein-Specific-0.0.1.offxml");
     ("water_model", VStr "tip3p");
     ("water_model_file", VNone)]);
  ("specific-0.0.2-opc", list_to_map [
     ("force_field_file", ff_path "Protein-Specific-0.0.2-NH2.offxml");
     ("water_model", VStr "opc");
     ("water_model_file", VStr "opc-1.0.0.offxml")]);
  ("specific-0.0.2-opc3", list_to_map [
     ("force_field_file", ff_path "Protein-Specific-0.0.2-NH2.offxml");
     ("water_model", VStr "opc3");
     ("water_model_file", ff_path "opc3-1.0.0.offxml")]);
  ("specific-0.0.2-tip3p", list_to_map [
     ("force_field_file", ff_path "Protein-Specific-0.0.2-NH2.offxml");
     ("water_model", VStr "tip3p");
     ("water_model_file", VNone)]);
  ("specific-0.0.2-tip3p-fb", list_to_map [
     ("force_field_file", ff_path "Protein-Specific-0.0.2-NH2.offxml");
     ("water_model", VStr "tip3p-fb");
     ("water_model_file", ff_path "tip3p_fb-1.1.0.offxml")]);
  ("specific-0.0.2-tip4p-fb", list_to_map [
     ("force_field_file", ff_path "Protein-Specific-0.0.2-NH2.offxml");
     ("water_model", VStr "tip4p-fb");
     ("water_model_file", ff_path "tip4p_fb-1.0.0.offxml")])
].

(** [# Add implicit water model files] *)
Definition water_model_files : dict := list_to_map [
  ("tip3p", VStr "amber/tip3p_standard.xml");
  ("opc3", ff_path "openmm-opc3.xml");
  ("opc", VStr "amber/opc_standard.xml");
  ("tip3p-fb", ff_path "openmm-tip3p-fb.xml");
  ("tip4p-fb", ff_path "openmm-tip4p-fb.xml")
].

(** [d[key]] for a key that is a value: the keys of [d] are strings, so
    any other hashable key is missing; a [dict] and an openmm quantity are
    not hashable. *)
Definition getitem_value (d : dict) (key : value) : M value :=
  match key with
  | VStr k => getitem d k
  | VDict _ | VQuantity _ _ => raise TypeError
  | _ => raise (KeyError key)
  end.

(** The body of the loop, for one entry. *)
Definition add_water_model_file (ff_parameters : dict) : M dict :=
  if negb (contains ff_parameters "water_model_file") then
    water_model ← getitem ff_parameters "water_model";
    water_model_file ← getitem_value water_model_files water_model;
    ret (<["water_model_file" := water_model_file]> ff_parameters)
  else ret ff_parameters.

(** [for force_field_name, ff_parameters in force_fields.items()] *)
Fixpoint add_water_model_files (items : list (string * dict))
    : M (list (string * dict)) :=
  match items with
  | [] => ret []
  | (force_field_name, ff_parameters) :: rest =>
      ff_parameters' ← add_water_model_file ff_parameters;
      rest' ← add_water_model_files rest;
      ret ((force_field_name, ff_parameters') :: rest')
  end.

(** The value of [force_fields] once the module is imported. *)
Definition force_fields : M (list (string * dict)) :=
  add_water_model_files force_fields_literal.

End Table.

End force_fields.

(** ** Reading a run *)

(** [wp m w Q]: running [m] from the world [w] gives a result, a final
    world and events that satisfy [Q]. *)
Definition wp {World A} (m : M World A) (w : World)
    (Q : res A → World → list event → Prop) : Prop :=
  Q (result (m w)) (final (m w)) (events (m w)).

(** A construction event that passes [prefix] as [save_state_prefix]: the
    equilibration and the production simulation are told apart by it. *)
Definition builds (prefix : string) (kwargs : list (string * value)) : Prop :=
  kwarg "save_state_prefix" kwargs = Some (VStr prefix).

(** [tp[key]] where the key is present and the constant otherwise, for every
    pair of a keyword of the call, a key and a constant. *)
Definition cascades (tp : dict) (kwargs : list (string * value))
    (table : list (string * string * value)) : Prop :=
  Forall (λ '(keyword, key, constant),
            kwarg keyword kwargs = Some (default constant (tp !! key))) table.

(** ** Names and contracts used in the statements *)

Import protein_system.

(** What a guarded block of [setup] leaves behind, given whether its
    artifact was present when the block started: the stage ran and the
    artifact was missing, or the stage did not run and the artifact was
    present or the block raised before reaching the engine. *)
Definition ran_or_skipped (s : stage) (was_present : bool) (r : res unit)
    (t : list event) : Prop :=
  (stages t = [s] ∧ was_present = false) ∨
  (stages t = [] ∧ (was_present = true ∨ ∃ e, r = Raise e)).

(** The artifacts that guard the second and the third block of [setup]. *)
Definition solvate_artifact (self : ProteinBenchmarkSystem) : string :=
  if bool_decide (sim_platform self = "gmx")
  then Pathlib.str (setup_prefix self) +:+ ".top"
  else openmm_system self.

Definition minimize_artifact (self : ProteinBenchmarkSystem) : string :=
  if bool_decide (sim_platform self = "gmx")
  then Pathlib.str (setup_dir self) +:+ "/confout.gro"
  else minimized_pdb self.

(** The names [run_simulations] computes for one replica. *)
Definition replica_dir (self : ProteinBenchmarkSystem) (replica : Z) : Path :=
  Pathlib.new [Pathlib.str (base_path self); "replica-" +:+ str_of_int replica].

Definition replica_prefix (self : ProteinBenchmarkSystem) (replica : Z) : Path :=
  Pathlib.new [Pathlib.str (replica_dir self replica); system_name self].

Definition equil_prefix (self : ProteinBenchmarkSystem) (replica : Z) : string :=
  Pathlib.str (replica_prefix self replica) +:+ "-equilibration".

Definition prod_prefix (self : ProteinBenchmarkSystem) (replica : Z) : string :=
  Pathlib.str (replica_prefix self replica) +:+ "-production".

Definition equilibrated_state (self : ProteinBenchmarkSystem) (replica : Z) : string :=
  if negb (bool_decide (sim_platform self = "gmx"))
  then equil_prefix self replica +:+ "-1.xml"
  else equil_prefix self replica +:+ ".gro".

Definition production_checkpoint (self : ProteinBenchmarkSystem) (replica : Z) : string :=
  if bool_decide (sim_platform self = "gmx")
  then prod_prefix self replica +:+ ".cpt"
  else prod_prefix self replica +:+ ".chk".

(** The [setup_prefix] that [run_simulations] recomputes. *)
Definition run_setup_prefix (self : ProteinBenchmarkSystem) : Path :=
  Pathlib.new [Pathlib.str (Pathlib.new [Pathlib.str (base_path self); "setup"]);
               system_name self].

(** The last two events of a run. *)
Fixpoint last_two (t : list event) : option (event * event) :=
  match t with
  | [] => None
  | e :: t' =>
      match t' with
      | [e'] => Some (e, e')
      | _ => last_two t'
      end
  end.

(** The method that launches production and its arguments, by backend and
    by whether the production checkpoint was present. *)
Definition production_launch (self : ProteinBenchmarkSystem) (replica : Z)
    (checkpoint_present : bool) : string * list value :=
  if bool_decide (sim_platform self = "gmx") then
    if checkpoint_present
    then ("start_from_save_state", [VStr (prod_prefix self replica +:+ ".cpt")])
    else ("run", [])
  else
    if checkpoint_present
    then ("resume_from_checkpoint", [])
    else ("start_from_save_state", [VStr (equil_prefix self replica +:+ "-1.xml")]).

(** The production trajectory length when [traj_length] is not given. *)
Definition traj_length_by_type (sp : simulation_parameters) (target_type : value)
    : option value :=
  if eq_str target_type "peptide" then Some (PEPTIDE_TRAJ_LENGTH sp)
  else if eq_str target_type "folded" then Some (FOLDED_TRAJ_LENGTH sp)
  else if eq_str target_type "disordered" then Some (DISORDERED_TRAJ_LENGTH sp)
  else None.

(** What the arguments of a call must be for the parameters to come from
    [target_parameters] first and from the constants second. *)
Definition solvate_contract (sp : simulation_parameters)
    (self : ProteinBenchmarkSystem) (kwargs : list (string * value)) : Prop :=
  let tp := target_parameters self in
  cascades tp kwargs
    [("nonbonded_cutoff", "nonbonded_cutoff", NONBONDED_CUTOFF sp);
     ("vdw_switch_width", "vdw_switch_width", VDW_SWITCH_WIDTH sp)] ∧
  match tp !! "solvent_padding" with
  | Some v => kwarg "solvent_padding" kwargs = Some v
  | None =>
      ∃ target_type, tp !! "target_type" = Some target_type ∧
        kwarg "solvent_padding" kwargs =
          Some (if eq_str target_type "folded" then SOLVENT_PADDING sp
                else DISORDERED_SOLVENT_PADDING sp)
  end.

Definition minimize_contract (sp : simulation_parameters)
    (self : ProteinBenchmarkSystem) (kwargs : list (string * value)) : Prop :=
  let tp := target_parameters self in
  if bool_decide (sim_platform self = "gmx") then
    kwarg "restraint_energy_constant" kwargs
      = Some (default (ENERGY_TOLERANCE sp) (tp !! "energy_tolerance")) ∧
    kwarg "openmm_system_xml" kwargs = Some (VStr "none")
  else
    kwarg "restraint_energy_constant" kwargs
      = Some (default (RESTRAINT_ENERGY_CONSTANT sp)
                (tp !! "restraint_energy_constant")) ∧
    kwarg "openmm_system_xml" kwargs = Some (VStr (openmm_system self)).

Definition equilibration_contract (sp : simulation_parameters)
    (self : ProteinBenchmarkSystem) (kwargs : list (string * value)) : Prop :=
  let tp := target_parameters self in
  cascades tp kwargs
    [("timestep", "equil_timestep", EQUIL_TIMESTEP sp);
     ("traj_length", "equil_traj_length", EQUIL_TRAJ_LENGTH sp);
     ("frame_length", "equil_frame_length", EQUIL_FRAME_LENGTH sp)] ∧
  if bool_decide (sim_platform self = "gmx") then
    cascades tp kwargs
      [("barostat_constant", "equil_barostat_constant", EQUIL_BAROSTAT_CONSTANT sp);
       ("thermostat_constant", "equil_thermostat_constant",
        EQUIL_THERMOSTAT_CONSTANT sp)]
  else
    cascades tp kwargs
      [("langevin_friction", "equil_langevin_friction", EQUIL_LANGEVIN_FRICTION sp);
       ("barostat_frequency", "equil_barostat_frequency",
        EQUIL_BAROSTAT_FREQUENCY sp);
       ("checkpoint_length", "equil_traj_length", EQUIL_TRAJ_LENGTH sp);
       ("save_state_length", "equil_traj_length", EQUIL_TRAJ_LENGTH sp)].

Definition production_contract (sp : simulation_parameters)
    (self : ProteinBenchmarkSystem) (kwargs : list (string * value)) : Prop :=
  let tp := target_parameters self in
  cascades tp kwargs
    [("timestep", "timestep", TIMESTEP sp);
     ("frame_length", "frame_length", FRAME_LENGTH sp)] ∧
  (if bool_decide (sim_platform self = "gmx") then
     cascades tp kwargs
       [("barostat_constant", "barostat_constant", BAROSTAT_CONSTANT sp);
        ("thermostat_constant", "thermostat_constant", THERMOSTAT_CONSTANT sp)]
   else
     cascades tp kwargs
       [("langevin_friction", "langevin_friction", LANGEVIN_FRICTION sp);
        ("barostat_frequency", "barostat_frequency", BAROSTAT_FREQUENCY sp);
        ("checkpoint_length", "checkpoint_length", CHECKPOINT_LENGTH sp);
        ("save_state_length", "save_state_length", SAVE_STATE_LENGTH sp)]) ∧
  match tp !! "traj_length" with
  | Some v => kwarg "traj_length" kwargs = Some v
  | None =>
      ∃ target_type v, tp !! "target_type" = Some target_type ∧
        traj_length_by_type sp target_type = Some v ∧
        kwarg "traj_length" kwargs = Some v
  end.

(** The contract of an event: of the calls to [solvate] and [minimize] and
    of the construction of a simulation. *)
Definition cascade_contract (sp : simulation_parameters)
    (self : ProteinBenchmarkSystem) (replica : Z) (e : event) : Prop :=
  match e with
  | Called (Call fn _ kwargs) =>
      (fn = "solvate" → solvate_contract sp self kwargs) ∧
      (fn = "minimize" → minimize_contract sp self kwargs)
  | Called (New _ kwargs) =>
      (builds (equil_prefix self replica) kwargs →
       equilibration_contract sp self kwargs) ∧
      (builds (prod_prefix self replica) kwargs →
       production_contract sp self kwargs)
  | _ => True
  end.

(** The names [analyze_observables] computes for one replica. *)
Definition analysis_dir (self : ProteinBenchmarkSystem) : Path :=
  Pathlib.new [Pathlib.str (base_path self); "analysis"].

Definition analysis_prefix (self : ProteinBenchmarkSystem) (replica : Z) : Path :=
  Pathlib.new [Pathlib.str (analysis_dir self);
               system_name self +:+ "-" +:+ str_of_int replica].

(** The artifacts of the measurement blocks, in the order they are
    checked. *)
Definition analysis_artifacts (self : ProteinBenchmarkSystem) (replica : Z)
    : list string :=
  (λ suffix, Pathlib.str (analysis_prefix self replica) +:+ suffix) <$>
    ["-reimaged.pdb"; "-dihedrals.dat"; "-hydrogen-bond-geometries.dat";
     "-dihedral-clusters.dat"].

(** The thermodynamic quantities [__init__] requires, in the order of its
    loop. *)
Definition thermodynamic_state : list string :=
  ["pressure"; "temperature"; "ph"; "ionic_strength"].

(** Whether a name contains the path separator. *)
Fixpoint has_slash (s : string) : bool :=
  match s with
  | String c s' => Ascii.eqb c "/"%char || has_slash s'
  | EmptyString => false
  end.

(** Whether the loop of [force_fields.py] can complete an entry: it has its
    own [water_model_file], or its [water_model] names one of the
    [water_model_files]. *)
Definition completable (water_model_files ff_parameters : dict) : bool :=
  match ff_parameters !! "water_model_file" with
  | Some _ => true
  | None =>
      match ff_parameters !! "water_model" with
      | Some (VStr name) =>
          match water_model_files !! name with
          | Some _ => true
          | None => false
          end
      | _ => false
      end
  end.

(** ** A small world to run the code in

    The world is the file system alone, the engines do nothing and return
    [None], and every constant of [simulation_parameters] stands for
    itself. *)
Module Sample.

Definition World : Type := gmap string string.

Definition files (w : World) : gmap string string := w.

Definition idle (c : call) (w : World) : answer * World := (Returned VNone, w).

Definition sp : simulation_parameters := {|
  SOLVENT_PADDING := VStr "SOLVENT_PADDING";
  DISORDERED_SOLVENT_PADDING := VStr "DISORDERED_SOLVENT_PADDING";
  NONBONDED_CUTOFF := VStr "NONBONDED_CUTOFF";
  VDW_SWITCH_WIDTH := VStr "VDW_SWITCH_WIDTH";
  RESTRAINT_ENERGY_CONSTANT := VStr "RESTRAINT_ENERGY_CONSTANT";
  ENERGY_TOLERANCE := VStr "ENERGY_TOLERANCE";
  EQUIL_TIMESTEP := VStr "EQUIL_TIMESTEP";
  EQUIL_TRAJ_LENGTH := VStr "EQUIL_TRAJ_LENGTH";
  EQUIL_FRAME_LENGTH := VStr "EQUIL_FRAME_LENGTH";
  EQUIL_LANGEVIN_FRICTION := VStr "EQUIL_LANGEVIN_FRICTION";
  EQUIL_BAROSTAT_FREQUENCY := VStr "EQUIL_BAROSTAT_FREQUENCY";
  EQUIL_BAROSTAT_CONSTANT := VStr "EQUIL_BAROSTAT_CONSTANT";
  EQUIL_THERMOSTAT_CONSTANT := VStr "EQUIL_THERMOSTAT_CONSTANT";
  TIMESTEP := VStr "TIMESTEP";
  PEPTIDE_TRAJ_LENGTH := VStr "PEPTIDE_TRAJ_LENGTH";
  FOLDED_TRAJ_LENGTH := VStr "FOLDED_TRAJ_LENGTH";
  DISORDERED_TRAJ_LENGTH := VStr "DISORDERED_TRAJ_LENGTH";
  FRAME_LENGTH := VStr "FRAME_LENGTH";
  LANGEVIN_FRICTION := VStr "LANGEVIN_FRICTION";
  BAROSTAT_FREQUENCY := VStr "BAROSTAT_FREQUENCY";
  CHECKPOINT_LENGTH := VStr "CHECKPOINT_LENGTH";
  SAVE_STATE_LENGTH := VStr "SAVE_STATE_LENGTH";
  BAROSTAT_CONSTANT := VStr "BAROSTAT_CONSTANT";
  THERMOSTAT_CONSTANT := VStr "THERMOSTAT_CONSTANT"
|}.

(** The thermodynamic state alone: enough for [__init__], not for
    [setup]. *)
Definition state_only : dict := list_to_map [
  ("pressure", VQuantity 1 "atmosphere");
  ("temperature", VQuantity 298 "kelvin");
  ("ph", VNum 7);
  ("ionic_strength", VQuantity 0 "molar")
].

(** A peptide built from its sequence. *)
Definition peptide : dict :=
  <["aa_sequence" := VStr "AAAAA"]> (<["target_type" := VStr "peptide"]> state_only).

(** A target of a type [run_simulations] does not know. *)
Definition untyped : dict :=
  <["aa_sequence" := VStr "AAAAA"]> (<["target_type" := VStr "other"]> state_only).

(** A peptide that gives both minimization parameters. *)
Definition restrained : dict :=
  <["restraint_energy_constant" := VInt 1]>
    (<["energy_tolerance" := VInt 2]> peptide).

Definition blank : protein_system.ProteinBenchmarkSystem := {|
  protein_system.target_name := "";
  protein_system.target_parameters := ∅;
  protein_system.force_field := "";
  protein_system.water_model := "";
  protein_system.force_field_file := VNone;
  protein_system.water_model_file := VNone;
  protein_system.sim_platform := "";
  protein_system.gmx_executable := VNone;
  protein_system.system_name := "";
  protein_system.base_path := Pathlib.mkPath "" [];
  protein_system.setup_dir := Pathlib.mkPath "" [];
  protein_system.setup_prefix := Pathlib.mkPath "" [];
  protein_system.initial_pdb := "";
  protein_system.protonated_pdb := "";
  protein_system.minimized_pdb := "";
  protein_system.openmm_system := ""
|}.

(** The object [__init__] builds for the target [ala5] under [results]
    ([blank] when it raises). *)
Definition system (target_parameters : dict)
    (force_field_name water_model_name sim_platform : string)
    : protein_system.ProteinBenchmarkSystem :=
  match result (protein_system.__init__ (World := World) "results" "ala5"
                  target_parameters force_field_name water_model_name
                  (VStr "ff14sb.xml") VNone sim_platform VNone ∅) with
  | Ret self => self
  | Raise _ => blank
  end.

(** A world in which the measurements of replica 1 of [self] are on
    disk. *)
Definition analyzed (self : protein_system.ProteinBenchmarkSystem) : World :=
  list_to_map ((λ path, (path, "data")) <$> analysis_artifacts self 1).

End Sample.

(** ** Further names and contracts *)

(** The call [path.mkdir(parents=True, exist_ok=True)]. *)
Definition mkdir_call (p : Path) : call :=
  Method (VPath p) "mkdir" [] [("parents", VBool true); ("exist_ok", VBool true)].

(** The name [setup] gives the solvated structure. *)
Definition solvated_pdb (self : ProteinBenchmarkSystem) : string :=
  Pathlib.str (setup_prefix self) +:+ "-solvated.pdb".

(** The arguments of [build_initial_coordinates]: a structure given as
    [initial_pdb] is used as it is, and only without one is the chain built
    from [aa_sequence], by the method and with the caps the target names
    ([extended] and no caps by default). *)
Definition build_contract (self : ProteinBenchmarkSystem)
    (kwargs : list (string * value)) : Prop :=
  let tp := target_parameters self in
  kwarg "ph" kwargs = tp !! "ph" ∧
  kwarg "initial_pdb" kwargs = Some (VStr (initial_pdb self)) ∧
  kwarg "protonated_pdb" kwargs = Some (VStr (protonated_pdb self)) ∧
  match tp !! "initial_pdb" with
  | Some _ =>
      kwarg "build_method" kwargs = Some (VStr "pdb") ∧
      kwarg "aa_sequence" kwargs = None ∧
      kwarg "nterm_cap" kwargs = None ∧
      kwarg "cterm_cap" kwargs = None
  | None =>
      is_Some (tp !! "aa_sequence") ∧
      kwarg "aa_sequence" kwargs = tp !! "aa_sequence" ∧
      kwarg "build_method" kwargs
        = Some (default (VStr "extended") (tp !! "build_method")) ∧
      kwarg "nterm_cap" kwargs = Some (default VNone (tp !! "nterm_cap")) ∧
      kwarg "cterm_cap" kwargs = Some (default VNone (tp !! "cterm_cap"))
  end.

(** A run of events appears, without a gap, in a longer one. *)
Definition appears (run t : list event) : Prop :=
  ∃ before after, t = before ++ run ++ after.


(** The exceptions [setup] can end in. *)
Definition setup_error (self : ProteinBenchmarkSystem) (e : exn) : Prop :=
  let tp := target_parameters self in
  match e with
  | External _ => True
  | ValueError _ => tp !! "initial_pdb" = None ∧ tp !! "aa_sequence" = None
  | KeyError key =>
      (key = VStr "ph" ∧ tp !! "ph" = None) ∨
      (key = VStr "ionic_strength" ∧ tp !! "ionic_strength" = None) ∨
      (key = VStr "target_type" ∧ tp !! "target_type" = None ∧
       tp !! "solvent_padding" = None)
  | AttributeError =>
      ∃ source, tp !! "initial_pdb" = Some source ∧
        match source with
        | VPath _ | VObject _ _ => False
        | _ => True
        end
  | TypeError => False
  end.

(** The target types [run_simulations] has a trajectory length for. *)
Definition known_target_type (target_type : value) : bool :=
  eq_str target_type "peptide" || eq_str target_type "folded"
  || eq_str target_type "disordered".

(** The exceptions [run_simulations] can end in. *)
Definition run_simulations_error (self : ProteinBenchmarkSystem) (e : exn) : Prop :=
  let tp := target_parameters self in
  match e with
  | External _ => True
  | ValueError _ =>
      tp !! "traj_length" = None ∧
      ∃ target_type, tp !! "target_type" = Some target_type ∧
        known_target_type target_type = false
  | KeyError key =>
      (key = VStr "temperature" ∧ tp !! "temperature" = None) ∨
      (key = VStr "pressure" ∧ tp !! "pressure" = None) ∨
      (key = VStr "target_type" ∧ tp !! "target_type" = None ∧
       tp !! "traj_length" = None)
  | AttributeError | TypeError => False
  end.

(** The functions called by name, in order. *)
Definition called_functions (t : list event) : list string :=
  omap (λ e, match e with
             | Called (Call fn _ _) => Some fn
             | _ => None
             end) t.

(** The files of the analysis of one replica. *)
Definition analysis_file (self : ProteinBenchmarkSystem) (replica : Z)
    (suffix : string) : string :=
  Pathlib.str (analysis_prefix self replica) +:+ suffix.

(** A function of the analysis is called only when its own output has just
    been found missing: the call follows the check of that file and the
    message; [align_trajectory] is guarded by the topology it writes,
    [<output_prefix>.pdb].  [merge_csvs] is called on the output of the
    measurement that was called just before it. *)
Definition guarded (t : list event) (e : event) : Prop :=
  match e with
  | Called (Call fn args kwargs) =>
      if decide (fn = "merge_csvs") then
        ∃ measurement kwargs' output,
          appears [Called (Call measurement [] kwargs'); e] t ∧
          kwarg "output_path" kwargs' = Some (VStr output) ∧
          args = [VStr output] ∧ kwargs = []
      else
        ∃ path message,
          appears [Checked path false; Printed message; e] t ∧
          (kwarg "output_path" kwargs = Some (VStr path) ∨
           ∃ prefix, kwarg "output_prefix" kwargs = Some (VStr prefix) ∧
             path = prefix +:+ ".pdb")
  | _ => True
  end.

(** The files one function of the analysis writes and another reads, and
    the files the analysis takes from [setup] and [run_simulations]. *)
Definition analysis_handoff (sp : simulation_parameters)
    (self : ProteinBenchmarkSystem) (replica : Z) (e : event) : Prop :=
  let file := analysis_file self replica in
  let gets name path kwargs := kwarg name kwargs = Some (VStr path) in
  match e with
  | Called (Call fn args kwargs) =>
      (fn = "align_trajectory" →
       gets "output_prefix" (file "-reimaged") kwargs ∧
       gets "reference_path" (initial_pdb self) kwargs ∧
       if bool_decide (sim_platform self = "gmx") then
         gets "trajectory_path"
           (Pathlib.str (replica_dir self replica) +:+ "/traj.xtc") kwargs ∧
         gets "topology_path"
           (Pathlib.str (replica_dir self replica) +:+ "/confout.gro") kwargs
       else
         gets "trajectory_path" (prod_prefix self replica +:+ ".dcd") kwargs ∧
         gets "topology_path" (minimized_pdb self) kwargs) ∧
      (fn = "measure_dihedrals" →
       gets "topology_path" (file "-reimaged.pdb") kwargs ∧
       gets "trajectory_path" (file "-reimaged.dcd") kwargs ∧
       gets "output_path" (file "-dihedrals.dat") kwargs ∧
       kwarg "frame_length" kwargs
         = Some (default (FRAME_LENGTH sp) (target_parameters self !! "frame_length"))) ∧
      (fn = "measure_h_bond_geometries" →
       gets "topology_path" (protonated_pdb self) kwargs ∧
       gets "trajectory_path" (file "-reimaged.dcd") kwargs ∧
       gets "output_path" (file "-hydrogen-bond-geometries.dat") kwargs ∧
       kwarg "frame_length" kwargs
         = Some (default (FRAME_LENGTH sp) (target_parameters self !! "frame_length"))) ∧
      (fn = "assign_dihedral_clusters" →
       gets "dihedrals_path" (file "-dihedrals.dat") kwargs ∧
       gets "output_path" (file "-dihedral-clusters.dat") kwargs) ∧
      (fn = "compute_scalar_couplings" →
       gets "dihedrals_path" (file "-dihedrals.dat") kwargs ∧
       gets "output_path" (file "-scalar-couplings.dat") kwargs) ∧
      (fn = "compute_h_bond_scalar_couplings" →
       gets "h_bond_geometries_path" (file "-hydrogen-bond-geometries.dat") kwargs ∧
       gets "output_path" (file "-h-bond-scalar-couplings.dat") kwargs) ∧
      (fn = "compute_fraction_helix" →
       gets "dihedral_clusters_path" (file "-dihedral-clusters.dat") kwargs ∧
       gets "h_bond_geometries_path" (file "-hydrogen-bond-geometries.dat") kwargs ∧
       gets "output_path" (file "-fraction-helix.dat") kwargs)
  | _ => True
  end.

(** The key of [observables] that each function of the last part of the
    analysis answers to. *)
Definition observable_of (fn : string) : option string :=
  if decide (fn = "compute_scalar_couplings") then Some "scalar_couplings"
  else if decide (fn = "compute_h_bond_scalar_couplings")
       then Some "h_bond_scalar_couplings"
  else if decide (fn = "compute_fraction_helix") then Some "fraction_helix"
  else None.

(** A function of the last part is called for an observable that the
    target lists, on the data the target gives for it. *)
Definition observable_contract (self : ProteinBenchmarkSystem) (e : event) : Prop :=
  match e with
  | Called (Call fn _ kwargs) =>
      ∀ key, observable_of fn = Some key →
        ∃ items fields data,
          target_parameters self !! "observables" = Some (VDict items) ∧
          kwarg key items = Some (VDict fields) ∧
          kwarg "observable_path" fields = Some data ∧
          kwarg "observable_path" kwargs = Some data
  | _ => True
  end.

(** The observables of the last part of the analysis and the suffix of the
    file each one is written to. *)
Definition observable_files : list (string * string) :=
  [("scalar_couplings", "-scalar-couplings.dat");
   ("h_bond_scalar_couplings", "-h-bond-scalar-couplings.dat");
   ("fraction_helix", "-fraction-helix.dat")].

(** An event that looks without acting: a directory made if missing, or a
    file found in place. *)
Definition looks_only (e : event) : Prop :=
  match e with
  | Called (Method _ name _ _) => name = "mkdir"
  | Checked _ found => found = true
  | _ => False
  end.

(** The exception the loop of [force_fields.py] ends in at an entry that
    it cannot complete. *)
Definition incomplete_entry (ff_parameters : dict) (e : exn) : Prop :=
  ff_parameters !! "water_model_file" = None ∧
  match ff_parameters !! "water_model" with
  | None => e = KeyError (VStr "water_model")
  | Some (VDict _) | Some (VQuantity _ _) => e = TypeError
  | Some water_model => e = KeyError water_model
  end.

(** What the loop of [force_fields.py] keeps of an entry: its name, every
    key but [water_model_file], and a [water_model_file] that it has. *)
Definition kept (item item' : string * dict) : Prop :=
  item'.1 = item.1 ∧
  (∀ key, key ≠ "water_model_file" → item'.2 !! key = item.2 !! key) ∧
  (∀ file, item.2 !! "water_model_file" = Some file → item'.2 = item.2) ∧
  is_Some (item'.2 !! "water_model_file").

(** The message of [__init__] for a target without a thermodynamic
    quantity. *)
Definition missing_quantity (target_name quantity : string) : exn :=
  ValueError ("benchmark_targets for target " +:+ target_name
              +:+ " must contain " +:+ dquote +:+ quantity +:+ dquote).

(** The files [setup] writes for an OpenMM system. *)
Definition setup_files (self : ProteinBenchmarkSystem) : list string :=
  [initial_pdb self; protonated_pdb self; solvated_pdb self;
   minimized_pdb self; openmm_system self].

(** The exceptions [analyze_observables] can end in. *)
Definition analysis_error (self : ProteinBenchmarkSystem) (e : exn) : Prop :=
  let tp := target_parameters self in
  match e with
  | External _ | TypeError | AttributeError => True
  | KeyError key =>
      (key = VStr "observables" ∧ tp !! "observables" = None) ∨
      (key = VStr "observable_path" ∧
       ∃ items, tp !! "observables" = Some (VDict items))
  | ValueError _ => False
  end.

(** ** Further samples *)

Module Cases.

(** A peptide given as a structure. *)
Definition from_pdb : dict :=
  <["initial_pdb" := VPath (Pathlib.new ["ala5.pdb"])]> Sample.peptide.

(** A sequence of no target type. *)
Definition typeless : dict :=
  <["aa_sequence" := VStr "AAAAA"]> Sample.state_only.

(** A peptide with one observable. *)
Definition observed_items : list (string * value) :=
  [("scalar_couplings", VDict [("observable_path", VStr "couplings.dat")])].

Definition observed : dict :=
  <["observables" := VDict observed_items]> Sample.peptide.

(** A world in which [setup] of [self] has been completed. *)
Definition set_up (self : protein_system.ProteinBenchmarkSystem) : Sample.World :=
  list_to_map ((λ path, (path, "data")) <$>
    [protein_system.protonated_pdb self; solvate_artifact self;
     minimize_artifact self]).

(** A world in which replica 1 of [self] has been analysed for its scalar
    couplings. *)
Definition fully_analyzed (self : protein_system.ProteinBenchmarkSystem)
    : Sample.World :=
  list_to_map ((λ path, (path, "data")) <$>
    (analysis_artifacts self 1 ++ [analysis_file self 1 "-scalar-couplings.dat"])).

(** A table of two entries the loop of [force_fields.py] can complete,
    and one of an entry it cannot. *)
Definition declared : list (string * dict) :=
  [("ff-opc", list_to_map [("force_field_file", VStr "ff.xml");
                           ("water_model", VStr "opc")]);
   ("ff-tip3p", list_to_map [("force_field_file", VStr "ff.xml");
                             ("water_model", VStr "tip3p");
                             ("water_model_file", VNone)])].

Definition completed : list (string * dict) :=
  match result (force_fields.add_water_model_files (World := unit) "data"
                  declared tt) with
  | Ret table => table
  | Raise _ => []
  end.

Definition undeclared : list (string * dict) :=
  [("ff-spce", list_to_map [("water_model", VStr "spce")])].

End Cases.

(** ** The launches of [run_simulations] *)

(** The production simulation of a replica: its class and the files it is
    built on.  An OpenMM simulation resumes from its [checkpoint_file]; a
    GROMACS simulation loads the state that equilibration saved. *)
Definition production_object (self : ProteinBenchmarkSystem) (replica : Z)
    (cls : string) (kwargs : list (string * value)) : Prop :=
  builds (prod_prefix self replica) kwargs ∧
  kwarg "initial_pdb_file" kwargs = Some (VStr (minimized_pdb self)) ∧
  if bool_decide (sim_platform self = "gmx") then
    cls = "GMXSimulation" ∧
    kwarg "load_state_prefix" kwargs = Some (VStr (equil_prefix self replica))
  else
    cls = "OpenMMSimulation" ∧
    kwarg "checkpoint_file" kwargs
      = Some (VStr (production_checkpoint self replica)).

(** The end of a run that launches production: the simulation is built,
    the production checkpoint is looked for, and the method that
    [production_launch] names is called on the simulation just built. *)
Definition production_tail (self : ProteinBenchmarkSystem) (replica : Z)
    (cls : string) (kwargs : list (string * value)) (found : bool)
    : list event :=
  [Called (New cls kwargs);
   Checked (production_checkpoint self replica) found;
   Called (Method (VObject cls kwargs)
             (production_launch self replica found).1
             (production_launch self replica found).2 [])].

(** The start of equilibration: the equilibrated state is found missing,
    the simulation is built and launched. *)
Definition equilibration_run (self : ProteinBenchmarkSystem) (replica : Z)
    (cls : string) (kwargs : list (string * value)) : list event :=
  [Checked (equilibrated_state self replica) false;
   Printed ("Running NPT equilibration for system " +:+ system_name self);
   Called (New cls kwargs);
   Called (Method (VObject cls kwargs)
             (if bool_decide (sim_platform self = "gmx")
              then "run" else "start_from_pdb") [] [])].


(** ** Samples of replicas *)

Module Replicas.

(** A target of no known type that overrides a parameter of every
    stage. *)
Definition overridden : dict :=
  <["traj_length" := VInt 7]>
    (<["timestep" := VInt 4]>
       (<["equil_timestep" := VInt 2]>
          (<["nonbonded_cutoff" := VInt 9]>
             (<["restraint_energy_constant" := VInt 1]> Sample.untyped)))).


End Replicas.

(** * Properties *)

(** ** Rules for reading runs *)

Section Rules.
Context {World : Type}.
Variable files : World → gmap string string.
Variable oracle : call → World → answer * World.

Local Abbreviation M := (M World).

Lemma wp_ret {A} (a : A) (w : World) Q : Q (Ret a) w [] → wp (ret a) w Q.
Proof. done. Qed.

Lemma wp_raise {A} e (w : World) (Q : res A → World → list event → Prop) :
  Q (Raise e) w [] → wp (raise e) w Q.
Proof. done. Qed.

Lemma wp_bind {A B} (m : M A) (k : A → M B) w Q :
  wp m w (λ r w1 t1,
    match r with
    | Ret a => wp (k a) w1 (λ r2 w2 t2, Q r2 w2 (t1 ++ t2))
    | Raise e => Q (Raise e) w1 t1
    end) →
  wp (bind m k) w Q.
Proof.
  unfold wp, bind, result, final, events.
  destruct (m w) as [[[a|e] w1] t1]; simpl; [|done].
  by destruct (k a w1) as [[r2 w2] t2].
Qed.

Lemma wp_mono {A} (m : M A) w (Q Q' : res A → World → list event → Prop) :
  wp m w Q → (∀ r w' t, Q r w' t → Q' r w' t) → wp m w Q'.
Proof. unfold wp. auto. Qed.

(** A rule-by-rule reading of a run gives a fact about its events. *)
Lemma wp_events {A} (m : M A) w (Φ : list event → Prop) :
  wp m w (λ _ _ t, Φ t) → Φ (events (m w)).
Proof. done. Qed.

Lemma wp_result {A} (m : M A) w (Ψ : res A → Prop) :
  wp m w (λ r _ _, Ψ r) → Ψ (result (m w)).
Proof. done. Qed.

Lemma wp_print s (w : World) Q : Q (Ret tt) w [Printed s] → wp (print s) w Q.
Proof. done. Qed.

Lemma wp_exists p w Q :
  Q (Ret (present (files w) p)) w [Checked p (present (files w) p)] →
  wp (exists_and_not_empty files p) w Q.
Proof. done. Qed.

Lemma wp_getitem d k (w : World) Q :
  match d !! k with
  | Some v => Q (Ret v) w []
  | None => Q (Raise (KeyError (VStr k))) w []
  end →
  wp (getitem d k) w Q.
Proof. unfold getitem. by destruct (d !! k). Qed.

(** The idiom [d[k] if k in d else x]. *)
Lemma wp_default d k x (w : World) Q :
  Q (Ret (default x (d !! k))) w [] →
  wp (if contains d k then getitem d k else ret x) w Q.
Proof. unfold contains, getitem. by destruct (d !! k). Qed.

Lemma wp_invoke c w Q :
  (∀ v w', oracle c w = (Returned v, w') → Q (Ret v) w' [Called c]) →
  (∀ x w', oracle c w = (Raised x, w') → Q (Raise (External x)) w' [Called c]) →
  wp (invoke oracle c) w Q.
Proof.
  intros Hret Hraise. unfold wp, invoke.
  destruct (oracle c w) as [[v|x] w'] eqn:E; [by apply Hret | by apply Hraise].
Qed.

(** A run of [m ;; k] is a run of [m] followed, unless it raised, by a
    run of [k]. *)
Lemma events_bind {A B} (m : M A) (k : A → M B) w :
  events (bind m k w) =
    events (m w) ++
    match result (m w) with
    | Ret a => events (k a (final (m w)))
    | Raise _ => []
    end.
Proof.
  unfold bind, result, final, events.
  destruct (m w) as [[[a|e] w1] t1]; simpl; [|by rewrite app_nil_r].
  by destruct (k a w1) as [[r2 w2] t2].
Qed.

Lemma result_bind {A B} (m : M A) (k : A → M B) w :
  result (bind m k w) =
    match result (m w) with
    | Ret a => result (k a (final (m w)))
    | Raise e => Raise e
    end.
Proof.
  unfold bind, result, final.
  destruct (m w) as [[[a|e] w1] t1]; simpl; [|done].
  by destruct (k a w1) as [[r2 w2] t2].
Qed.

Lemma final_bind {A B} (m : M A) (k : A → M B) w :
  final (bind m k w) =
    match result (m w) with
    | Ret a => final (k a (final (m w)))
    | Raise e => final (m w)
    end.
Proof.
  unfold bind, result, final.
  destruct (m w) as [[[a|e] w1] t1]; simpl; [|done].
  by destruct (k a w1) as [[r2 w2] t2].
Qed.

(** An exception of [m ;; k] is one of [m] or one of [k]. *)
Lemma raise_bind {A B} (Φ : exn → Prop) (m : M A) (k : A → M B) w :
  (∀ e, result (m w) = Raise e → Φ e) →
  (∀ a w' e, result (k a w') = Raise e → Φ e) →
  ∀ e, result (bind m k w) = Raise e → Φ e.
Proof.
  intros Hm Hk e. rewrite result_bind.
  destruct (result (m w)) as [a|e']; [apply Hk|].
  intros [= <-]. by apply Hm.
Qed.

(** A property of every event of [m ;; k] follows from the parts. *)
Lemma Forall_events_bind {A B} (P : event → Prop) (m : M A) (k : A → M B) w :
  Forall P (events (m w)) →
  (∀ a w', Forall P (events (k a w'))) →
  Forall P (events (bind m k w)).
Proof.
  intros Hm Hk. rewrite events_bind. apply Forall_app. split; [done|].
  destruct (result (m w)); [apply Hk | constructor].
Qed.

(** The stages of [m ;; k] are those of [m] followed by those of [k]. *)
Lemma sublist_stages_bind {A B} (m : M A) (k : A → M B) w l1 l2 :
  stages (events (m w)) `sublist_of` l1 →
  (∀ a w', stages (events (k a w')) `sublist_of` l2) →
  stages (events (bind m k w)) `sublist_of` l1 ++ l2.
Proof.
  intros Hm Hk. rewrite events_bind. unfold stages. rewrite omap_app.
  apply sublist_app; [done|].
  destruct (result (m w)); [apply Hk | apply sublist_nil_l].
Qed.

Lemma stages_app t1 t2 : stages (t1 ++ t2) = stages t1 ++ stages t2.
Proof. apply omap_app. Qed.

End Rules.

(** One step of a run: the rule for the head of the computation, then the
    continuation is brought back into shape. *)
Ltac wp_step :=
  lazymatch goal with
  | |- wp (bind _ _) _ _ => apply wp_bind
  | |- wp (ret _) _ _ => apply wp_ret
  | |- wp (raise _) _ _ => apply wp_raise
  | |- wp (print _) _ _ => apply wp_print
  | |- wp (exists_and_not_empty _ _) _ _ => apply wp_exists
  | |- wp (if contains ?d ?k then getitem ?d ?k else ret _) _ _ =>
      apply wp_default
  | |- wp (getitem ?d ?k) _ _ =>
      apply wp_getitem;
      first [ lazymatch goal with H : d !! k = _ |- _ => rewrite H end
            | destruct (d !! k) eqn:? ]
  | |- wp (invoke _ _) _ _ => apply wp_invoke; intros ? ? ?
  | |- wp (method _ _ _ _ _) _ _ => unfold method
  | |- wp (construct _ _ _) _ _ => unfold construct
  | |- wp (mkdir _ _) _ _ => unfold mkdir
  | |- wp (andM _ _) _ _ => unfold andM
  | |- wp (orM _ _) _ _ => unfold orM
  | |- wp (match ?v with VNone => _ | _ => _ end) _ _ => destruct v
  | |- wp (match ?o with Some _ => _ | None => _ end) _ _ => destruct o eqn:?
  | |- wp (match (if ?b then _ else _) with _ => _ end) _ _ => destruct b eqn:?
  | |- wp (if contains ?d ?k then _ else _) _ _ =>
      unfold contains at 1; destruct (d !! k) eqn:?
  | |- wp (if negb ?b then _ else _) _ _ => destruct b eqn:?; cbn [negb]
  | |- wp (if ?b then _ else _) _ _ => destruct b eqn:?
  | |- wp (let _ := _ in _) _ _ => cbv zeta
  end; cbv beta iota.

Ltac wp_run := repeat wp_step.

Section SetupFacts.
Context {World : Type}.
Variable files : World → gmap string string.
Variable oracle : call → World → answer * World.
Variable sp : simulation_parameters.

Local Abbreviation setup_build := (setup_build files oracle).
Local Abbreviation setup_solvate := (setup_solvate files oracle sp).
Local Abbreviation setup_minimize := (setup_minimize files oracle sp).
Local Abbreviation setup := (setup files oracle sp).

Ltac in_stages :=
  cbn [app] in *; rewrite ?elem_of_cons, ?elem_of_nil in *;
  intuition congruence.

Ltac settle_stage :=
  unfold ran_or_skipped;
  first [ left; split; [reflexivity | done]
        | right; split; [reflexivity | first [left; done | right; eauto]] ].

Lemma setup_build_stage self w :
  wp (setup_build self) w (λ r _ t,
    ran_or_skipped Build (present (files w) (protonated_pdb self)) r t).
Proof. unfold protein_system.setup_build. wp_run; settle_stage. Qed.

Lemma setup_solvate_stage self solvated_pdb w :
  wp (setup_solvate self solvated_pdb) w (λ r _ t,
    ran_or_skipped Solvate (present (files w) (solvate_artifact self)) r t).
Proof.
  unfold protein_system.setup_solvate, solvate_artifact.
  wp_run; settle_stage.
Qed.

Lemma setup_minimize_stage self solvated_pdb w :
  wp (setup_minimize self solvated_pdb) w (λ r _ t,
    ran_or_skipped Minimize (present (files w) (minimize_artifact self)) r t).
Proof.
  unfold protein_system.setup_minimize, minimize_artifact.
  wp_run; settle_stage.
Qed.

Lemma mkdir_stages p w : stages (events (mkdir oracle p w)) = [].
Proof.
  apply (wp_events _ _ (λ t, stages t = [])).
  unfold mkdir. wp_run; reflexivity.
Qed.

(** C1 (amended).  In [setup], a stage that runs had its artifact missing
    or empty when the stage's block started: the protonated PDB for
    [build_initial_coordinates], the OpenMM system XML (the [.top] file
    under GROMACS) for [solvate], the minimized PDB ([confout.gro] under
    GROMACS) for [minimize].  When [setup] returns normally the converse
    holds too: each stage ran if and only if its artifact was missing or
    empty.  The worlds [w0], [w1] and [w2] are the ones in which the three
    checks are made. *)
Theorem setup_stage_runs_iff_artifact_missing self w :
  let solvated_pdb := Pathlib.str (setup_prefix self) +:+ "-solvated.pdb" in
  let w0 := final (mkdir oracle (setup_dir self) w) in
  let w1 := final (setup_build self w0) in
  let w2 := final (setup_solvate self solvated_pdb w1) in
  let t := events (setup self w) in
  ((Build ∈ stages t → present (files w0) (protonated_pdb self) = false) ∧
   (Solvate ∈ stages t → present (files w1) (solvate_artifact self) = false) ∧
   (Minimize ∈ stages t → present (files w2) (minimize_artifact self) = false)) ∧
  (result (setup self w) = Ret tt →
   (present (files w0) (protonated_pdb self) = false → Build ∈ stages t) ∧
   (present (files w1) (solvate_artifact self) = false → Solvate ∈ stages t) ∧
   (present (files w2) (minimize_artifact self) = false → Minimize ∈ stages t)).
Proof.
  intros solvated_pdb w0 w1 w2 t.
  pose proof (setup_build_stage self w0) as Hb.
  pose proof (setup_solvate_stage self solvated_pdb w1) as Hs.
  pose proof (setup_minimize_stage self solvated_pdb w2) as Hm.
  pose proof (mkdir_stages (setup_dir self) w) as Hd.
  unfold wp, ran_or_skipped in Hb, Hs, Hm.
  fold w1 in Hs. fold w2 in Hm. fold w0 in Hb.
  assert (Ht : stages t =
    match result (mkdir oracle (setup_dir self) w) with
    | Raise _ => []
    | Ret _ =>
        stages (events (setup_build self w0)) ++
        match result (setup_build self w0) with
        | Raise _ => []
        | Ret _ =>
            stages (events (setup_solvate self solvated_pdb w1)) ++
            match result (setup_solvate self solvated_pdb w1) with
            | Raise _ => []
            | Ret _ => stages (events (setup_minimize self solvated_pdb w2))
            end
        end
    end).
  { subst t. unfold protein_system.setup. cbv zeta.
    rewrite events_bind, stages_app, Hd. fold w0.
    destruct (result (mkdir oracle (setup_dir self) w)); [|done].
    rewrite events_bind, stages_app. fold w1.
    destruct (result (setup_build self w0)); [|done].
    rewrite events_bind, stages_app. fold solvated_pdb. fold w2.
    destruct (result (setup_solvate self solvated_pdb w1)); [|done].
    rewrite events_bind, stages_app.
    destruct (result (setup_minimize self solvated_pdb w2));
      by rewrite ?app_nil_r. }
  assert (Hr : result (setup self w) = Ret tt →
    (∃ v, result (mkdir oracle (setup_dir self) w) = Ret v) ∧
    result (setup_build self w0) = Ret tt ∧
    result (setup_solvate self solvated_pdb w1) = Ret tt ∧
    result (setup_minimize self solvated_pdb w2) = Ret tt).
  { unfold protein_system.setup. cbv zeta.
    rewrite result_bind. fold w0.
    destruct (result (mkdir oracle (setup_dir self) w)) as [v|]; [|done].
    rewrite result_bind. fold w1.
    destruct (result (setup_build self w0)) as [[]|]; [|done].
    rewrite result_bind. fold solvated_pdb. fold w2.
    destruct (result (setup_solvate self solvated_pdb w1)) as [[]|]; [|done].
    rewrite result_bind.
    destruct (result (setup_minimize self solvated_pdb w2)) as [[]|]; [|done].
    eauto. }
  rewrite Ht. split.
  - destruct (result (mkdir oracle (setup_dir self) w));
      [|by split_and!; intros ?%elem_of_nil].
    destruct (result (setup_build self w0));
      destruct (result (setup_solvate self solvated_pdb w1));
      destruct Hb as [[Eb ?]|[Eb ?]], Hs as [[Es ?]|[Es ?]],
               Hm as [[Em ?]|[Em ?]];
      rewrite ?Eb, ?Es, ?Em; split_and!; intros Hin; try done; in_stages.
  - intros ([v Hrd] & Hrb & Hrs & Hrm)%Hr.
    rewrite Hrd, Hrb, Hrs. rewrite Hrb in Hb. rewrite Hrs in Hs.
    rewrite Hrm in Hm.
    destruct Hb as [[Eb ?]|[Eb [?|[? ?]]]], Hs as [[Es ?]|[Es [?|[? ?]]]],
             Hm as [[Em ?]|[Em [?|[? ?]]]];
      rewrite ?Eb, ?Es, ?Em; split_and!; intros Hin;
      try congruence; in_stages.
Qed.
End SetupFacts.

(** Every event of a list built by the run rules satisfies [P]. *)
Ltac each_event tac :=
  cbn [app]; repeat (apply Forall_cons_2; [tac|]); try apply Forall_nil_2.

(** A table of cascading parameters, entry by entry. *)
Ltac cascade :=
  unfold cascades; repeat (apply Forall_cons_2; [reflexivity|]); apply Forall_nil_2.

(** Rewrite with what the run has established about look-ups and tests. *)
Ltac use_facts :=
  repeat match goal with
         | H : _ !! _ = _ |- _ => rewrite H
         | H : eq_str _ _ = _ |- _ => rewrite H
         | H : bool_decide _ = _ |- _ => rewrite H
         end.

Section SetupArguments.
Context {World : Type}.
Variable files : World → gmap string string.
Variable oracle : call → World → answer * World.
Variable sp : simulation_parameters.

Local Abbreviation setup_build := (setup_build files oracle).
Local Abbreviation setup_solvate := (setup_solvate files oracle sp).
Local Abbreviation setup_minimize := (setup_minimize files oracle sp).
Local Abbreviation setup := (setup files oracle sp).

(** A property of every event of [setup] follows from the blocks. *)
Lemma setup_events (P : event → Prop) self :
  (∀ p name args kw, P (Called (Method (VPath p) name args kw))) →
  (∀ s, P (Printed s)) →
  (∀ w, Forall P (events (setup_build self w))) →
  (∀ s w, Forall P (events (setup_solvate self s w))) →
  (∀ s w, Forall P (events (setup_minimize self s w))) →
  ∀ w, Forall P (events (setup self w)).
Proof.
  intros Hc Hp Hb Hs Hm w. unfold protein_system.setup. cbv zeta.
  apply Forall_events_bind; [|intros ? ?].
  { apply (wp_events _ _ (Forall P)).
    unfold mkdir. wp_run; each_event ltac:(apply Hc). }
  apply Forall_events_bind; [apply Hb | intros ? ?].
  apply Forall_events_bind; [apply Hs | intros ? ?].
  apply Forall_events_bind; [apply Hm | intros ? ?].
  apply (wp_events _ _ (Forall P)). wp_run. each_event ltac:(apply Hp).
Qed.

Lemma setup_contract self replica w :
  Forall (cascade_contract sp self replica) (events (setup self w)).
Proof.
  apply setup_events.
  - done.
  - done.
  - intros w'. apply (wp_events _ _ (Forall _)).
    unfold protein_system.setup_build.
    wp_run; each_event ltac:(by cbn).
  - intros s w'. apply (wp_events _ _ (Forall _)).
    unfold protein_system.setup_solvate.
    wp_run;
      each_event ltac:(cbn; first
                         [ done
                         | split; [intros _|by intros [=]];
                           unfold solvate_contract; cbv zeta;
                           split; [cascade|]; use_facts;
                           first [ reflexivity
                                 | eexists; split; [reflexivity|];
                                   use_facts; reflexivity ] ]).
  - intros s w'. apply (wp_events _ _ (Forall _)).
    unfold protein_system.setup_minimize.
    wp_run;
      each_event ltac:(cbn; first
                         [ done
                         | split; [by intros [=]|intros _];
                           unfold minimize_contract; cbv zeta;
                           use_facts; done ]).
Qed.

End SetupArguments.

Section RunFacts.
Context {World : Type}.
Variable files : World → gmap string string.
Variable oracle : call → World → answer * World.
Variable sp : simulation_parameters.

Local Abbreviation equilibrate := (run_simulations_equilibrate files oracle sp).
Local Abbreviation produce := (run_simulations_produce files oracle sp).
Local Abbreviation run_simulations := (run_simulations files oracle sp).

(** [run_simulations] with the names of its local variables folded. *)
Lemma run_simulations_blocks self replica :
  run_simulations self replica =
    (mkdir oracle (replica_dir self replica) ;;
     print (equilibrated_state self replica) ;;
     present ← exists_and_not_empty files (equilibrated_state self replica);
     print (str_of_bool present) ;;
     equilibrate self (run_setup_prefix self) (equil_prefix self replica)
       (equilibrated_state self replica) ;;
     produce self (run_setup_prefix self) (equil_prefix self replica)
       (prod_prefix self replica) (equilibrated_state self replica)).
Proof. reflexivity. Qed.

Lemma prefixes_differ self replica :
  equil_prefix self replica ≠ prod_prefix self replica.
Proof. unfold equil_prefix, prod_prefix. intros H%String.app_inj. discriminate H. Qed.

(** A property of every event of [run_simulations] follows from the
    blocks. *)
Lemma run_simulations_events (P : event → Prop) self replica :
  (∀ p name args kw, P (Called (Method (VPath p) name args kw))) →
  (∀ s, P (Printed s)) →
  (∀ b, P (Checked (equilibrated_state self replica) b)) →
  (∀ w, Forall P (events (equilibrate self (run_setup_prefix self)
                            (equil_prefix self replica)
                            (equilibrated_state self replica) w))) →
  (∀ w, Forall P (events (produce self (run_setup_prefix self)
                            (equil_prefix self replica)
                            (prod_prefix self replica)
                            (equilibrated_state self replica) w))) →
  ∀ w, Forall P (events (run_simulations self replica w)).
Proof.
  intros Hc Hp Hk He Hr w. rewrite run_simulations_blocks.
  apply Forall_events_bind; [|intros ? ?].
  { apply (wp_events _ _ (Forall P)).
    unfold mkdir. wp_run; each_event ltac:(apply Hc). }
  apply Forall_events_bind; [|intros ? ?].
  { apply (wp_events _ _ (Forall P)). wp_run. each_event ltac:(apply Hp). }
  apply Forall_events_bind; [|intros ? ?].
  { apply (wp_events _ _ (Forall P)). wp_run. each_event ltac:(apply Hk). }
  apply Forall_events_bind; [|intros ? ?].
  { apply (wp_events _ _ (Forall P)). wp_run. each_event ltac:(apply Hp). }
  apply Forall_events_bind; [apply He | intros ? ?]. apply Hr.
Qed.

Lemma equilibrate_contract self replica w :
  Forall (cascade_contract sp self replica)
    (events (equilibrate self (run_setup_prefix self) (equil_prefix self replica)
               (equilibrated_state self replica) w)).
Proof.
  apply (wp_events _ _ (Forall _)).
  unfold protein_system.run_simulations_equilibrate.
  wp_run;
    each_event ltac:(cbn; first
      [ done
      | split; intros Hb;
        [ unfold equilibration_contract; cbv zeta; use_facts;
          split; cascade
        | unfold builds in Hb; cbn in Hb; injection Hb as Hb;
          by destruct (prefixes_differ _ _ Hb) ] ]).
Qed.

Lemma produce_contract self replica w :
  Forall (cascade_contract sp self replica)
    (events (produce self (run_setup_prefix self) (equil_prefix self replica)
               (prod_prefix self replica) (equilibrated_state self replica) w)).
Proof.
  apply (wp_events _ _ (Forall _)).
  unfold protein_system.run_simulations_produce.
  wp_run;
    each_event ltac:(cbn; first
      [ done
      | split; intros Hb;
        [ unfold builds in Hb; cbn in Hb; injection Hb as Hb;
          symmetry in Hb; by destruct (prefixes_differ _ _ Hb)
        | unfold production_contract; cbv zeta; use_facts;
          split_and!; [cascade..|];
          first [ reflexivity
                | eexists _, _; split; [reflexivity|];
                  unfold traj_length_by_type; use_facts; done ] ] ]).
Qed.

Lemma run_simulations_contract self replica w :
  Forall (cascade_contract sp self replica)
    (events (run_simulations self replica w)).
Proof.
  apply run_simulations_events; try done.
  - apply equilibrate_contract.
  - apply produce_contract.
Qed.

Lemma equilibrate_stage self replica w :
  wp (equilibrate self (run_setup_prefix self) (equil_prefix self replica)
        (equilibrated_state self replica)) w (λ r _ t,
    stages t = [] ∨
    (stages t = [Equilibrate] ∧
     Checked (equilibrated_state self replica) false ∈ t)).
Proof.
  unfold protein_system.run_simulations_equilibrate.
  wp_run; first [ by left | right; split; [reflexivity | cbn [app]; by left] ].
Qed.

Lemma produce_stage self replica w :
  wp (produce self (run_setup_prefix self) (equil_prefix self replica)
        (prod_prefix self replica) (equilibrated_state self replica)) w
    (λ r _ t,
      (stages t = [] ∧ ∃ e, r = Raise e) ∨
      (stages t = [Produce] ∧
       ∃ b obj,
         last_two t =
           Some (Checked (production_checkpoint self replica) b,
                 Called (Method obj (production_launch self replica b).1
                           (production_launch self replica b).2 [])))).
Proof.
  unfold protein_system.run_simulations_produce, production_checkpoint,
    production_launch, equilibrated_state.
  wp_run;
    first [ by left; eauto
          | right; split; [reflexivity|]; use_facts;
            first [ by exists true; eexists | by exists false; eexists ] ].
Qed.


End RunFacts.

(** ** Strings and paths *)



Lemma has_slash_app s t : has_slash (s +:+ t) = has_slash s || has_slash t.
Proof.
  induction s as [|c s IH]; simpl; [done|]. by rewrite IH, orb_assoc.
Qed.




(** ** The claims *)

Section Claims.
Context {World : Type}.
Variable files : World → gmap string string.
Variable oracle : call → World → answer * World.
Variable sp : simulation_parameters.

Local Abbreviation setup_build := (setup_build files oracle).
Local Abbreviation setup_solvate := (setup_solvate files oracle sp).
Local Abbreviation setup_minimize := (setup_minimize files oracle sp).
Local Abbreviation setup := (setup files oracle sp).
Local Abbreviation equilibrate := (run_simulations_equilibrate files oracle sp).
Local Abbreviation produce := (run_simulations_produce files oracle sp).
Local Abbreviation run_simulations := (run_simulations files oracle sp).

Lemma last_two_length t x : last_two t = Some x → ∃ a b t', t = a :: b :: t'.
Proof.
  destruct t as [|a [|b t']]; [done..|]. eauto.
Qed.

Lemma last_two_app t1 t2 x : last_two t2 = Some x → last_two (t1 ++ t2) = Some x.
Proof.
  intros H. induction t1 as [|e t1 IH]; [done|].
  destruct (last_two_length _ _ H) as (a & b & t' & ->).
  cbn [app last_two]. rewrite <- IH.
  by destruct t1 as [|? [|? ?]].
Qed.

(** The events and the result of [run_simulations], block by block. *)
Lemma run_simulations_trace self replica w :
  let w0 := final (mkdir oracle (replica_dir self replica) w) in
  let state := equilibrated_state self replica in
  let eq_run := equilibrate self (run_setup_prefix self)
                  (equil_prefix self replica) state w0 in
  let prod_run := produce self (run_setup_prefix self) (equil_prefix self replica)
                    (prod_prefix self replica) state (final eq_run) in
  events (run_simulations self replica w) =
    events (mkdir oracle (replica_dir self replica) w) ++
    match result (mkdir oracle (replica_dir self replica) w) with
    | Raise _ => []
    | Ret _ =>
        [Printed state; Checked state (present (files w0) state);
         Printed (str_of_bool (present (files w0) state))] ++
        events eq_run ++
        match result eq_run with
        | Raise _ => []
        | Ret _ => events prod_run
        end
    end ∧
  result (run_simulations self replica w) =
    match result (mkdir oracle (replica_dir self replica) w) with
    | Raise e => Raise e
    | Ret _ =>
        match result eq_run with
        | Raise e => Raise e
        | Ret _ => result prod_run
        end
    end.
Proof.
  intros w0 state eq_run prod_run. rewrite run_simulations_blocks.
  rewrite events_bind, result_bind. fold w0.
  destruct (result (mkdir oracle (replica_dir self replica) w)); [|by split].
  split.
  - f_equal. do 3 (rewrite events_bind; cbn [events result final fst snd
                     print exists_and_not_empty app]).
    fold state. rewrite events_bind. fold eq_run.
    by destruct (result eq_run).
  - do 3 (rewrite result_bind; cbn [events result final fst snd
            print exists_and_not_empty]).
    rewrite result_bind. fold state eq_run.
    by destruct (result eq_run).
Qed.

Lemma mkdir_events p w :
  Forall (λ e, ∃ c, e = Called c ∧ stage_of e = None) (events (mkdir oracle p w)).
Proof.
  apply (wp_events _ _ (Forall _)). unfold mkdir.
  wp_run; each_event ltac:(by eexists).
Qed.

(** C6.  The stages of one call run one after the other in a fixed order:
    the stages started by [setup] are, in order, a sublist of build, solvate,
    minimize, and those started by [run_simulations] a sublist of
    equilibrate, produce.  A run is a sequence of blocking calls, each
    starting in the world the previous one left, so no two stages
    overlap. *)
Theorem stages_run_in_order self replica w :
  stages (events (setup self w)) `sublist_of` [Build; Solvate; Minimize] ∧
  stages (events (run_simulations self replica w)) `sublist_of`
    [Equilibrate; Produce].
Proof.
  split.
  - unfold protein_system.setup. cbv zeta.
    change [Build; Solvate; Minimize]
      with ([] ++ [Build] ++ [Solvate] ++ [Minimize] ++ []).
    apply sublist_stages_bind; [by rewrite mkdir_stages | intros ? w0].
    apply sublist_stages_bind; [|intros ? w1].
    { destruct (setup_build_stage files oracle self w0) as [[-> _]|[-> _]];
        [done | apply sublist_nil_l]. }
    apply sublist_stages_bind; [|intros ? w2].
    { destruct (setup_solvate_stage files oracle sp self
                  (Pathlib.str (setup_prefix self) +:+ "-solvated.pdb") w1)
        as [[-> _]|[-> _]]; [done | apply sublist_nil_l]. }
    apply sublist_stages_bind; [|intros ? w3; done].
    destruct (setup_minimize_stage files oracle sp self
                (Pathlib.str (setup_prefix self) +:+ "-solvated.pdb") w2)
      as [[-> _]|[-> _]]; [done | apply sublist_nil_l].
  - pose proof (run_simulations_trace self replica w) as Ht.
    cbv zeta in Ht. destruct Ht as [-> _].
    rewrite stages_app, mkdir_stages.
    destruct (result (mkdir oracle (replica_dir self replica) w));
      [|apply sublist_nil_l].
    rewrite !stages_app.
    change [Equilibrate; Produce] with ([] ++ [] ++ [Equilibrate] ++ [Produce]).
    do 2 (apply sublist_app; [done|]).
    apply sublist_app.
    + by destruct (equilibrate_stage files oracle sp self replica
                     (final (mkdir oracle (replica_dir self replica) w)))
        as [->|[-> _]]; [apply sublist_nil_l|].
    + destruct (result (equilibrate _ _ _ _ _)); [|apply sublist_nil_l].
      by destruct (produce_stage files oracle sp self replica
                     (final (equilibrate self (run_setup_prefix self)
                               (equil_prefix self replica)
                               (equilibrated_state self replica)
                               (final (mkdir oracle (replica_dir self replica) w)))))
        as [[-> _]|[-> _]]; [apply sublist_nil_l|].
Qed.


Lemma produce_value_error self replica target_type w :
  target_parameters self !! "traj_length" = None →
  target_parameters self !! "target_type" = Some target_type →
  eq_str target_type "peptide" = false →
  eq_str target_type "folded" = false →
  eq_str target_type "disordered" = false →
  wp (produce self (run_setup_prefix self) (equil_prefix self replica)
        (prod_prefix self replica) (equilibrated_state self replica)) w
    (λ r _ t, ∃ msg, r = Raise (ValueError msg)).
Proof.
  intros Hl Ht Hp Hf Hd. unfold protein_system.run_simulations_produce.
  cbv zeta. apply wp_bind, wp_print. cbv beta iota.
  apply wp_bind, wp_default. cbv beta iota.
  apply wp_bind. unfold contains at 1. rewrite Hl.
  do 3 (apply wp_bind, wp_getitem; rewrite Ht; cbv beta iota;
        first [rewrite Hp | rewrite Hf | rewrite Hd]).
  apply wp_raise. eauto.
Qed.


Local Abbreviation analyze_observables := (analyze_observables files oracle sp).
Local Abbreviation analyze_observables_measure :=
  (analyze_observables_measure files oracle sp).
Local Abbreviation analyze_observables_compute :=
  (analyze_observables_compute files oracle).

(** C10.  Without an [observables] key, [analyze_observables] raises
    [KeyError] as soon as the measurement blocks have returned; when all
    four measurement artifacts are present it does so after checking them,
    with no analysis function called. *)
Theorem analyze_observables_needs_observables self replica w :
  target_parameters self !! "observables" = None →
  (∀ x, result (analyze_observables_measure self replica w) = Ret x →
     result (analyze_observables self replica w)
       = Raise (KeyError (VStr "observables"))) ∧
  (∀ v w0,
     oracle (Method (VPath (analysis_dir self)) "mkdir" []
               [("parents", VBool true); ("exist_ok", VBool true)]) w
       = (Returned v, w0) →
     Forall (λ path, present (files w0) path = true)
       (analysis_artifacts self replica) →
     result (analyze_observables self replica w)
       = Raise (KeyError (VStr "observables")) ∧
     final (analyze_observables self replica w) = w0 ∧
     events (analyze_observables self replica w) =
       Called (Method (VPath (analysis_dir self)) "mkdir" []
                 [("parents", VBool true); ("exist_ok", VBool true)])
       :: ((λ path, Checked path true) <$> analysis_artifacts self replica)).
Proof.
  intros Hobs.
  assert (Hcompute : ∀ a b c d w',
    analyze_observables_compute self a b c d w'
      = (Raise (KeyError (VStr "observables")), w', [])).
  { intros. unfold protein_system.analyze_observables_compute, bind, getitem.
    by rewrite Hobs. }
  split.
  - intros x Hx. unfold protein_system.analyze_observables.
    rewrite result_bind, Hx. destruct x as [[[a b] c] d].
    by rewrite Hcompute.
  - intros v w0 Hmk Hall.
    apply Forall_cons in Hall as [H1 Hall]. apply Forall_cons in Hall as [H2 Hall].
    apply Forall_cons in Hall as [H3 Hall]. apply Forall_cons in Hall as [H4 _].
    assert (Hmeasure :
      analyze_observables_measure self replica w =
        (Ret (Pathlib.str (analysis_prefix self replica) +:+ "-dihedrals.dat",
              Pathlib.str (analysis_prefix self replica)
                +:+ "-hydrogen-bond-geometries.dat",
              Pathlib.str (analysis_prefix self replica)
                +:+ "-dihedral-clusters.dat",
              analysis_prefix self replica),
         w0,
         Called (Method (VPath (analysis_dir self)) "mkdir" []
                   [("parents", VBool true); ("exist_ok", VBool true)])
         :: ((λ path, Checked path true) <$> analysis_artifacts self replica))).
    { unfold protein_system.analyze_observables_measure, analyze_align,
        analyze_measure, analyze_clusters, mkdir, method, invoke, bind,
        exists_and_not_empty, contains, getitem.
      fold (analysis_dir self). cbv zeta. fold (analysis_prefix self replica).
      rewrite Hmk. cbn [negb].
      destruct (target_parameters self !! "frame_length");
        cbn [ret]; rewrite H1; cbn [negb ret];
        rewrite H2; cbn [negb ret]; rewrite H3; cbn [negb ret];
        rewrite H4; reflexivity. }
    unfold protein_system.analyze_observables, bind.
    rewrite Hmeasure, Hcompute. cbn [result final events fst snd].
    by rewrite app_nil_r.
Qed.

(** The exceptions of a block, path by path: an engine failure, a
    failed look-up or attribute access, or the [ValueError] of the
    block. *)
Ltac own_errors tac :=
  wp_run; intros ? [= <-]; first [ by intros ? [=] | intros ? _; tac ].

Lemma check_thermodynamic_state_run target_name tp quantities (w : World) :
  wp (check_thermodynamic_state target_name tp quantities) w (λ r w' t,
    t = [] ∧ w' = w ∧
    (∀ e, r = Raise e →
       ∃ quantity, quantity ∈ quantities ∧ tp !! quantity = None ∧
         e = ValueError ("benchmark_targets for target " +:+ target_name
                         +:+ " must contain " +:+ dquote +:+ quantity
                         +:+ dquote)) ∧
    ((∀ quantity, quantity ∈ quantities → is_Some (tp !! quantity)) →
       r = Ret tt)).
Proof.
  induction quantities as [|quantity rest IH]; cbn [check_thermodynamic_state].
  - apply wp_ret. by split_and!.
  - unfold contains. destruct (tp !! quantity) eqn:Hq; cbn [negb].
    + eapply wp_mono; [apply IH|]. intros r w' t (-> & -> & Hraise & Hret).
      split_and!; [done..| |].
      * intros e [q (Hin & ? & ?)]%Hraise. exists q. split; [by right|done].
      * intros Hall. apply Hret. intros q Hin. apply Hall. by right.
    + apply wp_raise. split_and!; [done..| |].
      * intros e [= <-]. exists quantity. split; [by left|done].
      * intros Hall. destruct (Hall quantity) as [? Hsome]; [by left|].
        congruence.
Qed.

Lemma init_run result_directory target_name tp force_field_name water_model_name
    fff wmf platform gmx (w : World) :
  let run := __init__ result_directory target_name tp force_field_name
               water_model_name fff wmf platform gmx w in
  events run = [] ∧ final run = w ∧
  (∀ e, result run = Raise e →
     ∃ quantity, quantity ∈ thermodynamic_state ∧ tp !! quantity = None ∧
       e = ValueError ("benchmark_targets for target " +:+ target_name
                       +:+ " must contain " +:+ dquote +:+ quantity +:+ dquote)) ∧
  (∀ self, result run = Ret self →
     system_name self = target_name +:+ "-" +:+ force_field_name ∧
     base_path self = Pathlib.new [result_directory; system_name self]) ∧
  ((∀ quantity, quantity ∈ thermodynamic_state → is_Some (tp !! quantity)) →
     ∃ self, result run = Ret self).
Proof.
  intros run. subst run. unfold __init__.
  pose proof (check_thermodynamic_state_run target_name tp thermodynamic_state w)
    as (Ht & Hw & Hraise & Hret).
  fold thermodynamic_state.
  rewrite events_bind, final_bind, result_bind, Ht, Hw.
  destruct (result (check_thermodynamic_state _ _ _ _)) as [[]|e'] eqn:Hr.
  - split_and!; [done..| |eauto]. by intros self [= <-].
  - split_and!; [done..| | |].
    + intros e [= <-]. by apply Hraise.
    + intros ? [=].
    + intros Hall. by specialize (Hret Hall).
Qed.

Lemma setup_value_error self w msg :
  result (setup self w) = Raise (ValueError msg) →
  target_parameters self !! "initial_pdb" = None ∧
  target_parameters self !! "aa_sequence" = None.
Proof.
  pose (Φ := λ e : exn, ∀ msg, e = ValueError msg →
               target_parameters self !! "initial_pdb" = None ∧
               target_parameters self !! "aa_sequence" = None).
  cut (∀ e, result (setup self w) = Raise e → Φ e).
  { intros Hcut Hr. by apply (Hcut _ Hr msg). }
  unfold protein_system.setup. cbv zeta.
  apply (raise_bind Φ); [|intros ? ?].
  { apply (wp_result _ _ (λ r, ∀ e, r = Raise e → Φ e)). unfold mkdir, Φ.
    own_errors idtac. }
  apply (raise_bind Φ); [|intros ? ?].
  { apply (wp_result _ _ (λ r, ∀ e, r = Raise e → Φ e)).
    unfold protein_system.setup_build, Φ. own_errors ltac:(done). }
  apply (raise_bind Φ); [|intros ? ?].
  { apply (wp_result _ _ (λ r, ∀ e, r = Raise e → Φ e)).
    unfold protein_system.setup_solvate, Φ. own_errors idtac. }
  apply (raise_bind Φ); [|intros ? ?].
  { apply (wp_result _ _ (λ r, ∀ e, r = Raise e → Φ e)).
    unfold protein_system.setup_minimize, Φ. own_errors idtac. }
  intros ? [=].
Qed.

Lemma run_simulations_value_error self replica w msg :
  result (run_simulations self replica w) = Raise (ValueError msg) →
  target_parameters self !! "traj_length" = None ∧
  ∃ target_type,
    target_parameters self !! "target_type" = Some target_type ∧
    eq_str target_type "peptide" = false ∧
    eq_str target_type "folded" = false ∧
    eq_str target_type "disordered" = false.
Proof.
  pose (Φ := λ e : exn, ∀ msg, e = ValueError msg →
               target_parameters self !! "traj_length" = None ∧
               ∃ target_type,
                 target_parameters self !! "target_type" = Some target_type ∧
                 eq_str target_type "peptide" = false ∧
                 eq_str target_type "folded" = false ∧
                 eq_str target_type "disordered" = false).
  cut (∀ e, result (run_simulations self replica w) = Raise e → Φ e).
  { intros Hcut Hr. by apply (Hcut _ Hr msg). }
  rewrite run_simulations_blocks.
  apply (raise_bind Φ); [|intros ? ?].
  { apply (wp_result _ _ (λ r, ∀ e, r = Raise e → Φ e)). unfold mkdir, Φ.
    own_errors idtac. }
  apply (raise_bind Φ); [by intros ? [=]|intros ? ?].
  apply (raise_bind Φ); [by intros ? [=]|intros ? ?].
  apply (raise_bind Φ); [by intros ? [=]|intros ? ?].
  apply (raise_bind Φ); [|intros ? ?].
  { apply (wp_result _ _ (λ r, ∀ e, r = Raise e → Φ e)).
    unfold protein_system.run_simulations_equilibrate, Φ. own_errors idtac. }
  apply (wp_result _ _ (λ r, ∀ e, r = Raise e → Φ e)).
  unfold protein_system.run_simulations_produce, Φ.
  own_errors ltac:(split; [done|]; eexists; by split_and!).
Qed.

Lemma analyze_observables_value_error self replica w msg :
  result (analyze_observables self replica w) ≠ Raise (ValueError msg).
Proof.
  pose (Φ := λ e : exn, ∀ msg, e ≠ ValueError msg).
  cut (∀ e, result (analyze_observables self replica w) = Raise e → Φ e).
  { intros Hcut Hr. by apply (Hcut _ Hr msg). }
  assert (Hobservable : ∀ obs key fn message inputs out w' e,
    result (analyze_observable files oracle self obs key fn message inputs out w')
      = Raise e → Φ e).
  { intros. revert e H.
    apply (wp_result _ _ (λ r, ∀ e, r = Raise e → Φ e)).
    unfold analyze_observable, value_contains, subscript, Φ.
    wp_run; by intros ? [= <-] ? [=]. }
  assert (Hmeasure : ∀ fn message top traj fl out w' e,
    result (analyze_measure files oracle self fn message top traj fl out w')
      = Raise e → Φ e).
  { intros. revert e H.
    apply (wp_result _ _ (λ r, ∀ e, r = Raise e → Φ e)).
    unfold analyze_measure, gt_zero, Φ.
    wp_run; by intros ? [= <-] ? [=]. }
  unfold protein_system.analyze_observables.
  apply (raise_bind Φ); [|intros [[[? ?] ?] ?] ?].
  - unfold protein_system.analyze_observables_measure. cbv zeta.
    apply (raise_bind Φ); [|intros ? ?].
    { apply (wp_result _ _ (λ r, ∀ e, r = Raise e → Φ e)). unfold mkdir, Φ.
      wp_run; by intros ? [= <-] ? [=]. }
    apply (raise_bind Φ); [|intros ? ?].
    { apply (wp_result _ _ (λ r, ∀ e, r = Raise e → Φ e)). unfold Φ.
      wp_run; by intros ? [=]. }
    apply (raise_bind Φ); [|intros ? ?].
    { apply (wp_result _ _ (λ r, ∀ e, r = Raise e → Φ e)).
      unfold analyze_align, Φ.
      wp_run; by intros ? [= <-] ? [=]. }
    apply (raise_bind Φ); [apply Hmeasure|intros ? ?].
    apply (raise_bind Φ); [apply Hmeasure|intros ? ?].
    apply (raise_bind Φ); [|intros ? ?; by intros ? [=]].
    apply (wp_result _ _ (λ r, ∀ e, r = Raise e → Φ e)).
    unfold analyze_clusters, Φ.
    wp_run; by intros ? [= <-] ? [=].
  - unfold protein_system.analyze_observables_compute.
    apply (raise_bind Φ); [|intros ? ?].
    { apply (wp_result _ _ (λ r, ∀ e, r = Raise e → Φ e)). unfold Φ.
      wp_run; by intros ? [= <-] ? [=]. }
    apply (raise_bind Φ); [apply Hobservable|intros ? ?].
    apply (raise_bind Φ); [apply Hobservable|intros ? ?].
    apply Hobservable.
Qed.



End Claims.

(** ** The force-field table *)

Section ForceFields.
Context {World : Type}.
Variable package_data_directory : string.

Local Abbreviation water_model_files :=
  (force_fields.water_model_files package_data_directory).
Local Abbreviation force_fields_literal :=
  (force_fields.force_fields_literal package_data_directory).

Lemma completable_sound (ff_parameters : dict) :
  completable water_model_files ff_parameters = true →
  ff_parameters !! "water_model_file" = None →
  ∃ name file, ff_parameters !! "water_model" = Some (VStr name) ∧
    water_model_files !! name = Some file.
Proof.
  unfold completable. intros H Hnone. rewrite Hnone in H.
  destruct (ff_parameters !! "water_model") as [[| | | | |name| | |]|];
    try done.
  destruct (water_model_files !! name) eqn:Hname; [eauto|done].
Qed.

Lemma literal_completable :
  forallb (λ item, completable water_model_files item.2) force_fields_literal
    = true.
Proof. vm_compute. reflexivity. Qed.

(** What the loop does to one entry that it can complete. *)
Lemma add_water_model_file_run (ff_parameters : dict) (w : World) :
  (ff_parameters !! "water_model_file" = None →
   ∃ name file, ff_parameters !! "water_model" = Some (VStr name) ∧
     water_model_files !! name = Some file) →
  ∃ entry,
    force_fields.add_water_model_file package_data_directory ff_parameters w
      = (Ret entry, w, []) ∧
    match ff_parameters !! "water_model_file" with
    | Some _ => entry = ff_parameters
    | None =>
        ∃ name file, ff_parameters !! "water_model" = Some (VStr name) ∧
          water_model_files !! name = Some file ∧
          entry = <["water_model_file" := file]> ff_parameters
    end.
Proof.
  intros Hok. unfold force_fields.add_water_model_file, contains.
  destruct (ff_parameters !! "water_model_file") eqn:Hfile; cbn [negb].
  - by eexists.
  - destruct Hok as (name & file & Hmodel & Hfiles); [done|].
    exists (<["water_model_file" := file]> ff_parameters). split; [|eauto].
    unfold bind, getitem, force_fields.getitem_value, ret.
    rewrite Hmodel. cbv beta iota. unfold getitem, ret. by rewrite Hfiles.
Qed.

Lemma add_water_model_files_run (items : list (string * dict)) (w : World) :
  Forall (λ '(_, ff_parameters),
            ff_parameters !! "water_model_file" = None →
            ∃ name file, ff_parameters !! "water_model" = Some (VStr name) ∧
              water_model_files !! name = Some file) items →
  ∃ table,
    force_fields.add_water_model_files package_data_directory items w
      = (Ret table, w, []) ∧
    Forall2 (λ '(declared_name, declared) '(name, entry),
               name = declared_name ∧
               match declared !! "water_model_file" with
               | Some _ => entry = declared
               | None =>
                   ∃ model file, declared !! "water_model" = Some (VStr model) ∧
                     water_model_files !! model = Some file ∧
                     entry = <["water_model_file" := file]> declared
               end) items table.
Proof.
  induction 1 as [|[name ff_parameters] items Hok _ IH].
  - exists []. split; [done|constructor].
  - destruct IH as (table & Hrun & Hall).
    destruct (add_water_model_file_run ff_parameters w Hok) as (entry & He & Hentry).
    exists ((name, entry) :: table). split.
    + cbn [force_fields.add_water_model_files]. unfold bind at 1.
      rewrite He. unfold bind at 1. rewrite Hrun. done.
    + by constructor.
Qed.

(** C8.  Importing [force_fields.py] succeeds and leaves a table with the
    declared names in the declared order, in which every entry has a
    [water_model_file]: the declared one ([None] included) where the entry
    declares it, [water_model_files[entry["water_model"]]] otherwise; no
    other key of any entry is added or changed. *)
Theorem every_force_field_has_a_water_model_file (w : World) :
  ∃ table,
    force_fields.force_fields package_data_directory w = (Ret table, w, []) ∧
    Forall2 (λ '(declared_name, declared) '(name, entry),
               name = declared_name ∧
               is_Some (entry !! "water_model_file") ∧
               (∀ key, key ≠ "water_model_file" → entry !! key = declared !! key) ∧
               match declared !! "water_model_file" with
               | Some file => entry !! "water_model_file" = Some file
               | None =>
                   ∃ model, declared !! "water_model" = Some (VStr model) ∧
                     entry !! "water_model_file" = water_model_files !! model
               end) force_fields_literal table.
Proof.
  destruct (add_water_model_files_run force_fields_literal w) as (table & Hrun & Hall).
  { pose proof literal_completable as Hall.
    induction force_fields_literal as [|[name ff_parameters] items IH];
      [constructor|].
    cbn [forallb] in Hall. apply andb_true_iff in Hall as [Hitem Hall].
    constructor; [by apply completable_sound | by apply IH]. }
  exists table. split; [done|].
  eapply Forall2_impl; [exact Hall|].
  intros [declared_name declared] [name entry] [-> Hentry].
  split; [done|].
  destruct (declared !! "water_model_file") as [file|] eqn:Hfile.
  - subst entry. rewrite Hfile. split_and!; [by eexists|done..].
  - destruct Hentry as (model & file & Hmodel & Hfiles & ->).
    split_and!.
    + rewrite lookup_insert_eq. by eexists.
    + intros key Hkey. by rewrite lookup_insert_ne.
    + exists model. by rewrite lookup_insert_eq, Hfiles.
Qed.
End ForceFields.

(** ** The claims on the sample world *)

Section Samples.
Local Abbreviation setup := (setup Sample.files Sample.idle Sample.sp).
Local Abbreviation run_simulations :=
  (run_simulations Sample.files Sample.idle Sample.sp).
Local Abbreviation analyze_observables :=
  (analyze_observables Sample.files Sample.idle Sample.sp).

(** C1, as stated, fails: with neither a structure nor a sequence to build
    from, the protonated PDB is missing and [build_initial_coordinates] is
    not invoked. *)
Lemma build_not_invoked_without_source :
  let self := Sample.system Sample.state_only "ff14sb-opc" "opc" "open_mm" in
  let w0 := final (mkdir Sample.idle (setup_dir self) ∅) in
  ¬ (Build ∈ stages (events (setup self ∅)) ↔
     present (Sample.files w0) (protonated_pdb self) = false).
Proof.
  intros self w0 [_ H].
  assert (Hin : Build ∈ stages (events (setup self ∅))).
  { apply H. vm_compute. reflexivity. }
  vm_compute in Hin. inversion Hin.
Qed.

(** On the sample world, starting from an empty disk, all three stages of
    [setup] run. *)
Lemma setup_stage_runs_iff_artifact_missing_witness :
  let self := Sample.system Sample.peptide "ff14sb-opc" "opc" "open_mm" in
  result (setup self ∅) = Ret tt ∧
  Build ∈ stages (events (setup self ∅)) ∧
  Solvate ∈ stages (events (setup self ∅)) ∧
  Minimize ∈ stages (events (setup self ∅)).
Proof.
  intros self.
  assert (Hret : result (setup self ∅) = Ret tt) by (vm_compute; reflexivity).
  split; [exact Hret|].
  destruct (setup_stage_runs_iff_artifact_missing Sample.files Sample.idle
              Sample.sp self ∅) as [_ H].
  destruct (H Hret) as (Hb & Hs & Hm).
  split_and!; [apply Hb | apply Hs | apply Hm]; vm_compute; reflexivity.
Defined.


(** C3, as stated, fails twice: under GROMACS [minimize] is not passed
    [target_parameters["restraint_energy_constant"]] although the key is
    there, and a target of unknown type without [traj_length] gets no
    trajectory length at all. *)
Lemma restraint_and_traj_length_do_not_cascade :
  (let self := Sample.system Sample.restrained "ff14sb-opc" "opc" "gmx" in
   ∃ args kwargs,
     events (setup self ∅) !! 9 = Some (Called (Call "minimize" args kwargs)) ∧
     target_parameters self !! "restraint_energy_constant" = Some (VInt 1) ∧
     kwarg "restraint_energy_constant" kwargs = Some (VInt 2)) ∧
  (let self := Sample.system Sample.untyped "ff14sb-opc" "opc" "open_mm" in
   target_parameters self !! "traj_length" = None ∧
   (∃ msg, result (run_simulations self 1 ∅) = Raise (ValueError msg)) ∧
   Forall (λ e, ∀ cls kwargs, e = Called (New cls kwargs) →
                kwarg "traj_length" kwargs ≠ None →
                builds (equil_prefix self 1) kwargs)
     (events (run_simulations self 1 ∅))).
Proof.
  split.
  - intros self. eexists _, _. split_and!; vm_compute; reflexivity.
  - intros self. split_and!.
    + vm_compute. reflexivity.
    + eexists. vm_compute. reflexivity.
    + vm_compute. repeat constructor; intros ? ? [=]. intros _.
      subst. vm_compute. reflexivity.
Qed.


(** C4, as stated, fails: [__init__] raises a [ValueError] of its own,
    with no engine called, when the thermodynamic state is incomplete. *)
Lemma init_raises_its_own_error :
  ∃ msg,
    protein_system.__init__ (World := Sample.World) "results" "ala5" ∅
      "ff14sb-opc" "opc" (VStr "ff14sb.xml") VNone "open_mm" VNone ∅
    = (Raise (ValueError msg), ∅, []).
Proof. eexists. vm_compute. reflexivity. Qed.






(** A peptide without [observables] whose measurements are on disk. *)
Lemma analyze_observables_needs_observables_witness :
  let self := Sample.system Sample.peptide "ff14sb-opc" "opc" "open_mm" in
  result (analyze_observables self 1 (Sample.analyzed self))
    = Raise (KeyError (VStr "observables")).
Proof.
  intros self.
  destruct (analyze_observables_needs_observables Sample.files Sample.idle
              Sample.sp self 1 (Sample.analyzed self)) as [_ H];
    [vm_compute; reflexivity|].
  destruct (H VNone (Sample.analyzed self)) as (Hraise & _);
    [reflexivity| |exact Hraise].
  unfold analysis_artifacts. cbn [fmap list_fmap].
  repeat constructor; vm_compute; reflexivity.
Defined.
End Samples.

(** * Further properties *)

Section MoreOfSetup.
Context {World : Type}.
Variable files : World → gmap string string.
Variable oracle : call → World → answer * World.
Variable sp : simulation_parameters.

Local Abbreviation setup_build := (setup_build files oracle).
Local Abbreviation setup_solvate := (setup_solvate files oracle sp).
Local Abbreviation setup_minimize := (setup_minimize files oracle sp).
Local Abbreviation setup := (setup files oracle sp).

(** X1.  A completed setup is left alone: when the setup directory can be
    made and the three artifacts are present, [setup] checks them, calls no
    function of [system_setup], reads no target parameter and returns. *)
Theorem setup_of_a_complete_system self w v w0 :
  oracle (mkdir_call (setup_dir self)) w = (Returned v, w0) →
  present (files w0) (protonated_pdb self) = true →
  present (files w0) (solvate_artifact self) = true →
  present (files w0) (minimize_artifact self) = true →
  setup self w =
    (Ret tt, w0,
     [Called (mkdir_call (setup_dir self));
      Checked (protonated_pdb self) true;
      Checked (solvate_artifact self) true;
      Checked (minimize_artifact self) true;
      Printed ("Setup complete for system " +:+ system_name self)]).
Proof.
  intros Hmk Hp Hs Hm.
  unfold protein_system.setup, protein_system.setup_build,
    protein_system.setup_solvate, protein_system.setup_minimize,
    solvate_artifact, minimize_artifact, mkdir, method, invoke, bind,
    exists_and_not_empty, andM, orM, print, ret, mkdir_call in *.
  cbv zeta. rewrite Hmk.
  destruct (bool_decide (sim_platform self = "gmx")); cbn [negb];
    rewrite Hp; cbn [negb]; rewrite Hs; cbn [negb]; rewrite Hm; reflexivity.
Qed.

(** Every call of [build_initial_coordinates] meets its contract. *)
Lemma setup_build_contract self w :
  Forall (λ e, ∀ args kwargs,
            e = Called (Call "build_initial_coordinates" args kwargs) →
            build_contract self kwargs)
    (events (setup self w)).
Proof.
  apply setup_events.
  - by intros ? ? ? ? ? ? [=].
  - by intros ? ? ? [=].
  - intros w'. apply (wp_events _ _ (Forall _)).
    unfold protein_system.setup_build.
    wp_run;
      each_event ltac:(intros ? ? [=]; subst; unfold build_contract; cbv zeta;
                       use_facts; by split_and!).
  - intros s w'. apply (wp_events _ _ (Forall _)).
    unfold protein_system.setup_solvate.
    wp_run; each_event ltac:(by intros ? ? [=]).
  - intros s w'. apply (wp_events _ _ (Forall _)).
    unfold protein_system.setup_minimize.
    wp_run; each_event ltac:(by intros ? ? [=]).
Qed.

(** X2.  A target that gives a structure is built from it, whether or not
    it also gives a sequence; a target that gives only a sequence is built
    from the sequence, by the [extended] method and without caps unless the
    target says otherwise. *)
Theorem build_source_and_defaults self w args kwargs :
  Called (Call "build_initial_coordinates" args kwargs) ∈ events (setup self w) →
  build_contract self kwargs.
Proof.
  intros Hin. pose proof (setup_build_contract self w) as Hall.
  rewrite Forall_forall in Hall. by eapply Hall.
Qed.

Lemma appears_app before after run t :
  appears run t → appears run (before ++ t ++ after).
Proof.
  intros (b & a & ->). exists (before ++ b), (a ++ after).
  by rewrite <- !app_assoc.
Qed.

(** The events and the result of [setup], block by block. *)
Lemma setup_trace self w :
  let w0 := final (mkdir oracle (setup_dir self) w) in
  let build := setup_build self w0 in
  let solvation := setup_solvate self (solvated_pdb self) (final build) in
  let minimization := setup_minimize self (solvated_pdb self) (final solvation) in
  events (setup self w) =
    events (mkdir oracle (setup_dir self) w) ++
    match result (mkdir oracle (setup_dir self) w) with
    | Raise _ => []
    | Ret _ =>
        events build ++
        match result build with
        | Raise _ => []
        | Ret _ =>
            events solvation ++
            match result solvation with
            | Raise _ => []
            | Ret _ =>
                events minimization ++
                match result minimization with
                | Raise _ => []
                | Ret _ =>
                    [Printed ("Setup complete for system " +:+ system_name self)]
                end
            end
        end
    end ∧
  result (setup self w) =
    match result (mkdir oracle (setup_dir self) w) with
    | Raise e => Raise e
    | Ret _ =>
        match result build with
        | Raise e => Raise e
        | Ret _ =>
            match result solvation with
            | Raise e => Raise e
            | Ret _ =>
                match result minimization with
                | Raise e => Raise e
                | Ret _ => Ret tt
                end
            end
        end
    end.
Proof.
  intros w0 build solvation minimization.
  unfold protein_system.setup. cbv zeta. fold (solvated_pdb self).
  rewrite events_bind, result_bind. fold w0.
  destruct (result (mkdir oracle (setup_dir self) w)); [|by split].
  rewrite events_bind, result_bind. fold build.
  destruct (result build); [|by split].
  rewrite events_bind, result_bind. fold solvation.
  destruct (result solvation); [|by split].
  rewrite events_bind, result_bind. fold minimization.
  destruct (result minimization); by split.
Qed.

Lemma build_copies_then_builds self w :
  wp (setup_build self) w (λ _ _ t,
    ∀ source, target_parameters self !! "initial_pdb" = Some source →
      Build ∈ stages t →
      ∃ text kwargs w1 w2,
        oracle (Method source "read_text" [] []) w1 = (Returned text, w2) ∧
        appears
          [Called (Method source "read_text" [] []);
           Called (Method (VPath (Pathlib.new [initial_pdb self])) "write_text"
                     [text] []);
           Called (Call "build_initial_coordinates" [] kwargs)] t).
Proof.
  unfold protein_system.setup_build.
  wp_run; intros source Hsource Hin;
    first [ congruence
          | by (exfalso; revert Hin; cbn; apply not_elem_of_nil)
          | injection Hsource as <-;
            eexists _, _, _, _; split; [eassumption|];
            eexists (cons _ (cons _ nil)), nil; reflexivity ].
Qed.

(** X3.  When a structure is given and the build stage runs, the structure
    is first read, what was read is written to the initial PDB of the
    results directory, and [build_initial_coordinates] is called next. *)
Theorem initial_pdb_is_copied_then_built self w source :
  target_parameters self !! "initial_pdb" = Some source →
  Build ∈ stages (events (setup self w)) →
  ∃ text kwargs w1 w2,
    oracle (Method source "read_text" [] []) w1 = (Returned text, w2) ∧
    appears
      [Called (Method source "read_text" [] []);
       Called (Method (VPath (Pathlib.new [initial_pdb self])) "write_text"
                 [text] []);
       Called (Call "build_initial_coordinates" [] kwargs)]
      (events (setup self w)).
Proof.
  intros Hsource Hin.
  pose proof (setup_trace self w) as Ht. cbv zeta in Ht. destruct Ht as [Ht _].
  set (w0 := final (mkdir oracle (setup_dir self) w)) in *.
  set (build := setup_build self w0) in *.
  set (solvation := setup_solvate self (solvated_pdb self) (final build)) in *.
  set (minimization := setup_minimize self (solvated_pdb self) (final solvation)) in *.
  pose proof (build_copies_then_builds self w0) as Hb. unfold wp in Hb.
  fold build in Hb.
  pose proof (setup_solvate_stage files oracle sp self (solvated_pdb self)
                (final build)) as Hs.
  pose proof (setup_minimize_stage files oracle sp self (solvated_pdb self)
                (final solvation)) as Hm.
  unfold wp, ran_or_skipped in Hs, Hm. fold solvation in Hs. fold minimization in Hm.
  rewrite Ht in Hin |- *. rewrite stages_app, mkdir_stages in Hin.
  destruct (result (mkdir oracle (setup_dir self) w));
    [|by apply elem_of_nil in Hin].
  cbn [app] in Hin. rewrite stages_app in Hin.
  apply elem_of_app in Hin as [Hin|Hin].
  - destruct (Hb source Hsource Hin) as (text & kwargs & w1 & w2 & Hread & Happ).
    exists text, kwargs, w1, w2. split; [done|]. by apply appears_app.
  - exfalso. destruct (result build); [|by apply elem_of_nil in Hin].
    rewrite stages_app in Hin.
    destruct (result solvation), Hs as [[Es _]|[Es _]];
      rewrite Es in Hin; cbn [app] in Hin;
      rewrite ?stages_app, ?elem_of_cons, ?elem_of_app, ?elem_of_nil in Hin;
      destruct (result minimization), Hm as [[Em _]|[Em _]];
      rewrite ?Em in Hin; cbn in Hin;
      rewrite ?elem_of_cons, ?elem_of_nil in Hin; by intuition.
Qed.



Ltac settle_error :=
  intros ? [= <-]; cbn;
  first [ done
        | by split
        | by left
        | by right; left
        | by right; right
        | by eexists; split; [eassumption|] ].

(** The exceptions of [setup]. *)
Lemma setup_raises self w e :
  result (setup self w) = Raise e → setup_error self e.
Proof.
  revert e. unfold protein_system.setup. cbv zeta.
  apply (raise_bind (setup_error self)); [|intros ? ?].
  { apply (wp_result _ _ (λ r, ∀ e, r = Raise e → setup_error self e)).
    unfold mkdir. wp_run; settle_error. }
  apply (raise_bind (setup_error self)); [|intros ? ?].
  { apply (wp_result _ _ (λ r, ∀ e, r = Raise e → setup_error self e)).
    unfold protein_system.setup_build. wp_run; settle_error. }
  apply (raise_bind (setup_error self)); [|intros ? ?].
  { apply (wp_result _ _ (λ r, ∀ e, r = Raise e → setup_error self e)).
    unfold protein_system.setup_solvate. wp_run; settle_error. }
  apply (raise_bind (setup_error self)); [|intros ? ?].
  { apply (wp_result _ _ (λ r, ∀ e, r = Raise e → setup_error self e)).
    unfold protein_system.setup_minimize. wp_run; settle_error. }
  intros ? [=].
Qed.
End MoreOfSetup.

Section MoreOfRunSimulations.
Context {World : Type}.
Variable files : World → gmap string string.
Variable oracle : call → World → answer * World.
Variable sp : simulation_parameters.

Local Abbreviation setup := (setup files oracle sp).
Local Abbreviation equilibrate := (run_simulations_equilibrate files oracle sp).
Local Abbreviation produce := (run_simulations_produce files oracle sp).
Local Abbreviation run_simulations := (run_simulations files oracle sp).



Lemma known_target_type_false target_type :
  known_target_type target_type = false ↔
  eq_str target_type "peptide" = false ∧
  eq_str target_type "folded" = false ∧
  eq_str target_type "disordered" = false.
Proof.
  unfold known_target_type. rewrite !orb_false_iff. tauto.
Qed.

Ltac settle_run_error :=
  intros ? [= <-]; cbn;
  first [ done
        | by left
        | by right; left
        | by right; right
        | split; [done|]; eexists; split; [eassumption|];
          apply known_target_type_false; by split_and! ].

Lemma run_simulations_raises self replica w e :
  result (run_simulations self replica w) = Raise e →
  run_simulations_error self e.
Proof.
  revert e. rewrite run_simulations_blocks.
  apply (raise_bind (run_simulations_error self)); [|intros ? ?].
  { apply (wp_result _ _ (λ r, ∀ e, r = Raise e → run_simulations_error self e)).
    unfold mkdir. wp_run; settle_run_error. }
  apply (raise_bind (run_simulations_error self)); [by intros ? [=]|intros ? ?].
  apply (raise_bind (run_simulations_error self)); [by intros ? [=]|intros ? ?].
  apply (raise_bind (run_simulations_error self)); [by intros ? [=]|intros ? ?].
  apply (raise_bind (run_simulations_error self)); [|intros ? ?].
  { apply (wp_result _ _ (λ r, ∀ e, r = Raise e → run_simulations_error self e)).
    unfold protein_system.run_simulations_equilibrate. wp_run; settle_run_error. }
  apply (wp_result _ _ (λ r, ∀ e, r = Raise e → run_simulations_error self e)).
  unfold protein_system.run_simulations_produce. wp_run; settle_run_error.
Qed.

(** X5.  [setup] and [run_simulations] end in an exception of a wrapped
    call or in one of a few of their own: [setup] in the [ValueError] for a
    target without structure and sequence, in a [KeyError] for [ph],
    [ionic_strength] or (without [solvent_padding]) [target_type], or in an
    [AttributeError] for an [initial_pdb] that is no path;
    [run_simulations] in the [ValueError] for an unknown target type or in a
    [KeyError] for [temperature], [pressure] or (without [traj_length])
    [target_type].  Neither ends in a [TypeError]. *)
Theorem exceptions_of_setup_and_run_simulations self replica w e :
  (result (setup self w) = Raise e → setup_error self e) ∧
  (result (run_simulations self replica w) = Raise e →
   run_simulations_error self e).
Proof.
  split; [apply setup_raises | apply run_simulations_raises].
Qed.

Lemma equilibrate_ran_or_skipped self replica w :
  wp (equilibrate self (run_setup_prefix self) (equil_prefix self replica)
        (equilibrated_state self replica)) w (λ r _ t,
    ran_or_skipped Equilibrate
      (present (files w) (equilibrated_state self replica)) r t).
Proof.
  unfold protein_system.run_simulations_equilibrate, ran_or_skipped.
  wp_run;
    first [ left; split; [reflexivity | done]
          | right; split; [reflexivity | first [left; done | right; eauto]] ].
Qed.

(** X6.  Equilibration is not redone: it is launched only when the
    equilibrated state is missing or empty once the replica directory is
    made, and a call that returns normally has launched it exactly then. *)
Theorem equilibration_runs_iff_state_missing self replica w :
  let w0 := final (mkdir oracle (replica_dir self replica) w) in
  let t := events (run_simulations self replica w) in
  (Equilibrate ∈ stages t →
   present (files w0) (equilibrated_state self replica) = false) ∧
  (result (run_simulations self replica w) = Ret tt →
   present (files w0) (equilibrated_state self replica) = false →
   Equilibrate ∈ stages t).
Proof.
  intros w0 t.
  pose proof (run_simulations_trace files oracle sp self replica w) as Ht.
  cbv zeta in Ht. destruct Ht as [Ht Hr]. fold t w0 in Ht. fold w0 in Hr.
  set (eq_run := equilibrate self (run_setup_prefix self)
                   (equil_prefix self replica)
                   (equilibrated_state self replica) w0) in *.
  set (prod_run := produce self (run_setup_prefix self)
                     (equil_prefix self replica) (prod_prefix self replica)
                     (equilibrated_state self replica) (final eq_run)) in *.
  pose proof (equilibrate_ran_or_skipped self replica w0) as He.
  pose proof (produce_stage files oracle sp self replica (final eq_run)) as Hp.
  unfold wp, ran_or_skipped in He, Hp. fold eq_run in He. fold prod_run in Hp.
  rewrite Ht, Hr, stages_app, mkdir_stages.
  destruct (result (mkdir oracle (replica_dir self replica) w));
    [|split; [by intros ?%elem_of_nil | done]].
  rewrite !stages_app. cbn [app stages omap stage_of list_omap].
  split.
  - intros [Hin|Hin]%elem_of_app.
    + destruct He as [[_ ?]|[He _]]; [done|].
      rewrite He in Hin. by apply elem_of_nil in Hin.
    + destruct (result eq_run); [|by apply elem_of_nil in Hin].
      destruct Hp as [[Hp _]|[Hp _]]; rewrite Hp in Hin;
        rewrite ?elem_of_cons, ?elem_of_nil in Hin; by intuition.
  - intros Hret Hmissing. apply elem_of_app. left.
    destruct (result eq_run) as [[]|]; [|done].
    destruct He as [[-> _]|[_ [?|[? ?]]]]; [by left|congruence..].
Qed.

Lemma produce_stops_at_the_target_type self replica target_type w :
  target_parameters self !! "traj_length" = None →
  target_parameters self !! "target_type" = Some target_type →
  eq_str target_type "peptide" = false →
  eq_str target_type "folded" = false →
  eq_str target_type "disordered" = false →
  wp (produce self (run_setup_prefix self) (equil_prefix self replica)
        (prod_prefix self replica) (equilibrated_state self replica)) w
    (λ r _ t, (∃ msg, r = Raise (ValueError msg)) ∧ stages t = []).
Proof.
  intros Hl Ht Hp Hf Hd. unfold protein_system.run_simulations_produce.
  cbv zeta. apply wp_bind, wp_print. cbv beta iota.
  apply wp_bind, wp_default. cbv beta iota.
  apply wp_bind. unfold contains at 1. rewrite Hl.
  do 3 (apply wp_bind, wp_getitem; rewrite Ht; cbv beta iota;
        first [rewrite Hp | rewrite Hf | rewrite Hd]).
  apply wp_raise. split; [eauto|done].
Qed.

(** X7.  The target type is looked at only after equilibration: a target of
    a type without trajectory length, and without [traj_length], is
    equilibrated like any other when its equilibrated state is missing, and
    only then does [run_simulations] raise [ValueError]. *)
Theorem unknown_target_type_is_found_after_equilibration
    self replica w target_type v :
  target_parameters self !! "traj_length" = None →
  target_parameters self !! "target_type" = Some target_type →
  known_target_type target_type = false →
  result (mkdir oracle (replica_dir self replica) w) = Ret v →
  present (files (final (mkdir oracle (replica_dir self replica) w)))
    (equilibrated_state self replica) = false →
  result (equilibrate self (run_setup_prefix self) (equil_prefix self replica)
            (equilibrated_state self replica)
            (final (mkdir oracle (replica_dir self replica) w))) = Ret tt →
  Equilibrate ∈ stages (events (run_simulations self replica w)) ∧
  (Produce ∉ stages (events (run_simulations self replica w))) ∧
  ∃ msg, result (run_simulations self replica w) = Raise (ValueError msg).
Proof.
  intros Hl Hty (Hp & Hf & Hd)%known_target_type_false Hmk Hmissing Heq.
  set (w0 := final (mkdir oracle (replica_dir self replica) w)) in *.
  pose proof (run_simulations_trace files oracle sp self replica w) as Ht.
  cbv zeta in Ht. destruct Ht as [Ht Hr]. fold w0 in Ht, Hr.
  set (eq_run := equilibrate self (run_setup_prefix self)
                   (equil_prefix self replica)
                   (equilibrated_state self replica) w0) in *.
  pose proof (equilibrate_ran_or_skipped self replica w0) as He.
  unfold wp, ran_or_skipped in He. fold eq_run in He.
  pose proof (produce_stops_at_the_target_type self replica target_type
                (final eq_run) Hl Hty Hp Hf Hd) as [[msg Hraise] Hnone].
  rewrite Ht, Hr, Hmk, Heq, stages_app, mkdir_stages, !stages_app, Hnone, Hraise.
  destruct He as [[-> _]|[_ [?|[? ?]]]]; [|congruence..].
  split_and!; [by left | | by eexists].
  cbn. rewrite elem_of_cons, elem_of_nil. by intros [|].
Qed.
End MoreOfRunSimulations.

Section MoreOfAnalysis.
Context {World : Type}.
Variable files : World → gmap string string.
Variable oracle : call → World → answer * World.
Variable sp : simulation_parameters.

Local Abbreviation M := (M World).
Local Abbreviation analyze_align := (analyze_align files oracle).
Local Abbreviation analyze_measure := (analyze_measure files oracle).
Local Abbreviation analyze_clusters := (analyze_clusters files oracle).
Local Abbreviation analyze_observable := (analyze_observable files oracle).
Local Abbreviation analyze_observables := (analyze_observables files oracle sp).
Local Abbreviation analyze_observables_measure :=
  (analyze_observables_measure files oracle sp).
Local Abbreviation analyze_observables_compute :=
  (analyze_observables_compute files oracle).

(** A property of every event of [m ;; k], where [k] may rely on what [m]
    returned. *)
Lemma Forall_events_bind_ret {A B} (P : event → Prop) (m : M A) (k : A → M B) w :
  Forall P (events (m w)) →
  (∀ a, result (m w) = Ret a → Forall P (events (k a (final (m w))))) →
  Forall P (events (bind m k w)).
Proof.
  intros Hm Hk. rewrite events_bind. apply Forall_app. split; [done|].
  destruct (result (m w)) eqn:Hr; [by apply Hk | constructor].
Qed.

Lemma sublist_called_bind {A B} (m : M A) (k : A → M B) w l1 l2 :
  called_functions (events (m w)) `sublist_of` l1 →
  (∀ a w', called_functions (events (k a w')) `sublist_of` l2) →
  called_functions (events (bind m k w)) `sublist_of` l1 ++ l2.
Proof.
  intros Hm Hk. rewrite events_bind. unfold called_functions. rewrite omap_app.
  apply sublist_app; [done|].
  destruct (result (m w)); [apply Hk | apply sublist_nil_l].
Qed.

Lemma appears_mono run before after t :
  appears run t → appears run (before ++ t ++ after).
Proof.
  intros (b & a & ->). exists (before ++ b), (a ++ after).
  by rewrite <- !app_assoc.
Qed.

Lemma guarded_mono before after t e :
  guarded t e → guarded (before ++ t ++ after) e.
Proof.
  destruct e as [[fn args kwargs| |]| |]; cbn; [|done..].
  destruct (decide (fn = "merge_csvs")).
  - intros (m & kw & out & Happ & ?). exists m, kw, out.
    split; [by apply appears_mono|done].
  - intros (path & message & Happ & ?). exists path, message.
    split; [by apply appears_mono|done].
Qed.

Lemma guarded_bind {A B} (m : M A) (k : A → M B) w :
  Forall (guarded (events (m w))) (events (m w)) →
  (∀ a w', Forall (guarded (events (k a w'))) (events (k a w'))) →
  Forall (guarded (events (bind m k w))) (events (bind m k w)).
Proof.
  intros Hm Hk. rewrite events_bind. apply Forall_app. split.
  - eapply Forall_impl; [exact Hm|]. intros e He.
    exact (guarded_mono [] _ (events (m w)) e He).
  - destruct (result (m w)) as [a|]; [|constructor].
    eapply Forall_impl; [apply Hk|]. intros e He.
    pose proof (guarded_mono (events (m w)) [] _ e He) as He'.
    by rewrite app_nil_r in He'.
Qed.

Ltac in_order :=
  cbn; solve [eauto 12 using sublist_nil, sublist_skip, sublist_cons].

Lemma align_in_order self replica prefix topology w :
  called_functions (events (analyze_align self replica prefix topology w))
    `sublist_of` ["align_trajectory"].
Proof.
  apply (wp_events _ _ (λ t, called_functions t `sublist_of` _)).
  unfold protein_system.analyze_align. wp_run; in_order.
Qed.

Lemma measure_in_order self fn message topology trajectory frame_length out w :
  called_functions
    (events (analyze_measure self fn message topology trajectory frame_length out w))
    `sublist_of` [fn; "merge_csvs"].
Proof.
  apply (wp_events _ _ (λ t, called_functions t `sublist_of` _)).
  unfold protein_system.analyze_measure, gt_zero. wp_run; in_order.
Qed.

Lemma clusters_in_order self dihedrals clusters w :
  called_functions (events (analyze_clusters self dihedrals clusters w))
    `sublist_of` ["assign_dihedral_clusters"].
Proof.
  apply (wp_events _ _ (λ t, called_functions t `sublist_of` _)).
  unfold protein_system.analyze_clusters. wp_run; in_order.
Qed.

Lemma observable_in_order self obs key fn message inputs out w :
  called_functions (events (analyze_observable self obs key fn message inputs out w))
    `sublist_of` [fn].
Proof.
  apply (wp_events _ _ (λ t, called_functions t `sublist_of` _)).
  unfold protein_system.analyze_observable, value_contains, subscript.
  wp_run; in_order.
Qed.

Lemma stages_none t : Forall (λ e, stage_of e = None) t → stages t = [].
Proof.
  induction 1 as [|e t He _ IH]; [done|].
  unfold stages in *. cbn [omap list_omap]. by rewrite He.
Qed.

(** What the first part of the analysis returns: the names of its files. *)
Lemma measure_returns self replica w x :
  result (analyze_observables_measure self replica w) = Ret x →
  x = (analysis_file self replica "-dihedrals.dat",
       analysis_file self replica "-hydrogen-bond-geometries.dat",
       analysis_file self replica "-dihedral-clusters.dat",
       analysis_prefix self replica).
Proof.
  unfold protein_system.analyze_observables_measure. cbv zeta.
  repeat (rewrite result_bind;
          match goal with
          | |- context [match ?r with Ret _ => _ | Raise _ => _ end] =>
              destruct r; [|by intros [=]]
          end).
  by intros [= <-].
Qed.

(** A property of every event of [analyze_observables] follows from the
    blocks, run on the names the function gives them. *)
Lemma analyze_events (P : event → Prop) self replica :
  let file := analysis_file self replica in
  let frame_length :=
    default (FRAME_LENGTH sp) (target_parameters self !! "frame_length") in
  (∀ p name args kw, P (Called (Method (VPath p) name args kw))) →
  (∀ w, Forall P (events (analyze_align self replica
                            (analysis_prefix self replica)
                            (file "-reimaged.pdb") w))) →
  (∀ w, Forall P (events (analyze_measure self "measure_dihedrals"
                            "Measuring dihedrals for system "
                            (file "-reimaged.pdb") (file "-reimaged.dcd")
                            frame_length (file "-dihedrals.dat") w))) →
  (∀ w, Forall P (events (analyze_measure self "measure_h_bond_geometries"
                            "Measuring hydrogen bond geometries for system "
                            (protonated_pdb self) (file "-reimaged.dcd")
                            frame_length
                            (file "-hydrogen-bond-geometries.dat") w))) →
  (∀ w, Forall P (events (analyze_clusters self (file "-dihedrals.dat")
                            (file "-dihedral-clusters.dat") w))) →
  (∀ obs w, target_parameters self !! "observables" = Some obs →
     Forall P (events (analyze_observable self obs "scalar_couplings"
                         "compute_scalar_couplings"
                         "Computing scalar couplings for system "
                         [("dihedrals_path", VStr (file "-dihedrals.dat"))]
                         (file "-scalar-couplings.dat") w))) →
  (∀ obs w, target_parameters self !! "observables" = Some obs →
     Forall P (events (analyze_observable self obs "h_bond_scalar_couplings"
                         "compute_h_bond_scalar_couplings"
                         "Computing hydrogen bond scalar couplings for system "
                         [("h_bond_geometries_path",
                           VStr (file "-hydrogen-bond-geometries.dat"))]
                         (file "-h-bond-scalar-couplings.dat") w))) →
  (∀ obs w, target_parameters self !! "observables" = Some obs →
     Forall P (events (analyze_observable self obs "fraction_helix"
                         "compute_fraction_helix"
                         "Computing fraction helix for system "
                         [("dihedral_clusters_path",
                           VStr (file "-dihedral-clusters.dat"));
                          ("h_bond_geometries_path",
                           VStr (file "-hydrogen-bond-geometries.dat"))]
                         (file "-fraction-helix.dat") w))) →
  ∀ w, Forall P (events (analyze_observables self replica w)).
Proof.
  intros file frame_length Hmk Ha Hd Hh Hc H1 H2 H3 w.
  unfold protein_system.analyze_observables.
  apply Forall_events_bind_ret.
  - unfold protein_system.analyze_observables_measure. cbv zeta.
    apply Forall_events_bind; [|intros ? ?].
    { apply (wp_events _ _ (Forall P)).
      unfold mkdir. wp_run; each_event ltac:(apply Hmk). }
    apply Forall_events_bind_ret.
    { apply (wp_events _ _ (Forall P)). wp_run. constructor. }
    intros fl Hfl.
    assert (fl = frame_length) as ->.
    { revert Hfl. apply (wp_result _ _ (λ r, r = Ret fl → fl = frame_length)).
      wp_run. by intros [= <-]. }
    apply Forall_events_bind; [apply Ha|intros ? ?].
    apply Forall_events_bind; [apply Hd|intros ? ?].
    apply Forall_events_bind; [apply Hh|intros ? ?].
    apply Forall_events_bind; [apply Hc|intros ? ?].
    constructor.
  - intros x Hx. apply measure_returns in Hx as ->.
    unfold protein_system.analyze_observables_compute.
    apply Forall_events_bind_ret.
    { apply (wp_events _ _ (Forall P)). wp_run; constructor. }
    intros obs Hobs.
    assert (target_parameters self !! "observables" = Some obs) as Hsome.
    { revert Hobs. unfold getitem.
      destruct (target_parameters self !! "observables"); [|by intros [=]].
      by intros [= <-]. }
    apply Forall_events_bind; [by apply H1|intros ? ?].
    apply Forall_events_bind; [by apply H2|intros ? ?].
    by apply H3.
Qed.

(** X8.  The analysis runs in a fixed order: the functions it calls are, in
    order, a sublist of alignment, dihedrals, hydrogen-bond geometries
    (each measurement with its merge), dihedral clusters, scalar couplings,
    hydrogen-bond scalar couplings and helix fraction; it starts no stage
    of [setup] or [run_simulations]. *)
Theorem analysis_runs_in_order self replica w :
  called_functions (events (analyze_observables self replica w)) `sublist_of`
    ["align_trajectory"; "measure_dihedrals"; "merge_csvs";
     "measure_h_bond_geometries"; "merge_csvs"; "assign_dihedral_clusters";
     "compute_scalar_couplings"; "compute_h_bond_scalar_couplings";
     "compute_fraction_helix"] ∧
  stages (events (analyze_observables self replica w)) = [].
Proof.
  assert (Horder :
    called_functions (events (analyze_observables self replica w)) `sublist_of`
      ["align_trajectory"; "measure_dihedrals"; "merge_csvs";
       "measure_h_bond_geometries"; "merge_csvs"; "assign_dihedral_clusters";
       "compute_scalar_couplings"; "compute_h_bond_scalar_couplings";
       "compute_fraction_helix"]).
  { unfold protein_system.analyze_observables.
    change ["align_trajectory"; "measure_dihedrals"; "merge_csvs";
            "measure_h_bond_geometries"; "merge_csvs"; "assign_dihedral_clusters";
            "compute_scalar_couplings"; "compute_h_bond_scalar_couplings";
            "compute_fraction_helix"]
      with (([] ++ [] ++ ["align_trajectory"] ++ ["measure_dihedrals"; "merge_csvs"]
             ++ ["measure_h_bond_geometries"; "merge_csvs"]
             ++ ["assign_dihedral_clusters"] ++ [])
            ++ ([] ++ ["compute_scalar_couplings"]
                ++ ["compute_h_bond_scalar_couplings"]
                ++ ["compute_fraction_helix"])).
    apply sublist_called_bind; [|intros [[[d h] c] p] w'].
    - unfold protein_system.analyze_observables_measure. cbv zeta.
      apply sublist_called_bind; [|intros ? ?].
      { apply (wp_events _ _ (λ t, called_functions t `sublist_of` _)).
        unfold mkdir. wp_run; in_order. }
      apply sublist_called_bind; [|intros ? ?].
      { apply (wp_events _ _ (λ t, called_functions t `sublist_of` _)).
        wp_run; in_order. }
      apply sublist_called_bind; [apply align_in_order|intros ? ?].
      apply sublist_called_bind; [apply measure_in_order|intros ? ?].
      apply sublist_called_bind; [apply measure_in_order|intros ? ?].
      apply sublist_called_bind; [apply clusters_in_order|intros ? ?].
      done.
    - unfold protein_system.analyze_observables_compute.
      apply sublist_called_bind; [|intros ? ?].
      { apply (wp_events _ _ (λ t, called_functions t `sublist_of` _)).
        wp_run; in_order. }
      apply sublist_called_bind; [apply observable_in_order|intros ? ?].
      apply sublist_called_bind; [apply observable_in_order|intros ? ?].
      apply observable_in_order. }
  split; [exact Horder|].
  apply stages_none. apply analyze_events; try done.
  - intros w'. apply (wp_events _ _ (Forall _)).
    unfold protein_system.analyze_align. wp_run; by each_event ltac:(reflexivity).
  - intros w'. apply (wp_events _ _ (Forall _)).
    unfold protein_system.analyze_measure, gt_zero.
    wp_run; by each_event ltac:(reflexivity).
  - intros w'. apply (wp_events _ _ (Forall _)).
    unfold protein_system.analyze_measure, gt_zero.
    wp_run; by each_event ltac:(reflexivity).
  - intros w'. apply (wp_events _ _ (Forall _)).
    unfold protein_system.analyze_clusters. wp_run; by each_event ltac:(reflexivity).
  - intros obs w' _. apply (wp_events _ _ (Forall _)).
    unfold protein_system.analyze_observable, value_contains, subscript.
    wp_run; by each_event ltac:(reflexivity).
  - intros obs w' _. apply (wp_events _ _ (Forall _)).
    unfold protein_system.analyze_observable, value_contains, subscript.
    wp_run; by each_event ltac:(reflexivity).
  - intros obs w' _. apply (wp_events _ _ (Forall _)).
    unfold protein_system.analyze_observable, value_contains, subscript.
    wp_run; by each_event ltac:(reflexivity).
Qed.

Lemma append_assoc a b c : (a +:+ b) +:+ c = a +:+ b +:+ c.
Proof.
  induction a as [|x a IH]; [done|].
  change (String x ((a +:+ b) +:+ c) = String x (a +:+ b +:+ c)). by rewrite IH.
Qed.

Lemma kwarg_app name xs ys :
  kwarg name (xs ++ ys) = from_option Some (kwarg name ys) (kwarg name xs).
Proof.
  induction xs as [|[k v] xs IH]; simpl; [done|]. by destruct (decide (k = name)).
Qed.

Lemma observable_output inputs data out :
  kwarg "output_path" inputs = None →
  kwarg "output_path"
    (("observable_path", data) :: inputs ++ [("output_path", VStr out)])
  = Some (VStr out).
Proof.
  intros Hin. cbn [kwarg]. rewrite decide_False by done.
  by rewrite kwarg_app, Hin.
Qed.

(** A call, after its check and its message. *)
Ltac after_its_check :=
  eexists _, _; split;
  [ eexists nil, _; reflexivity
  | first [ left; reflexivity
          | left; by apply observable_output
          | right; eexists; split; [reflexivity|]; by rewrite append_assoc ] ].

Ltac guarded_event :=
  cbn [guarded];
  first
    [ done
    | rewrite decide_True by done;
      eexists _, _, _; split_and!;
      [ eexists (cons _ (cons _ nil)), nil; reflexivity | reflexivity.. ]
    | rewrite decide_False by done; after_its_check ].

Lemma align_guarded self replica w :
  let t := events (analyze_align self replica (analysis_prefix self replica)
                     (analysis_file self replica "-reimaged.pdb") w) in
  Forall (guarded t) t.
Proof.
  intros t. subst t. apply (wp_events _ _ (λ t, Forall (guarded t) t)).
  unfold protein_system.analyze_align, analysis_file.
  wp_run; each_event guarded_event.
Qed.

Lemma measure_guarded self fn message topology trajectory frame_length out w :
  fn ≠ "merge_csvs" →
  let t := events (analyze_measure self fn message topology trajectory
                     frame_length out w) in
  Forall (guarded t) t.
Proof.
  intros Hfn t. subst t. apply (wp_events _ _ (λ t, Forall (guarded t) t)).
  unfold protein_system.analyze_measure, gt_zero.
  wp_run; each_event guarded_event.
Qed.

Lemma clusters_guarded self dihedrals clusters w :
  let t := events (analyze_clusters self dihedrals clusters w) in
  Forall (guarded t) t.
Proof.
  intros t. subst t. apply (wp_events _ _ (λ t, Forall (guarded t) t)).
  unfold protein_system.analyze_clusters.
  wp_run; each_event guarded_event.
Qed.

Lemma observable_guarded self obs key fn message inputs out w :
  fn ≠ "merge_csvs" → kwarg "output_path" inputs = None →
  let t := events (analyze_observable self obs key fn message inputs out w) in
  Forall (guarded t) t.
Proof.
  intros Hfn Hin t. subst t. apply (wp_events _ _ (λ t, Forall (guarded t) t)).
  unfold protein_system.analyze_observable, value_contains, subscript.
  wp_run; each_event guarded_event.
Qed.

(** X9.  A function of the analysis is called only when its own output has
    just been found missing or empty: every call directly follows the check
    of the file it writes ([align_trajectory] that of its reimaged topology)
    and the message; [merge_csvs] is called only directly after a
    measurement, on the output of that measurement. *)
Theorem analysis_calls_are_guarded self replica w :
  Forall (guarded (events (analyze_observables self replica w)))
    (events (analyze_observables self replica w)).
Proof.
  unfold protein_system.analyze_observables.
  apply guarded_bind; [|intros [[[d h] c] p] w'].
  - unfold protein_system.analyze_observables_measure. cbv zeta.
    apply guarded_bind; [|intros ? ?].
    { apply (wp_events _ _ (λ t, Forall (guarded t) t)).
      unfold mkdir. wp_run; by each_event ltac:(idtac). }
    apply guarded_bind; [|intros ? ?].
    { apply (wp_events _ _ (λ t, Forall (guarded t) t)). wp_run. constructor. }
    apply guarded_bind; [apply align_guarded|intros ? ?].
    apply guarded_bind; [by apply measure_guarded|intros ? ?].
    apply guarded_bind; [by apply measure_guarded|intros ? ?].
    apply guarded_bind; [apply clusters_guarded|intros ? ?].
    constructor.
  - unfold protein_system.analyze_observables_compute.
    apply guarded_bind; [|intros ? ?].
    { apply (wp_events _ _ (λ t, Forall (guarded t) t)). wp_run; constructor. }
    apply guarded_bind; [by apply observable_guarded|intros ? ?].
    apply guarded_bind; [by apply observable_guarded|intros ? ?].
    by apply observable_guarded.
Qed.

Ltac handed_off :=
  cbn [analysis_handoff];
  first
    [ done
    | unfold analysis_file, replica_dir, prod_prefix, replica_prefix;
      split_and!;
      first [ by intros [=]
            | intros _;
              try (destruct (bool_decide (sim_platform _ = "gmx"));
                   simpl negb in *; try discriminate);
              rewrite ?append_assoc; by split_and! ] ].

(** X10.  The files go from function to function of the analysis: the
    measurements read the reimaged topology and trajectory that
    [align_trajectory] writes under its output prefix (the hydrogen-bond
    measurement takes the protonated PDB of [setup] as its topology), the
    cluster assignment and the scalar couplings read the dihedrals, the
    hydrogen-bond scalar couplings read the hydrogen-bond geometries, the
    helix fraction reads the clusters and the geometries; the alignment
    reads the production trajectory and the minimized structure (under
    GROMACS the [traj.xtc] and [confout.gro] of the replica directory) and
    takes the initial PDB as reference; both measurements get the frame
    length of the target, [FRAME_LENGTH] by default. *)
Theorem analysis_files_go_from_function_to_function self replica w e :
  e ∈ events (analyze_observables self replica w) →
  analysis_handoff sp self replica e.
Proof.
  revert e. apply Forall_forall. apply analyze_events; [done|..].
  - intros w'. apply (wp_events _ _ (Forall _)).
    unfold protein_system.analyze_align.
    wp_run; each_event handed_off.
  - intros w'. apply (wp_events _ _ (Forall _)).
    unfold protein_system.analyze_measure, gt_zero.
    wp_run; each_event handed_off.
  - intros w'. apply (wp_events _ _ (Forall _)).
    unfold protein_system.analyze_measure, gt_zero.
    wp_run; each_event handed_off.
  - intros w'. apply (wp_events _ _ (Forall _)).
    unfold protein_system.analyze_clusters.
    wp_run; each_event handed_off.
  - intros obs w' _. apply (wp_events _ _ (Forall _)).
    unfold protein_system.analyze_observable, value_contains, subscript.
    wp_run; each_event handed_off.
  - intros obs w' _. apply (wp_events _ _ (Forall _)).
    unfold protein_system.analyze_observable, value_contains, subscript.
    wp_run; each_event handed_off.
  - intros obs w' _. apply (wp_events _ _ (Forall _)).
    unfold protein_system.analyze_observable, value_contains, subscript.
    wp_run; each_event handed_off.
Qed.

Ltac no_observable := cbn; first [done | by intros ? [=]].

Ltac its_observable :=
  cbn; first
    [ done
    | intros ? [= <-]; eexists _, _, _; by split_and! ].

(** X11.  A function of the last part of the analysis is called only for an
    observable that [target_parameters["observables"]] lists, and on the
    [observable_path] that the target gives for that observable. *)
Theorem observables_are_computed_from_their_data self replica w e :
  e ∈ events (analyze_observables self replica w) →
  observable_contract self e.
Proof.
  revert e. apply Forall_forall. apply analyze_events; [done|..].
  - intros w'. apply (wp_events _ _ (Forall _)).
    unfold protein_system.analyze_align.
    wp_run; each_event no_observable.
  - intros w'. apply (wp_events _ _ (Forall _)).
    unfold protein_system.analyze_measure, gt_zero.
    wp_run; each_event no_observable.
  - intros w'. apply (wp_events _ _ (Forall _)).
    unfold protein_system.analyze_measure, gt_zero.
    wp_run; each_event no_observable.
  - intros w'. apply (wp_events _ _ (Forall _)).
    unfold protein_system.analyze_clusters.
    wp_run; each_event no_observable.
  - intros obs w' Hobs. apply (wp_events _ _ (Forall _)).
    unfold protein_system.analyze_observable, value_contains, subscript.
    wp_run; each_event its_observable.
  - intros obs w' Hobs. apply (wp_events _ _ (Forall _)).
    unfold protein_system.analyze_observable, value_contains, subscript.
    wp_run; each_event its_observable.
  - intros obs w' Hobs. apply (wp_events _ _ (Forall _)).
    unfold protein_system.analyze_observable, value_contains, subscript.
    wp_run; each_event its_observable.
Qed.

(** The measurement blocks on a replica whose four artifacts are there. *)
Lemma measure_of_an_analyzed_replica self replica w v w0 :
  oracle (mkdir_call (analysis_dir self)) w = (Returned v, w0) →
  Forall (λ path, present (files w0) path = true)
    (analysis_artifacts self replica) →
  analyze_observables_measure self replica w =
    (Ret (analysis_file self replica "-dihedrals.dat",
          analysis_file self replica "-hydrogen-bond-geometries.dat",
          analysis_file self replica "-dihedral-clusters.dat",
          analysis_prefix self replica),
     w0,
     Called (mkdir_call (analysis_dir self))
     :: ((λ path, Checked path true) <$> analysis_artifacts self replica)).
Proof.
  intros Hmk Hall.
  apply Forall_cons in Hall as [H1 Hall]. apply Forall_cons in Hall as [H2 Hall].
  apply Forall_cons in Hall as [H3 Hall]. apply Forall_cons in Hall as [H4 _].
  unfold protein_system.analyze_observables_measure, protein_system.analyze_align,
    protein_system.analyze_measure, protein_system.analyze_clusters, mkdir,
    method, invoke, bind, exists_and_not_empty, contains, getitem.
  fold (analysis_dir self). cbv zeta. fold (analysis_prefix self replica).
  unfold mkdir_call in Hmk. rewrite Hmk. cbn [negb].
  destruct (target_parameters self !! "frame_length");
    cbn [ret]; rewrite H1; cbn [negb ret];
    rewrite H2; cbn [negb ret]; rewrite H3; cbn [negb ret];
    rewrite H4; reflexivity.
Qed.

(** An observable that is not listed, or whose file is there. *)
Lemma observable_of_an_analyzed_replica self items key fn message inputs out w :
  (is_Some (kwarg key items) → present (files w) out = true) →
  wp (analyze_observable self (VDict items) key fn message inputs out) w
    (λ r w' t, r = Ret tt ∧ w' = w ∧ Forall looks_only t).
Proof.
  intros Hout.
  unfold protein_system.analyze_observable, value_contains, subscript.
  wp_run;
    first [ by split_and!; [..|each_event ltac:(done)]
          | match goal with
            | H : bool_decide (is_Some _) = true |- _ =>
                apply bool_decide_eq_true in H; specialize (Hout H); congruence
            end ].
Qed.

(** X12.  On a replica that has been analysed, [analyze_observables] only
    looks: when the four files of the measurements are there, and the file
    of every observable that the dict [observables] lists, it returns with
    the world as [mkdir] left it, having called and printed nothing; every
    event after the [mkdir] is the check of a file that was found. *)
Theorem analysis_of_an_analyzed_replica self replica items w v w0 :
  oracle (mkdir_call (analysis_dir self)) w = (Returned v, w0) →
  target_parameters self !! "observables" = Some (VDict items) →
  Forall (λ path, present (files w0) path = true)
    (analysis_artifacts self replica) →
  Forall (λ '(key, suffix),
            is_Some (kwarg key items) →
            present (files w0) (analysis_file self replica suffix) = true)
    observable_files →
  result (analyze_observables self replica w) = Ret tt ∧
  final (analyze_observables self replica w) = w0 ∧
  Forall looks_only (events (analyze_observables self replica w)).
Proof.
  intros Hmk Hobs Hall Hfiles.
  apply Forall_cons in Hfiles as [H1 Hfiles].
  apply Forall_cons in Hfiles as [H2 Hfiles].
  apply Forall_cons in Hfiles as [H3 _].
  pose proof (measure_of_an_analyzed_replica self replica w v w0 Hmk Hall) as Hm.
  assert (Hlooks : Forall looks_only
    (Called (mkdir_call (analysis_dir self))
     :: ((λ path, Checked path true) <$> analysis_artifacts self replica))).
  { by each_event ltac:(done). }
  unfold protein_system.analyze_observables.
  rewrite result_bind, final_bind, events_bind, Hm.
  cbn [result final events fst snd].
  unfold protein_system.analyze_observables_compute, getitem. rewrite Hobs.
  pose proof (observable_of_an_analyzed_replica self items "scalar_couplings"
    "compute_scalar_couplings" "Computing scalar couplings for system "
    [("dihedrals_path", VStr (analysis_file self replica "-dihedrals.dat"))]
    (analysis_file self replica "-scalar-couplings.dat") w0 H1) as (R1 & W1 & E1).
  pose proof (observable_of_an_analyzed_replica self items
    "h_bond_scalar_couplings" "compute_h_bond_scalar_couplings"
    "Computing hydrogen bond scalar couplings for system "
    [("h_bond_geometries_path",
      VStr (analysis_file self replica "-hydrogen-bond-geometries.dat"))]
    (analysis_file self replica "-h-bond-scalar-couplings.dat") w0 H2)
    as (R2 & W2 & E2).
  pose proof (observable_of_an_analyzed_replica self items "fraction_helix"
    "compute_fraction_helix" "Computing fraction helix for system "
    [("dihedral_clusters_path",
      VStr (analysis_file self replica "-dihedral-clusters.dat"));
     ("h_bond_geometries_path",
      VStr (analysis_file self replica "-hydrogen-bond-geometries.dat"))]
    (analysis_file self replica "-fraction-helix.dat") w0 H3) as (R3 & W3 & E3).
  unfold wp, analysis_file in *.
  repeat (progress (rewrite ?result_bind, ?final_bind, ?events_bind,
                      ?R1, ?W1, ?R2, ?W2, ?R3, ?W3;
                    cbn [ret result final events fst snd app])).
  split_and!; [done..|].
  apply Forall_cons_2; [done|]. apply Forall_app; split; [by inversion Hlooks|].
  apply Forall_app; split; [done|]. by apply Forall_app.
Qed.

(** The exceptions of [m ;; k], with what [m] has returned. *)
Lemma raise_bind_ret {A B} (Φ : exn → Prop) (m : M A) (k : A → M B) w :
  (∀ e, result (m w) = Raise e → Φ e) →
  (∀ a, result (m w) = Ret a →
     ∀ e, result (k a (final (m w))) = Raise e → Φ e) →
  ∀ e, result (bind m k w) = Raise e → Φ e.
Proof.
  intros Hm Hk e. rewrite result_bind.
  destruct (result (m w)) as [a|e']; [by apply Hk|].
  intros [= <-]. by apply Hm.
Qed.

Ltac settle_analysis_error :=
  intros ? [= <-]; cbn;
  first [ done
        | by left
        | right; split; [done|]; by eexists
        | match goal with
          | H : bool_decide (is_Some None) = true |- _ =>
              apply bool_decide_eq_true in H; by destruct H
          end ].

Lemma observable_raises self obs key fn message inputs out w e :
  target_parameters self !! "observables" = Some obs →
  result (analyze_observable self obs key fn message inputs out w) = Raise e →
  analysis_error self e.
Proof.
  intros Hobs. revert e.
  apply (wp_result _ _ (λ r, ∀ e, r = Raise e → analysis_error self e)).
  unfold protein_system.analyze_observable, value_contains, subscript.
  wp_run; settle_analysis_error.
Qed.

(** X13.  [analyze_observables] ends in an exception of a wrapped call, in
    the [TypeError] or the [AttributeError] of an operator applied to a
    value of the wrong kind, or in a [KeyError] of its own: for
    [observables] when the target has none, and for [observable_path] when
    an observable that the dict [observables] lists does not give its data.
    It raises no [ValueError]. *)
Theorem exceptions_of_the_analysis self replica w e :
  result (analyze_observables self replica w) = Raise e →
  analysis_error self e.
Proof.
  revert e. unfold protein_system.analyze_observables.
  apply (raise_bind (analysis_error self)); [|intros [[[d h] c] p] w'].
  - unfold protein_system.analyze_observables_measure. cbv zeta.
    apply (raise_bind (analysis_error self)); [|intros ? ?].
    { apply (wp_result _ _ (λ r, ∀ e, r = Raise e → analysis_error self e)).
      unfold mkdir. wp_run; settle_analysis_error. }
    apply (raise_bind (analysis_error self)); [|intros ? ?].
    { apply (wp_result _ _ (λ r, ∀ e, r = Raise e → analysis_error self e)).
      wp_run; settle_analysis_error. }
    apply (raise_bind (analysis_error self)); [|intros ? ?].
    { apply (wp_result _ _ (λ r, ∀ e, r = Raise e → analysis_error self e)).
      unfold protein_system.analyze_align. wp_run; settle_analysis_error. }
    apply (raise_bind (analysis_error self)); [|intros ? ?].
    { apply (wp_result _ _ (λ r, ∀ e, r = Raise e → analysis_error self e)).
      unfold protein_system.analyze_measure, gt_zero.
      wp_run; settle_analysis_error. }
    apply (raise_bind (analysis_error self)); [|intros ? ?].
    { apply (wp_result _ _ (λ r, ∀ e, r = Raise e → analysis_error self e)).
      unfold protein_system.analyze_measure, gt_zero.
      wp_run; settle_analysis_error. }
    apply (raise_bind (analysis_error self)); [|intros ? ?].
    { apply (wp_result _ _ (λ r, ∀ e, r = Raise e → analysis_error self e)).
      unfold protein_system.analyze_clusters. wp_run; settle_analysis_error. }
    by intros ? [=].
  - unfold protein_system.analyze_observables_compute.
    apply (raise_bind_ret (analysis_error self)).
    { apply (wp_result _ _ (λ r, ∀ e, r = Raise e → analysis_error self e)).
      wp_run; settle_analysis_error. }
    intros obs Hobs.
    assert (target_parameters self !! "observables" = Some obs) as Hsome.
    { revert Hobs. unfold getitem.
      destruct (target_parameters self !! "observables"); [|by intros [=]].
      by intros [= <-]. }
    apply (raise_bind (analysis_error self)); [|intros ? ?].
    { intros e. by apply observable_raises. }
    apply (raise_bind (analysis_error self)); [|intros ? ?].
    { intros e. by apply observable_raises. }
    intros e. by apply observable_raises.
Qed.
End MoreOfAnalysis.

Section MoreOfForceFields.
Context {World : Type}.
Variable package_data_directory : string.

Local Abbreviation water_model_files :=
  (force_fields.water_model_files package_data_directory).
Local Abbreviation add_water_model_file :=
  (force_fields.add_water_model_file (World:=World) package_data_directory).
Local Abbreviation add_water_model_files :=
  (force_fields.add_water_model_files (World:=World) package_data_directory).

(** The body of the loop, on any entry. *)
Lemma add_water_model_file_cases (name : string) (d : dict) (w : World) :
  ∃ r, add_water_model_file d w = (r, w, []) ∧
    match r with
    | Ret d' => completable water_model_files d = true ∧ kept (name, d) (name, d')
    | Raise e => completable water_model_files d = false ∧ incomplete_entry d e
    end.
Proof.
  unfold force_fields.add_water_model_file, completable, incomplete_entry, kept,
    contains.
  destruct (d !! "water_model_file") as [file|] eqn:Hfile; cbn [negb].
  { eexists. split; [reflexivity|]. cbn. rewrite Hfile.
    split_and!; [done..|by eexists]. }
  unfold bind, getitem.
  destruct (d !! "water_model") as [model|] eqn:Hmodel;
    [|eexists; split; [reflexivity|done]].
  cbn [ret]. unfold force_fields.getitem_value, getitem.
  destruct model as [| | | | |model| | |];
    try (eexists; split; [reflexivity|done]).
  destruct (water_model_files !! model) as [file|] eqn:Hfiles;
    [|eexists; split; [reflexivity|done]].
  eexists. split; [reflexivity|]. cbn.
  split_and!; [done..| | |].
  - intros key Hkey. by rewrite lookup_insert_ne.
  - by rewrite Hfile.
  - rewrite lookup_insert_eq. by eexists.
Qed.

(** The loop, on any table. *)
Lemma add_water_model_files_cases (items : list (string * dict)) (w : World) :
  ∃ r, add_water_model_files items w = (r, w, []) ∧
    match r with
    | Ret table =>
        forallb (λ item, completable water_model_files item.2) items = true ∧
        Forall2 kept items table
    | Raise e =>
        forallb (λ item, completable water_model_files item.2) items = false ∧
        ∃ before name d after,
          items = before ++ (name, d) :: after ∧
          forallb (λ item, completable water_model_files item.2) before = true ∧
          incomplete_entry d e
    end.
Proof.
  induction items as [|[name d] items IH];
    cbn [force_fields.add_water_model_files forallb].
  { eexists. split; [reflexivity|]. split; [done|constructor]. }
  destruct (add_water_model_file_cases name d w) as (r & Hr & Hd).
  destruct IH as (rs & Hrs & Hitems).
  unfold bind at 1. rewrite Hr. destruct r as [d'|e].
  - destruct Hd as [Hd Hkept]. unfold bind at 1. rewrite Hrs. cbn [fst snd].
    rewrite Hd. cbn [andb]. destruct rs as [table|e].
    + destruct Hitems as [Hall Hkepts]. eexists. split; [reflexivity|].
      split; [done|]. by constructor.
    + destruct Hitems as (Hall & before & n & d0 & after & -> & Hbefore & He).
      eexists. split; [reflexivity|]. split; [done|].
      exists ((name, d) :: before), n, d0, after. split_and!; [done| |done].
      cbn [forallb fst snd]. by rewrite Hd.
  - destruct Hd as [Hd He]. eexists. split; [reflexivity|].
    cbn [fst snd]. rewrite Hd. split; [done|].
    by exists [], name, d, items.
Qed.


(** An entry that has a [water_model_file] is left as it is. *)
Lemma add_water_model_file_done (d : dict) (w : World) :
  is_Some (d !! "water_model_file") → add_water_model_file d w = (Ret d, w, []).
Proof.
  intros [file Hfile]. unfold force_fields.add_water_model_file, contains.
  by rewrite Hfile.
Qed.

Lemma add_water_model_files_done (table : list (string * dict)) (w : World) :
  Forall (λ item, is_Some (item.2 !! "water_model_file")) table →
  add_water_model_files table w = (Ret table, w, []).
Proof.
  induction 1 as [|[name d] table Hd _ IH];
    cbn [force_fields.add_water_model_files]; [done|].
  unfold bind at 1. rewrite (add_water_model_file_done d w Hd).
  unfold bind at 1. by rewrite IH.
Qed.

(** X15.  The loop of [force_fields.py] is idempotent: run again on a table
    it has completed, in any world, it returns that table. *)
Theorem water_model_files_are_added_once
    (items table : list (string * dict)) (w w' : World) :
  result (add_water_model_files items w) = Ret table →
  add_water_model_files table w' = (Ret table, w', []).
Proof.
  intros Hrun. apply add_water_model_files_done.
  destruct (add_water_model_files_cases items w) as (r & Heq & Hr).
  rewrite Heq in Hrun. cbn in Hrun. subst r. destruct Hr as [_ Hkept].
  clear Heq. induction Hkept as [|item item' items table Hitem _ IH];
    constructor; [|done].
  by destruct Hitem as (_ & _ & _ & Hfile).
Qed.

(** X16.  The loop of [force_fields.py] only adds: the table it returns has
    the names of the table it was given, in the same order, and every entry
    keeps all its keys; an entry that declares a [water_model_file], [None]
    included, is returned as it was, and every returned entry has one. *)
Theorem water_model_files_are_only_added
    (items table : list (string * dict)) (w : World) :
  result (add_water_model_files items w) = Ret table →
  table.*1 = items.*1 ∧ Forall2 kept items table.
Proof.
  intros Hrun.
  destruct (add_water_model_files_cases items w) as (r & Heq & Hr).
  rewrite Heq in Hrun. cbn in Hrun. subst r. destruct Hr as [_ Hkept].
  split; [|done]. clear Heq.
  induction Hkept as [|item item' items table Hitem _ IH]; [done|].
  cbn [fmap list_fmap]. destruct Hitem as (-> & _). by rewrite <- IH.
Qed.
End MoreOfForceFields.

Section MoreOfInit.
Context {World : Type}.
Variable files : World → gmap string string.
Variable oracle : call → World → answer * World.
Variable sp : simulation_parameters.

Local Abbreviation M := (M World).
Local Abbreviation setup := (setup files oracle sp).
Local Abbreviation run_simulations := (run_simulations files oracle sp).

(** The loop of [__init__] stops at the first quantity that is missing. *)
Lemma check_thermodynamic_state_first target_name tp quantities (w : World) e :
  result (check_thermodynamic_state target_name tp quantities w) = Raise e ↔
  ∃ before quantity after,
    quantities = before ++ quantity :: after ∧
    Forall (λ q, is_Some (tp !! q)) before ∧
    tp !! quantity = None ∧
    e = missing_quantity target_name quantity.
Proof.
  induction quantities as [|q rest IH]; cbn [check_thermodynamic_state].
  { split; [by intros [=]|]. by intros ([|??] & ? & ? & ? & _). }
  unfold contains. destruct (tp !! q) eqn:Hq; cbn [negb].
  - rewrite IH. split.
    + intros (before & quantity & after & -> & Hbefore & Hnone & ->).
      exists (q :: before), quantity, after. split_and!; [done| |done..].
      constructor; [by eexists|done].
    + intros ([|q' before] & quantity & after & Heq & Hbefore & Hnone & ->).
      * injection Heq as <- _. congruence.
      * injection Heq as <- ->. apply Forall_cons in Hbefore as [_ Hbefore].
        by exists before, quantity, after.
  - split.
    + intros [= <-]. by exists [], q, rest.
    + intros ([|q' before] & quantity & after & Heq & Hbefore & Hnone & ->).
      * by injection Heq as <- _.
      * injection Heq as <- _. apply Forall_cons in Hbefore as [[? Hsome] _].
        congruence.
Qed.

(** X17.  [__init__] raises for the first thermodynamic quantity, in the
    order pressure, temperature, pH, ionic strength, that the target does
    not give: it ends in an exception exactly when one of the four is
    missing, and the exception is the [ValueError] that names the first
    missing one. *)
Theorem init_names_the_first_missing_quantity result_directory target_name tp
    force_field_name water_model_name fff wmf platform gmx (w : World) e :
  result (__init__ result_directory target_name tp force_field_name
            water_model_name fff wmf platform gmx w) = Raise e ↔
  ∃ before quantity after,
    thermodynamic_state = before ++ quantity :: after ∧
    Forall (λ q, is_Some (tp !! q)) before ∧
    tp !! quantity = None ∧
    e = missing_quantity target_name quantity.
Proof.
  rewrite <- (check_thermodynamic_state_first target_name tp _ w e).
  unfold __init__, thermodynamic_state. rewrite result_bind.
  destruct (result (check_thermodynamic_state _ _ _ _)).
  - split; intros [=].
  - split; by intros [= <-].
Qed.

(** What [__init__] leaves on the object. *)
Lemma init_fields result_directory target_name tp force_field_name
    water_model_name fff wmf platform gmx (w : World) self :
  result (__init__ result_directory target_name tp force_field_name
            water_model_name fff wmf platform gmx w) = Ret self →
  target_parameters self = tp ∧
  Forall (λ q, is_Some (tp !! q)) thermodynamic_state ∧
  ∃ prefix,
    initial_pdb self = prefix +:+ "-initial.pdb" ∧
    protonated_pdb self = prefix +:+ "-protonated.pdb" ∧
    solvated_pdb self = prefix +:+ "-solvated.pdb" ∧
    minimized_pdb self = prefix +:+ "-minimized.pdb" ∧
    openmm_system self = prefix +:+ "-openmm-system.xml".
Proof.
  unfold __init__. rewrite result_bind. fold thermodynamic_state.
  destruct (result (check_thermodynamic_state _ _ _ _)) as [[]|e] eqn:Hcheck;
    [|by intros [=]].
  cbn [ret result fst]. intros [= <-]. cbn. split_and!; [done| |by eexists].
  apply Forall_forall. intros q Hq.
  destruct (tp !! q) eqn:Hnone; [by eexists|].
  apply list_elem_of_split in Hq as (before & after & Heq).
  assert (∃ e, result (check_thermodynamic_state target_name tp
                         thermodynamic_state w) = Raise e) as [e He];
    [|congruence].
  clear Hcheck. revert Heq. generalize thermodynamic_state.
  intros quantities. revert quantities.
  induction before as [|q' before IH]; intros quantities ->;
    cbn [check_thermodynamic_state app]; unfold contains.
  - rewrite Hnone. by eexists.
  - destruct (tp !! q'); cbn [negb]; [by apply IH|by eexists].
Qed.

(** X18.  A system that [__init__] has returned has its thermodynamic
    state: neither [setup] nor [run_simulations] ends in a [KeyError] for
    it; the one key they can miss is [target_type]. *)
Theorem constructed_system_has_its_thermodynamic_state result_directory
    target_name tp force_field_name water_model_name fff wmf platform gmx
    (w0 w : World) self replica key :
  result (__init__ result_directory target_name tp force_field_name
            water_model_name fff wmf platform gmx w0) = Ret self →
  result (setup self w) = Raise (KeyError key) ∨
  result (run_simulations self replica w) = Raise (KeyError key) →
  key = VStr "target_type" ∧ target_parameters self !! "target_type" = None.
Proof.
  intros (Htp & Hall & _)%init_fields Hraise.
  assert (Hstate : ∀ q, q ∈ thermodynamic_state →
            target_parameters self !! q ≠ None).
  { intros q Hq. rewrite Htp. rewrite Forall_forall in Hall.
    destruct (Hall q Hq) as [? ->]. done. }
  destruct Hraise as [Hraise|Hraise].
  - apply (setup_raises files oracle sp) in Hraise.
    destruct Hraise as [[_ Hnone]|[[_ Hnone]|(-> & Hnone & _)]]; [| |done].
    + by apply Hstate in Hnone; [|set_solver].
    + by apply Hstate in Hnone; [|set_solver].
  - apply (run_simulations_raises files oracle sp) in Hraise.
    destruct Hraise as [[_ Hnone]|[[_ Hnone]|(-> & Hnone & _)]]; [| |done].
    + by apply Hstate in Hnone; [|set_solver].
    + by apply Hstate in Hnone; [|set_solver].
Qed.

Lemma append_inj_l prefix s t : prefix +:+ s = prefix +:+ t → s = t.
Proof.
  induction prefix as [|c prefix IH]; [done|].
  change (String c (prefix +:+ s) = String c (prefix +:+ t) → s = t).
  intros [= H]. by apply IH.
Qed.

(** X19.  The files that [setup] writes for a system that [__init__] has
    returned are five different files: no stage of [setup] writes over the
    structure it reads, or over what another stage has written. *)
Theorem setup_files_are_distinct result_directory target_name tp
    force_field_name water_model_name fff wmf platform gmx (w : World) self :
  result (__init__ result_directory target_name tp force_field_name
            water_model_name fff wmf platform gmx w) = Ret self →
  NoDup (setup_files self).
Proof.
  intros (_ & _ & prefix & Hi & Hp & Hs & Hm & Ho)%init_fields.
  unfold setup_files. rewrite Hi, Hp, Hs, Hm, Ho.
  repeat (apply NoDup_cons_2;
          [rewrite ?elem_of_cons, elem_of_nil;
           intros H; repeat destruct H as [H|H];
           first [done | by apply append_inj_l in H]|]).
  apply NoDup_nil_2.
Qed.
End MoreOfInit.

(** ** The further properties on the sample world *)

Section MoreSamples.
Local Abbreviation setup := (setup Sample.files Sample.idle Sample.sp).
Local Abbreviation run_simulations :=
  (run_simulations Sample.files Sample.idle Sample.sp).
Local Abbreviation analyze_observables :=
  (analyze_observables Sample.files Sample.idle Sample.sp).
Local Abbreviation add_water_model_files :=
  (force_fields.add_water_model_files (World := unit) "data").

(** A peptide whose three artifacts are on disk. *)
Lemma setup_of_a_complete_system_witness :
  let self := Sample.system Sample.peptide "ff14sb-opc" "opc" "open_mm" in
  result (setup self (Cases.set_up self)) = Ret tt ∧
  stages (events (setup self (Cases.set_up self))) = [].
Proof.
  intros self.
  rewrite (setup_of_a_complete_system Sample.files Sample.idle Sample.sp self
             (Cases.set_up self) VNone (Cases.set_up self));
    [split; reflexivity | reflexivity | vm_compute; reflexivity..].
Defined.

(** A target that gives both a structure and a sequence. *)
Lemma build_source_and_defaults_witness :
  let self := Sample.system Cases.from_pdb "ff14sb-opc" "opc" "open_mm" in
  ∃ args kwargs,
    events (setup self ∅) !! 5
      = Some (Called (Call "build_initial_coordinates" args kwargs)) ∧
    build_contract self kwargs.
Proof.
  intros self. eexists _, _. split; [vm_compute; reflexivity|].
  apply (build_source_and_defaults Sample.files Sample.idle Sample.sp self ∅ []).
  apply (list_elem_of_lookup_2 _ 5). vm_compute. reflexivity.
Defined.

(** The structure of that target is read, written and built from. *)
Lemma initial_pdb_is_copied_then_built_witness :
  let self := Sample.system Cases.from_pdb "ff14sb-opc" "opc" "open_mm" in
  let source := VPath (Pathlib.new ["ala5.pdb"]) in
  ∃ text kwargs w1 w2,
    Sample.idle (Method source "read_text" [] []) w1 = (Returned text, w2) ∧
    appears
      [Called (Method source "read_text" [] []);
       Called (Method (VPath (Pathlib.new [initial_pdb self])) "write_text"
                 [text] []);
       Called (Call "build_initial_coordinates" [] kwargs)]
      (events (setup self ∅)).
Proof.
  intros self source.
  apply (initial_pdb_is_copied_then_built Sample.files Sample.idle Sample.sp
           self ∅ source).
  - vm_compute. reflexivity.
  - apply (list_elem_of_lookup_2 _ 0). vm_compute. reflexivity.
Defined.


(** A target of unknown type ends [run_simulations] in its
    [ValueError]. *)
Lemma exceptions_of_setup_and_run_simulations_witness :
  let self := Sample.system Sample.untyped "ff14sb-opc" "opc" "open_mm" in
  ∃ e, result (run_simulations self 1 ∅) = Raise e ∧
    run_simulations_error self e.
Proof.
  intros self. eexists. split; [vm_compute; reflexivity|].
  apply (exceptions_of_setup_and_run_simulations Sample.files Sample.idle
           Sample.sp self 1 ∅).
  vm_compute. reflexivity.
Defined.

(** A first replica on an empty disk is equilibrated. *)
Lemma equilibration_runs_iff_state_missing_witness :
  let self := Sample.system Sample.peptide "ff14sb-opc" "opc" "open_mm" in
  Equilibrate ∈ stages (events (run_simulations self 1 ∅)).
Proof.
  intros self.
  pose proof (equilibration_runs_iff_state_missing Sample.files Sample.idle
                Sample.sp self 1 ∅) as H.
  cbv zeta in H. destruct H as [_ H].
  apply H; vm_compute; reflexivity.
Defined.

(** A target of unknown type is equilibrated before it is refused. *)
Lemma unknown_target_type_is_found_after_equilibration_witness :
  let self := Sample.system Sample.untyped "ff14sb-opc" "opc" "open_mm" in
  Equilibrate ∈ stages (events (run_simulations self 1 ∅)) ∧
  (Produce ∉ stages (events (run_simulations self 1 ∅))) ∧
  ∃ msg, result (run_simulations self 1 ∅) = Raise (ValueError msg).
Proof.
  intros self.
  apply (unknown_target_type_is_found_after_equilibration Sample.files
           Sample.idle Sample.sp self 1 ∅ (VStr "other") VNone);
    vm_compute; reflexivity.
Defined.

(** The alignment of a first analysis. *)
Lemma analysis_files_go_from_function_to_function_witness :
  let self := Sample.system Cases.observed "ff14sb-opc" "opc" "open_mm" in
  ∃ kwargs,
    events (analyze_observables self 1 ∅) !! 3
      = Some (Called (Call "align_trajectory" [] kwargs)) ∧
    analysis_handoff Sample.sp self 1 (Called (Call "align_trajectory" [] kwargs)).
Proof.
  intros self. eexists. split; [vm_compute; reflexivity|].
  apply (analysis_files_go_from_function_to_function Sample.files Sample.idle
           Sample.sp self 1 ∅).
  apply (list_elem_of_lookup_2 _ 3). vm_compute. reflexivity.
Defined.

(** The scalar couplings of a replica whose measurements are on disk. *)
Lemma observables_are_computed_from_their_data_witness :
  let self := Sample.system Cases.observed "ff14sb-opc" "opc" "open_mm" in
  ∃ kwargs,
    events (analyze_observables self 1 (Sample.analyzed self)) !! 7
      = Some (Called (Call "compute_scalar_couplings" [] kwargs)) ∧
    observable_contract self (Called (Call "compute_scalar_couplings" [] kwargs)).
Proof.
  intros self. eexists. split; [vm_compute; reflexivity|].
  apply (observables_are_computed_from_their_data Sample.files Sample.idle
           Sample.sp self 1 (Sample.analyzed self)).
  apply (list_elem_of_lookup_2 _ 7). vm_compute. reflexivity.
Defined.

(** A replica whose measurements and scalar couplings are on disk. *)
Lemma analysis_of_an_analyzed_replica_witness :
  let self := Sample.system Cases.observed "ff14sb-opc" "opc" "open_mm" in
  result (analyze_observables self 1 (Cases.fully_analyzed self)) = Ret tt ∧
  final (analyze_observables self 1 (Cases.fully_analyzed self)) = Cases.fully_analyzed self ∧
  Forall looks_only (events (analyze_observables self 1 (Cases.fully_analyzed self))).
Proof.
  intros self.
  apply (analysis_of_an_analyzed_replica Sample.files Sample.idle Sample.sp
           self 1 Cases.observed_items (Cases.fully_analyzed self) VNone).
  - reflexivity.
  - vm_compute. reflexivity.
  - unfold analysis_artifacts. cbn [fmap list_fmap].
    repeat constructor; vm_compute; reflexivity.
  - unfold observable_files.
    repeat constructor; intros H;
      first [ vm_compute; reflexivity
            | destruct H as [? H]; vm_compute in H; discriminate H ].
Defined.

(** A peptide without [observables] whose measurements are on disk. *)
Lemma exceptions_of_the_analysis_witness :
  let self := Sample.system Sample.peptide "ff14sb-opc" "opc" "open_mm" in
  ∃ e, result (analyze_observables self 1 (Sample.analyzed self)) = Raise e ∧
    analysis_error self e.
Proof.
  intros self. eexists. split; [vm_compute; reflexivity|].
  apply (exceptions_of_the_analysis Sample.files Sample.idle Sample.sp self 1
           (Sample.analyzed self)).
  vm_compute. reflexivity.
Defined.


(** The completed table is completed again. *)
Lemma water_model_files_are_added_once_witness :
  add_water_model_files Cases.completed tt = (Ret Cases.completed, tt, []).
Proof.
  apply (water_model_files_are_added_once "data" Cases.declared Cases.completed
           tt tt).
  vm_compute. reflexivity.
Defined.

(** The completed table beside the declared one. *)
Lemma water_model_files_are_only_added_witness :
  Cases.completed.*1 = Cases.declared.*1 ∧
  Forall2 kept Cases.declared Cases.completed.
Proof.
  apply (water_model_files_are_only_added "data" Cases.declared Cases.completed
           tt).
  vm_compute. reflexivity.
Defined.

(** A target without temperature and without pH is refused for its
    temperature. *)
Lemma init_names_the_first_missing_quantity_witness :
  result (__init__ (World := Sample.World) "results" "ala5"
            (delete "ph" (delete "temperature" Sample.state_only))
            "ff14sb-opc" "opc" (VStr "ff14sb.xml") VNone "open_mm" VNone ∅)
    = Raise (missing_quantity "ala5" "temperature").
Proof.
  apply init_names_the_first_missing_quantity.
  exists ["pressure"], "temperature", ["ph"; "ionic_strength"].
  split_and!; [reflexivity| |vm_compute; reflexivity|reflexivity].
  repeat constructor. eexists. vm_compute. reflexivity.
Defined.

(** A sequence of no target type: [setup] misses [target_type], not the
    thermodynamic state. *)
Lemma constructed_system_has_its_thermodynamic_state_witness :
  let self := Sample.system Cases.typeless "ff14sb-opc" "opc" "open_mm" in
  result (setup self ∅) = Raise (KeyError (VStr "target_type")) ∧
  target_parameters self !! "target_type" = None.
Proof.
  intros self. split; [vm_compute; reflexivity|].
  apply (constructed_system_has_its_thermodynamic_state Sample.files
           Sample.idle Sample.sp "results" "ala5" Cases.typeless "ff14sb-opc"
           "opc" (VStr "ff14sb.xml") VNone "open_mm" VNone ∅ ∅ self 1
           (VStr "target_type")).
  - vm_compute. reflexivity.
  - left. vm_compute. reflexivity.
Defined.

(** The five files of the sample peptide. *)
Lemma setup_files_are_distinct_witness :
  NoDup (setup_files (Sample.system Sample.peptide "ff14sb-opc" "opc" "open_mm")).
Proof.
  apply (setup_files_are_distinct (World := Sample.World) "results" "ala5"
           Sample.peptide "ff14sb-opc" "opc" (VStr "ff14sb.xml") VNone
           "open_mm" VNone ∅).
  vm_compute. reflexivity.
Defined.
End MoreSamples.

(** * The calls a run makes *)

Section Launches.
Context {World : Type}.
Variable files : World → gmap string string.
Variable oracle : call → World → answer * World.
Variable sp : simulation_parameters.

Local Abbreviation M := (M World).
Local Abbreviation setup_build := (setup_build files oracle).
Local Abbreviation setup_solvate := (setup_solvate files oracle sp).
Local Abbreviation setup_minimize := (setup_minimize files oracle sp).
Local Abbreviation setup := (setup files oracle sp).
Local Abbreviation equilibrate := (run_simulations_equilibrate files oracle sp).
Local Abbreviation produce := (run_simulations_produce files oracle sp).
Local Abbreviation run_simulations := (run_simulations files oracle sp).
Local Abbreviation analyze_observables := (analyze_observables files oracle sp).

(** A stage that was started was started by an event. *)
Lemma stage_started s t : s ∈ stages t → ∃ e, e ∈ t ∧ stage_of e = Some s.
Proof. unfold stages. by intros (e & ? & ?)%list_elem_of_omap; exists e. Qed.

Lemma solvate_called t :
  Solvate ∈ stages t → ∃ args kwargs, Called (Call "solvate" args kwargs) ∈ t.
Proof.
  intros (e & Hin & Hs)%stage_started.
  destruct e as [[fn args kwargs|cls kw|receiver name ? ?]| |]; try done.
  - cbn in Hs. repeat case_decide; try done. subst. eauto.
  - destruct receiver; try done. cbn in Hs. repeat case_decide; try done.
    by destruct (kwarg _ _) as [v|]; [destruct (eq_str v "NPT")|].
Qed.

Lemma minimize_called t :
  Minimize ∈ stages t → ∃ args kwargs, Called (Call "minimize" args kwargs) ∈ t.
Proof.
  intros (e & Hin & Hs)%stage_started.
  destruct e as [[fn args kwargs|cls kw|receiver name ? ?]| |]; try done.
  - cbn in Hs. repeat case_decide; try done. subst. eauto.
  - destruct receiver; try done. cbn in Hs. repeat case_decide; try done.
    by destruct (kwarg _ _) as [v|]; [destruct (eq_str v "NPT")|].
Qed.

(** The stages of a [setup] that returns. *)
Lemma setup_stages_on_return self w :
  let solvated_pdb := Pathlib.str (setup_prefix self) +:+ "-solvated.pdb" in
  let w0 := final (mkdir oracle (setup_dir self) w) in
  let w1 := final (setup_build self w0) in
  let w2 := final (setup_solvate self solvated_pdb w1) in
  result (setup self w) = Ret tt →
  (present (files w0) (protonated_pdb self) = false →
   Build ∈ stages (events (setup self w))) ∧
  (present (files w1) (solvate_artifact self) = false →
   Solvate ∈ stages (events (setup self w))) ∧
  (present (files w2) (minimize_artifact self) = false →
   Minimize ∈ stages (events (setup self w))).
Proof.
  intros s w0 w1 w2.
  pose proof (setup_trace files oracle sp self w) as Ht. cbv zeta in Ht.
  unfold solvated_pdb in Ht. fold s w0 in Ht.
  fold w1 in Ht. fold w2 in Ht. destruct Ht as [-> ->].
  pose proof (setup_build_stage files oracle self w0) as Hb.
  pose proof (setup_solvate_stage files oracle sp self s w1) as Hs.
  pose proof (setup_minimize_stage files oracle sp self s w2) as Hm.
  unfold wp, ran_or_skipped in Hb, Hs, Hm.
  fold w1 in Hs. fold w2 in Hm.
  destruct (result (mkdir oracle (setup_dir self) w)); [|done].
  destruct (result (setup_build self w0)) as [[]|]; [|done].
  destruct (result (setup_solvate self s w1)) as [[]|]; [|done].
  destruct (result (setup_minimize self s w2)) as [[]|]; [|done].
  intros _. rewrite !stages_app.
  destruct Hb as [[-> ?]|[_ [?|[? ?]]]], Hs as [[-> ?]|[_ [?|[? ?]]]],
           Hm as [[-> ?]|[_ [?|[? ?]]]];
    split_and!; intros Hin; try congruence;
    rewrite !elem_of_app, ?elem_of_cons; tauto.
Qed.

Ltac not_started H := cbn in H; by apply elem_of_nil in H.

Ltac meets_contract :=
  first
    [ reflexivity
    | eassumption
    | done
    | unfold equilibration_contract; cbv zeta; use_facts; split; cascade
    | unfold production_contract; cbv zeta; use_facts;
      split_and!; [cascade..|];
      first [ reflexivity
            | eexists _, _; split; [reflexivity|];
              unfold traj_length_by_type; use_facts; done ] ].

(** The block of equilibration, when it launches. *)
Lemma equilibrate_launch self replica w :
  wp (equilibrate self (run_setup_prefix self) (equil_prefix self replica)
        (equilibrated_state self replica)) w (λ r _ t,
    Equilibrate ∈ stages t →
    ∃ cls kw,
      t = equilibration_run self replica cls kw ∧
      builds (equil_prefix self replica) kw ∧
      equilibration_contract sp self kw).
Proof.
  unfold protein_system.run_simulations_equilibrate, equilibration_run.
  wp_run; intros Hin;
    first
      [ eexists _, _; use_facts; cbv iota; split_and!; meets_contract
      | not_started Hin ].
Qed.

(** The block of production, when it launches. *)
Lemma produce_launch self replica w :
  wp (produce self (run_setup_prefix self) (equil_prefix self replica)
        (prod_prefix self replica) (equilibrated_state self replica)) w
    (λ r _ t,
      Produce ∈ stages t →
      ∃ found cls kw v wc,
        t = Printed ("Running NPT production for system " +:+ system_name self)
            :: production_tail self replica cls kw found ∧
        production_object self replica cls kw ∧
        production_contract sp self kw ∧
        oracle (New cls kw) w = (Returned v, wc) ∧
        found = present (files wc) (production_checkpoint self replica)).
Proof.
  unfold protein_system.run_simulations_produce, production_tail,
    production_object, production_checkpoint, production_launch,
    equilibrated_state, builds.
  wp_run; intros Hin;
    first
      [ match goal with
        | H : present _ _ = ?found |- _ => exists found
        end;
        eexists _, _, _, _; use_facts; cbv iota; split_and!; meets_contract
      | not_started Hin ].
Qed.

End Launches.

Section RunLaunches.
Context {World : Type}.
Variable files : World → gmap string string.
Variable oracle : call → World → answer * World.
Variable sp : simulation_parameters.

Local Abbreviation M := (M World).
Local Abbreviation setup := (setup files oracle sp).
Local Abbreviation equilibrate := (run_simulations_equilibrate files oracle sp).
Local Abbreviation produce := (run_simulations_produce files oracle sp).
Local Abbreviation run_simulations := (run_simulations files oracle sp).

(** What [run_simulations] launches, and when. *)
Lemma run_simulations_launches self replica w :
  let w0 := final (mkdir oracle (replica_dir self replica) w) in
  let state := equilibrated_state self replica in
  let w1 := final (equilibrate self (run_setup_prefix self)
                     (equil_prefix self replica) state w0) in
  let t := events (run_simulations self replica w) in
  (∀ v, result (mkdir oracle (replica_dir self replica) w) = Ret v →
     Checked state (present (files w0) state) ∈ t) ∧
  (Equilibrate ∈ stages t →
     present (files w0) state = false ∧
     ∃ cls kw,
       appears (equilibration_run self replica cls kw) t ∧
       builds (equil_prefix self replica) kw ∧
       equilibration_contract sp self kw) ∧
  (Produce ∈ stages t →
     ∃ found cls kw v wc before,
       t = before ++ production_tail self replica cls kw found ∧
       production_object self replica cls kw ∧
       production_contract sp self kw ∧
       oracle (New cls kw) w1 = (Returned v, wc) ∧
       found = present (files wc) (production_checkpoint self replica)) ∧
  (result (run_simulations self replica w) = Ret tt →
     Produce ∈ stages t ∧
     (present (files w0) state = false → Equilibrate ∈ stages t)).
Proof.
  intros w0 state w1 t.
  pose proof (run_simulations_trace files oracle sp self replica w) as Ht.
  cbv zeta in Ht. destruct Ht as [Ht Hr].
  pose proof (mkdir_stages oracle (replica_dir self replica) w) as Hd.
  pose proof (equilibrate_ran_or_skipped files oracle sp self replica w0) as He.
  pose proof (equilibrate_launch files oracle sp self replica w0) as Hel.
  pose proof (produce_stage files oracle sp self replica w1) as Hp.
  pose proof (produce_launch files oracle sp self replica w1) as Hpl.
  unfold wp, ran_or_skipped in He, Hel, Hp, Hpl.
  fold state in Ht, Hr, He, Hel, Hp, Hpl. fold w0 in Ht, Hr.
  fold w1 in Ht, Hr. fold t in Ht.
  generalize dependent (produce self (run_setup_prefix self)
                          (equil_prefix self replica) (prod_prefix self replica)
                          state w1).
  intros prod_run Ht Hr Hp Hpl.
  generalize dependent (result (run_simulations self replica w)).
  intros r Hr. subst r. clearbody t. subst t. clearbody w1.
  generalize dependent (equilibrate self (run_setup_prefix self)
                          (equil_prefix self replica) state w0).
  intros eq_run He Hel. intros. clearbody w0.
  generalize dependent (mkdir oracle (replica_dir self replica) w).
  intros md Hd.
  rewrite stages_app, Hd.
  destruct (result md) as [v0|];
    [|split_and!; [done|by intros ?%elem_of_nil..|done]].
  rewrite !stages_app. cbn [app stages omap stage_of list_omap].
  assert (Hprod : Produce ∉ stages (events eq_run)).
  { destruct He as [[-> _]|[-> _]]; rewrite ?elem_of_cons, elem_of_nil;
      intuition discriminate. }
  assert (Hequil : Equilibrate ∉ stages match result eq_run with
                                         | Ret _ => events prod_run
                                         | Raise _ => []
                                         end).
  { destruct (result eq_run); [|by intros ?%elem_of_nil].
    destruct Hp as [[-> _]|[-> _]]; rewrite ?elem_of_cons, elem_of_nil;
      intuition discriminate. }
  split_and!.
  - intros v _. rewrite !elem_of_app, !elem_of_cons. tauto.
  - intros [Hin|Hin]%elem_of_app; [|by apply Hequil in Hin].
    split.
    { destruct He as [[_ ?]|[He _]]; [done|].
      rewrite He in Hin. by apply elem_of_nil in Hin. }
    destruct (Hel Hin) as (cls & kw & Heq & Hb & Hc).
    exists cls, kw. split; [|done]. rewrite <- Heq.
    exists (events md ++ [Printed state; Checked state (present (files w0) state);
                          Printed (str_of_bool (present (files w0) state))]),
      (match result eq_run with
       | Ret _ => events prod_run
       | Raise _ => []
       end).
    rewrite <- app_assoc. reflexivity.
  - intros [Hin|Hin]%elem_of_app; [by apply Hprod in Hin|].
    destruct (result eq_run); [|by apply elem_of_nil in Hin].
    destruct (Hpl Hin) as (found & cls & kw & v & wc & Heq & ? & ? & ? & ?).
    exists found, cls, kw, v, wc.
    exists (events md ++
            [Printed state; Checked state (present (files w0) state);
             Printed (str_of_bool (present (files w0) state))] ++
            events eq_run ++
            [Printed ("Running NPT production for system "
                      +:+ system_name self)]).
    split; [|done]. rewrite Heq. rewrite <- !app_assoc. reflexivity.
  - destruct (result eq_run) as [[]|]; [|done].
    intros Hret. split.
    + apply elem_of_app. right.
      destruct Hp as [[_ [e Hp]]|[-> _]]; [congruence|by left].
    + intros Hmissing. apply elem_of_app. left.
      destruct He as [[-> _]|[_ [?|[? ?]]]]; [by left|congruence..].
Qed.
End RunLaunches.

(** * The claims on what a run calls *)

Section Calls.
Context {World : Type}.
Variable files : World → gmap string string.
Variable oracle : call → World → answer * World.
Variable sp : simulation_parameters.

Local Abbreviation M := (M World).
Local Abbreviation setup_build := (setup_build files oracle).
Local Abbreviation setup_solvate := (setup_solvate files oracle sp).
Local Abbreviation setup_minimize := (setup_minimize files oracle sp).
Local Abbreviation setup := (setup files oracle sp).
Local Abbreviation equilibrate := (run_simulations_equilibrate files oracle sp).
Local Abbreviation produce := (run_simulations_produce files oracle sp).
Local Abbreviation run_simulations := (run_simulations files oracle sp).
Local Abbreviation analyze_observables := (analyze_observables files oracle sp).

(** The calls of a [setup] that returns. *)
Lemma setup_calls self w :
  let solvated_pdb := Pathlib.str (setup_prefix self) +:+ "-solvated.pdb" in
  let w0 := final (mkdir oracle (setup_dir self) w) in
  let w1 := final (setup_build self w0) in
  let w2 := final (setup_solvate self solvated_pdb w1) in
  result (setup self w) = Ret tt →
  (present (files w1) (solvate_artifact self) = false →
   ∃ args kwargs,
     Called (Call "solvate" args kwargs) ∈ events (setup self w) ∧
     solvate_contract sp self kwargs) ∧
  (present (files w2) (minimize_artifact self) = false →
   ∃ args kwargs,
     Called (Call "minimize" args kwargs) ∈ events (setup self w) ∧
     minimize_contract sp self kwargs).
Proof.
  intros solvated_pdb w0 w1 w2 Hret.
  pose proof (setup_stages_on_return files oracle sp self w) as Hs.
  cbv zeta in Hs. destruct (Hs Hret) as (_ & Hsolvate & Hminimize).
  pose proof (setup_contract files oracle sp self 1 w) as Hall.
  rewrite Forall_forall in Hall.
  split; intros Hmissing.
  - destruct (solvate_called _ (Hsolvate Hmissing)) as (args & kwargs & Hin).
    exists args, kwargs. split; [done|]. by apply (Hall _ Hin).
  - destruct (minimize_called _ (Hminimize Hmissing)) as (args & kwargs & Hin).
    exists args, kwargs. split; [done|]. by apply (Hall _ Hin).
Qed.





(** C3 (amended).  Every call of [solvate] and [minimize] made by [setup]
    and every simulation built by [run_simulations] meets its contract: the
    parameters listed there are [target_parameters[key]] when the key is
    present and the constant of [simulation_parameters] otherwise; the
    solvent padding and the production trajectory length fall back on a
    constant chosen by the target type; under GROMACS [minimize] receives
    the energy tolerance in place of the restraint energy constant.  And
    the calls are made: a [setup] that returns has called [solvate] and
    [minimize], each under its contract, whenever the artifact of the stage
    was missing or empty in the world in which it is looked for ([w1] and
    [w2]); a [run_simulations] that returns has built the production
    simulation under its contract, and the equilibration simulation too
    whenever the equilibrated state was missing or empty once the replica
    directory was made. *)
Theorem parameters_cascade self replica w w' :
  let solvated_pdb := Pathlib.str (setup_prefix self) +:+ "-solvated.pdb" in
  let w0 := final (mkdir oracle (setup_dir self) w) in
  let w1 := final (setup_build self w0) in
  let w2 := final (setup_solvate self solvated_pdb w1) in
  let w0' := final (mkdir oracle (replica_dir self replica) w') in
  (∀ e,
     e ∈ events (setup self w) ∨ e ∈ events (run_simulations self replica w') →
     cascade_contract sp self replica e) ∧
  (result (setup self w) = Ret tt →
   (present (files w1) (solvate_artifact self) = false →
    ∃ args kwargs,
      Called (Call "solvate" args kwargs) ∈ events (setup self w) ∧
      solvate_contract sp self kwargs) ∧
   (present (files w2) (minimize_artifact self) = false →
    ∃ args kwargs,
      Called (Call "minimize" args kwargs) ∈ events (setup self w) ∧
      minimize_contract sp self kwargs)) ∧
  (result (run_simulations self replica w') = Ret tt →
   (present (files w0') (equilibrated_state self replica) = false →
    ∃ cls kwargs,
      Called (New cls kwargs) ∈ events (run_simulations self replica w') ∧
      builds (equil_prefix self replica) kwargs ∧
      equilibration_contract sp self kwargs) ∧
   (∃ cls kwargs,
      Called (New cls kwargs) ∈ events (run_simulations self replica w') ∧
      builds (prod_prefix self replica) kwargs ∧
      production_contract sp self kwargs)).
Proof.
  intros solvated_pdb w0 w1 w2 w0'. split_and!.
  - intros e [Hin|Hin].
    + pose proof (setup_contract files oracle sp self replica w) as Hall.
      rewrite Forall_forall in Hall. by apply Hall.
    + pose proof (run_simulations_contract files oracle sp self replica w')
        as Hall.
      rewrite Forall_forall in Hall. by apply Hall.
  - intros Hret. pose proof (setup_calls self w) as Hcalls.
    cbv zeta in Hcalls. by apply Hcalls.
  - intros Hret.
    pose proof (run_simulations_launches files oracle sp self replica w') as H.
    cbv zeta in H. destruct H as (_ & Hequil & Hprod & Hlaunched).
    destruct (Hlaunched Hret) as [Hin Hin']. split.
    + intros Hmissing.
      destruct (Hequil (Hin' Hmissing)) as (_ & cls & kw & Happ & ? & ?).
      exists cls, kw. split_and!; [|done..].
      destruct Happ as (before & after & ->).
      rewrite !elem_of_app. right. left. unfold equilibration_run.
      rewrite !elem_of_cons. tauto.
    + destruct (Hprod Hin) as (found & cls & kw & v & wc & before
                               & -> & [? _] & ? & _).
      exists cls, kw. split_and!; [|done..].
      rewrite elem_of_app. right. unfold production_tail.
      rewrite !elem_of_cons. tauto.
Qed.
End Calls.

Section OwnErrors.
Context {World : Type}.
Variable files : World → gmap string string.
Variable oracle : call → World → answer * World.
Variable sp : simulation_parameters.

Local Abbreviation M := (M World).
Local Abbreviation setup_build := (setup_build files oracle).
Local Abbreviation setup := (setup files oracle sp).
Local Abbreviation equilibrate := (run_simulations_equilibrate files oracle sp).
Local Abbreviation run_simulations := (run_simulations files oracle sp).
Local Abbreviation analyze_observables := (analyze_observables files oracle sp).

(** The block that builds, on a target with nothing to build from. *)
Lemma build_value_error self w :
  present (files w) (protonated_pdb self) = false →
  target_parameters self !! "initial_pdb" = None →
  target_parameters self !! "aa_sequence" = None →
  ∃ msg, result (setup_build self w) = Raise (ValueError msg).
Proof.
  intros Hmissing Hpdb Hseq.
  apply (wp_result _ _ (λ r, ∃ msg, r = Raise (ValueError msg))).
  unfold protein_system.setup_build.
  wp_run; first [congruence | by eexists].
Qed.

(** C4 (amended).  The [ValueError]s of the orchestration itself.
    [__init__] calls no engine and leaves the world as it is; it raises
    exactly when one of the thermodynamic quantities (pressure,
    temperature, pH, ionic strength) is missing, and what it raises is the
    [ValueError] naming the first missing one; it returns an object exactly
    when all four are given.  [setup] raises [ValueError] only when
    [target_parameters] has neither [initial_pdb] nor [aa_sequence], and it
    does raise it for such a target when the setup directory is made and
    the protonated PDB is missing or empty.  [run_simulations] raises
    [ValueError] only when [traj_length] is absent and the target type is
    none of [peptide], [folded], [disordered], and it does raise it for
    such a target once the replica directory is made and equilibration has
    returned.  [analyze_observables] raises no [ValueError]. *)
Theorem value_errors_of_the_orchestration :
  (∀ result_directory target_name tp force_field_name water_model_name
     fff wmf platform gmx (w : World),
     let run := __init__ result_directory target_name tp force_field_name
                  water_model_name fff wmf platform gmx w in
     events run = [] ∧ final run = w ∧
     (∀ e, result run = Raise e ↔
        ∃ before quantity after,
          thermodynamic_state = before ++ quantity :: after ∧
          Forall (λ q, is_Some (tp !! q)) before ∧
          tp !! quantity = None ∧
          e = ValueError ("benchmark_targets for target " +:+ target_name
                          +:+ " must contain " +:+ dquote +:+ quantity
                          +:+ dquote)) ∧
     ((∃ quantity, quantity ∈ thermodynamic_state ∧ tp !! quantity = None) ↔
      ∃ msg, result run = Raise (ValueError msg)) ∧
     ((∀ quantity, quantity ∈ thermodynamic_state → is_Some (tp !! quantity)) ↔
      ∃ self, result run = Ret self)) ∧
  (∀ self w,
     (∀ msg, result (setup self w) = Raise (ValueError msg) →
        target_parameters self !! "initial_pdb" = None ∧
        target_parameters self !! "aa_sequence" = None) ∧
     (∀ v, result (mkdir oracle (setup_dir self) w) = Ret v →
        present (files (final (mkdir oracle (setup_dir self) w)))
          (protonated_pdb self) = false →
        target_parameters self !! "initial_pdb" = None →
        target_parameters self !! "aa_sequence" = None →
        ∃ msg, result (setup self w) = Raise (ValueError msg))) ∧
  (∀ self replica w,
     (∀ msg, result (run_simulations self replica w) = Raise (ValueError msg) →
        target_parameters self !! "traj_length" = None ∧
        ∃ target_type,
          target_parameters self !! "target_type" = Some target_type ∧
          eq_str target_type "peptide" = false ∧
          eq_str target_type "folded" = false ∧
          eq_str target_type "disordered" = false) ∧
     (∀ target_type v,
        target_parameters self !! "traj_length" = None →
        target_parameters self !! "target_type" = Some target_type →
        eq_str target_type "peptide" = false →
        eq_str target_type "folded" = false →
        eq_str target_type "disordered" = false →
        result (mkdir oracle (replica_dir self replica) w) = Ret v →
        result (equilibrate self (run_setup_prefix self)
                  (equil_prefix self replica) (equilibrated_state self replica)
                  (final (mkdir oracle (replica_dir self replica) w))) = Ret tt →
        ∃ msg, result (run_simulations self replica w) = Raise (ValueError msg))) ∧
  (∀ self replica w msg,
     result (analyze_observables self replica w) ≠ Raise (ValueError msg)).
Proof.
  split_and!.
  - intros rd tn tp ffn wmn fff wmf platform gmx w run.
    pose proof (init_run rd tn tp ffn wmn fff wmf platform gmx w) as H.
    cbv zeta in H. fold run in H.
    destruct H as (Hevents & Hfinal & Hraise & _ & Hret).
    assert (Hfirst : ∀ e, result run = Raise e ↔
      ∃ before quantity after,
        thermodynamic_state = before ++ quantity :: after ∧
        Forall (λ q, is_Some (tp !! q)) before ∧
        tp !! quantity = None ∧
        e = ValueError ("benchmark_targets for target " +:+ tn
                        +:+ " must contain " +:+ dquote +:+ quantity
                        +:+ dquote)).
    { intros e.
      rewrite <- (check_thermodynamic_state_first tn tp thermodynamic_state w e).
      subst run. unfold __init__, thermodynamic_state. rewrite result_bind.
      destruct (result (check_thermodynamic_state _ _ _ _)).
      - split; intros [=].
      - split; by intros [= <-]. }
    assert (Hall : ∀ self, result run = Ret self →
              ∀ q, q ∈ thermodynamic_state → is_Some (tp !! q)).
    { intros self (_ & Hall & _)%init_fields. by apply Forall_forall. }
    clearbody run. split_and!; [done..| |].
    + split.
      * intros (q & Hq & Hnone). destruct (result run) as [self|e] eqn:Hrun.
        -- destruct (Hall self eq_refl q Hq) as [? ?]. congruence.
        -- destruct (Hraise e eq_refl) as (? & _ & _ & ->). by eexists.
      * intros [msg Hmsg]. destruct (Hraise _ Hmsg) as (q & ? & ? & _).
        by exists q.
    + split; [done|]. intros [self Hself]. by apply (Hall self).
  - intros self w. split; [apply setup_value_error|].
    intros v Hm Hmissing Hpdb Hseq.
    pose proof (setup_trace files oracle sp self w) as Ht. cbv zeta in Ht.
    destruct Ht as [_ ->]. rewrite Hm.
    destruct (build_value_error self _ Hmissing Hpdb Hseq) as [msg ->].
    by exists msg.
  - intros self replica w. split; [apply run_simulations_value_error|].
    intros ty v Hl Hty Hp Hf Hd Hm He.
    pose proof (run_simulations_trace files oracle sp self replica w) as Ht.
    cbv zeta in Ht. destruct Ht as [_ ->]. rewrite Hm, He.
    by apply (produce_value_error files oracle sp self replica ty).
  - apply analyze_observables_value_error.
Qed.
End OwnErrors.

(** ** The claims on what a run calls, on the sample world *)

Section SampleCalls.
Local Abbreviation setup := (setup Sample.files Sample.idle Sample.sp).
Local Abbreviation run_simulations :=
  (run_simulations Sample.files Sample.idle Sample.sp).




(** A target that overrides a parameter of every stage: each stage is
    called with the override, and with the constant for a parameter the
    target does not give. *)
Lemma parameters_cascade_witness :
  let self := Sample.system Replicas.overridden "ff14sb-opc" "opc" "open_mm" in
  (∃ args kwargs,
     Called (Call "solvate" args kwargs) ∈ events (setup self ∅) ∧
     kwarg "nonbonded_cutoff" kwargs = Some (VInt 9) ∧
     kwarg "vdw_switch_width" kwargs = Some (VDW_SWITCH_WIDTH Sample.sp)) ∧
  (∃ args kwargs,
     Called (Call "minimize" args kwargs) ∈ events (setup self ∅) ∧
     kwarg "restraint_energy_constant" kwargs = Some (VInt 1)) ∧
  (∃ cls kwargs,
     Called (New cls kwargs) ∈ events (run_simulations self 1 ∅) ∧
     builds (equil_prefix self 1) kwargs ∧
     kwarg "timestep" kwargs = Some (VInt 2) ∧
     kwarg "frame_length" kwargs = Some (EQUIL_FRAME_LENGTH Sample.sp)) ∧
  (∃ cls kwargs,
     Called (New cls kwargs) ∈ events (run_simulations self 1 ∅) ∧
     builds (prod_prefix self 1) kwargs ∧
     kwarg "timestep" kwargs = Some (VInt 4) ∧
     kwarg "traj_length" kwargs = Some (VInt 7)).
Proof.
  intros self.
  pose proof (parameters_cascade Sample.files Sample.idle Sample.sp self 1 ∅ ∅)
    as H.
  cbv zeta in H. destruct H as (_ & Hsetup & Hrun).
  destruct Hsetup as [Hsolvate Hminimize]; [vm_compute; reflexivity|].
  destruct Hrun as [Hequil Hprod]; [vm_compute; reflexivity|].
  split_and!.
  - destruct Hsolvate as (args & kwargs & Hin & Hc & _);
      [vm_compute; reflexivity|].
    exists args, kwargs. split; [exact Hin|].
    apply Forall_cons in Hc as [H1 Hc]. apply Forall_cons in Hc as [H2 _].
    rewrite H1, H2. split; vm_compute; reflexivity.
  - destruct Hminimize as (args & kwargs & Hin & Hc);
      [vm_compute; reflexivity|].
    exists args, kwargs. split; [exact Hin|].
    unfold minimize_contract in Hc. cbv zeta in Hc.
    assert (Hgmx : bool_decide (sim_platform self = "gmx") = false)
      by (vm_compute; reflexivity).
    rewrite Hgmx in Hc. destruct Hc as [H1 _].
    rewrite H1. vm_compute. reflexivity.
  - destruct Hequil as (cls & kwargs & Hin & Hb & Hc & _);
      [vm_compute; reflexivity|].
    exists cls, kwargs. split_and!; [exact Hin|exact Hb|..].
    + apply Forall_cons in Hc as [H1 _]. rewrite H1. vm_compute. reflexivity.
    + apply Forall_cons in Hc as [_ Hc]. apply Forall_cons in Hc as [_ Hc].
      apply Forall_cons in Hc as [H3 _]. rewrite H3. vm_compute. reflexivity.
  - destruct Hprod as (cls & kwargs & Hin & Hb & Hc & _ & Hl).
    exists cls, kwargs. split_and!; [exact Hin|exact Hb|..].
    + apply Forall_cons in Hc as [H1 _]. rewrite H1. vm_compute. reflexivity.
    + assert (Hsome : target_parameters self !! "traj_length" = Some (VInt 7))
        by (vm_compute; reflexivity).
      by rewrite Hsome in Hl.
Defined.

(** A target without pH is refused by [__init__]; a target that gives only
    the thermodynamic state is refused by [setup]. *)
Lemma value_errors_of_the_orchestration_witness :
  (∃ msg,
     result (__init__ (World := Sample.World) "results" "ala5"
               (delete "ph" Sample.state_only) "ff14sb-opc" "opc"
               (VStr "ff14sb.xml") VNone "open_mm" VNone ∅)
       = Raise (ValueError msg)) ∧
  (let self := Sample.system Sample.state_only "ff14sb-opc" "opc" "open_mm" in
   (∃ msg, result (setup self ∅) = Raise (ValueError msg)) ∧
   target_parameters self !! "initial_pdb" = None ∧
   target_parameters self !! "aa_sequence" = None).
Proof.
  pose proof (value_errors_of_the_orchestration Sample.files Sample.idle
                Sample.sp) as (Hinit & Hsetup & _).
  split.
  - pose proof (Hinit "results" "ala5" (delete "ph" Sample.state_only)
                  "ff14sb-opc" "opc" (VStr "ff14sb.xml") VNone "open_mm"
                  VNone ∅) as H.
    cbv zeta in H. destruct H as (_ & _ & _ & [Hraise _] & _).
    apply Hraise. exists "ph". split; [|vm_compute; reflexivity].
    unfold thermodynamic_state. rewrite !elem_of_cons. tauto.
  - intros self. destruct (Hsetup self ∅) as [Honly Hraise].
    assert (Hmsg : ∃ msg, result (setup self ∅) = Raise (ValueError msg)).
    { apply (Hraise VNone); vm_compute; reflexivity. }
    split; [exact Hmsg|]. destruct Hmsg as [msg Hmsg].
    exact (Honly msg Hmsg).
Defined.
End SampleCalls.
